(** * VS Code IntelliSense configuration updater: model and properties

    A shallow embedding of [scripts/update_vscode_includes.py]: the regular
    expressions and glob patterns it relies on, the file system it reads and
    writes, and the classes [ConanDataParser], [CMakeCacheReader],
    [CompilerDetector] and [IntelliSenseConfigGenerator]. *)

From Stdlib Require Import Strings.String Strings.Ascii.
From stdpp Require Import base option list strings pretty sorting gmap sets.

Local Open Scope string_scope.

(** ** Python strings

    Text is modelled as [string], a sequence of 8-bit characters; the
    methods below follow [str] on ASCII text. *)

Module PyStr.

(** The double-quote character, code 34. *)
Definition dq : string := String "034"%char EmptyString.

Definition chars (s : string) : list ascii := list_ascii_of_string s.
Definition of_chars (l : list ascii) : string := string_of_list_ascii l.

(** [str.isspace] on ASCII: tab, line feed, vertical tab, form feed,
    carriage return, the separators 28..31 and the space. *)
Definition isspace (c : ascii) : bool :=
  let n := nat_of_ascii c in
  (((9 <=? n) && (n <=? 13)) || ((28 <=? n) && (n <=? 32)))%nat.

Definition is_newline (c : ascii) : bool := Ascii.eqb c "010"%char.

(** [\w] on ASCII: letters, digits and the underscore. *)
Definition isword (c : ascii) : bool :=
  let n := nat_of_ascii c in
  (((48 <=? n) && (n <=? 57)) || ((65 <=? n) && (n <=? 90))
   || ((97 <=? n) && (n <=? 122)) || (n =? 95))%nat.

Definition lower_char (c : ascii) : ascii :=
  let n := nat_of_ascii c in
  if ((65 <=? n) && (n <=? 90))%nat then ascii_of_nat (n + 32) else c.

(** [s.lower()] *)
Fixpoint lower (s : string) : string :=
  match s with
  | EmptyString => EmptyString
  | String c s' => String (lower_char c) (lower s')
  end.

Fixpoint lstrip_by (f : ascii → bool) (s : string) : string :=
  match s with
  | EmptyString => EmptyString
  | String c s' => if f c then lstrip_by f s' else s
  end.

Definition rstrip_by (f : ascii → bool) (s : string) : string :=
  String.rev (lstrip_by f (String.rev s)).

Definition strip_by (f : ascii → bool) (s : string) : string :=
  rstrip_by f (lstrip_by f s).

(** [s.strip()] *)
Definition strip (s : string) : string := strip_by isspace s.

(** [s.strip(cs)]: strips the characters that occur in [cs]. *)
Definition strip_chars (cs : string) (s : string) : string :=
  strip_by (fun c => bool_decide (c ∈ chars cs)) s.

(** [s.startswith(p)] *)
Definition startswith (p s : string) : bool := String.prefix p s.

(** [s[n:]] *)
Fixpoint drop (n : nat) (s : string) : string :=
  match n, s with
  | O, _ => s
  | S _, EmptyString => EmptyString
  | S n', String _ s' => drop n' s'
  end.

(** [s.replace(old, new)] for a non-empty [old]: occurrences are replaced
    from left to right and do not overlap. [skip] counts the characters of
    an occurrence that are still to be passed over. *)
Fixpoint replace_go (old new : string) (skip : nat) (s : string) : string :=
  match s with
  | EmptyString => EmptyString
  | String c s' =>
      match skip with
      | S k => replace_go old new k s'
      | O =>
          if String.prefix old s
          then new ++ replace_go old new (String.length old - 1) s'
          else String c (replace_go old new 0 s')
      end
  end.

Definition replace (old new s : string) : string := replace_go old new 0 s.

(** [s.split(sep)] for a one-character separator: empty fields are kept,
    and the empty string splits into one empty field. *)
Fixpoint split_go (sep : ascii) (cur : list ascii) (s : string) : list string :=
  match s with
  | EmptyString => [of_chars (reverse cur)]
  | String c s' =>
      if Ascii.eqb c sep
      then of_chars (reverse cur) :: split_go sep [] s'
      else split_go sep (c :: cur) s'
  end.

Definition split (sep : ascii) (s : string) : list string := split_go sep [] s.

(** [s.split()]: fields separated by runs of white space, none empty. *)
Definition split_ws (s : string) : list string :=
  filter (fun w => w ≠ EmptyString)
         (fold_right
            (fun c acc =>
               match acc with
               | [] => []
               | w :: ws => if isspace c then EmptyString :: w :: ws
                            else String c w :: ws
               end)
            [EmptyString] (chars s)).

(** A string is truthy when it is not empty. *)
Definition truthy (s : string) : bool :=
  match s with EmptyString => false | _ => true end.

End PyStr.

(** ** Regular expressions

    The patterns of the source are sequences of literals and of repeated
    character classes, some of them captured. [re.search] is the usual
    backtracking matcher: the leftmost start position wins, a greedy
    repetition tries the longest run first and a lazy one the shortest. *)

Module Re.

Inductive item :=
| Lit (s : string)
| Rep (cls : ascii → bool) (least : nat) (greedy : bool) (group : option nat).

Definition regex := list item.
Definition captures := gmap nat string.

Definition strip_prefix (p s : string) : option string :=
  if String.prefix p s then Some (PyStr.drop (String.length p) s) else None.

Definition record (g : option nat) (taken : list ascii) (c : captures) : captures :=
  match g with
  | Some i => <[i := PyStr.of_chars (reverse taken)]> c
  | None => c
  end.

(** [rep cls greedy k acc s least]: consume characters of [cls] from [s],
    at least [least] of them, and hand the run and the rest to [k]. *)
Fixpoint rep {A} (cls : ascii → bool) (greedy : bool)
    (k : list ascii → string → option A)
    (acc : list ascii) (s : string) (least : nat) : option A :=
  let stop := match least with O => k acc s | S _ => None end in
  match s with
  | String c s' =>
      if cls c then
        if greedy then
          match rep cls greedy k (c :: acc) s' (pred least) with
          | Some r => Some r
          | None => stop
          end
        else
          match stop with
          | Some r => Some r
          | None => rep cls greedy k (c :: acc) s' (pred least)
          end
      else stop
  | EmptyString => stop
  end.

Fixpoint match_here (r : regex) (s : string) (c : captures) : option captures :=
  match r with
  | [] => Some c
  | Lit l :: r' =>
      match strip_prefix l s with
      | Some s' => match_here r' s' c
      | None => None
      end
  | Rep cls least greedy g :: r' =>
      rep cls greedy (fun taken rest => match_here r' rest (record g taken c))
          [] s least
  end.

(** [re.search(r, s)]: the captures of the leftmost match. *)
Fixpoint search (r : regex) (s : string) : option captures :=
  match match_here r s ∅ with
  | Some c => Some c
  | None =>
      match s with
      | EmptyString => None
      | String _ s' => search r s'
      end
  end.

(** [m.group(i)] of a group that took part in the match. *)
Definition group (i : nat) (m : captures) : string := default EmptyString (m !! i).

Definition word : ascii → bool := PyStr.isword.
Definition dot (c : ascii) : bool := negb (PyStr.is_newline c).
Definition other_than (x : ascii) (c : ascii) : bool := negb (Ascii.eqb c x).

End Re.

(** ** Glob patterns

    [fnmatch] on one path component, case sensitive as on POSIX: [*] is any
    run of characters, [?] any single character, [[seq]] and [[!seq]] a
    character set with ranges, and a [[] without a closing bracket stands for
    itself. *)

Module Fnmatch.

Inductive gitem :=
| GStar
| GAny
| GSet (negated : bool) (members : list (ascii * ascii))
| GLit (c : ascii).

(** The members of a set: [a-b] is a range, anything else stands for
    itself. *)
Fixpoint members (stuff : list ascii) : list (ascii * ascii) :=
  match stuff with
  | [] => []
  | c1 :: rest =>
      match rest with
      | "-"%char :: c2 :: rest' => (c1, c2) :: members_skip 2 rest
      | _ => (c1, c1) :: members rest
      end
  end
with members_skip (n : nat) (stuff : list ascii) : list (ascii * ascii) :=
  match stuff with
  | [] => []
  | _ :: rest =>
      match n with
      | S (S k) => members_skip (S k) rest
      | _ => members rest
      end
  end.

(** Splits at the first closing bracket. *)
Fixpoint find_close (l : list ascii) : option (list ascii * list ascii) :=
  match l with
  | [] => None
  | c :: l' =>
      if Ascii.eqb c "]"%char then Some ([], l')
      else match find_close l' with
           | Some (mid, rest) => Some (c :: mid, rest)
           | None => None
           end
  end.

(** What follows an opening bracket: an optional [!], an optional closing
    bracket that belongs to the set, and the set up to the next closing
    bracket. *)
Definition bracket (l : list ascii) : option (gitem * list ascii) :=
  let '(neg, l1) :=
    match l with
    | "!"%char :: l' => (true, l')
    | _ => (false, l)
    end in
  let '(first, l2) :=
    match l1 with
    | "]"%char :: l' => (["]"%char], l')
    | _ => ([], l1)
    end in
  match find_close l2 with
  | Some (mid, rest) => Some (GSet neg (members (first ++ mid)%list), rest)
  | None => None
  end.

Fixpoint translate_go (fuel : nat) (p : list ascii) : list gitem :=
  match fuel, p with
  | O, _ => []
  | _, [] => []
  | S fuel', c :: p' =>
      if Ascii.eqb c "*"%char then GStar :: translate_go fuel' p'
      else if Ascii.eqb c "?"%char then GAny :: translate_go fuel' p'
      else if Ascii.eqb c "["%char then
        match bracket p' with
        | Some (it, rest) => it :: translate_go fuel' rest
        | None => GLit c :: translate_go fuel' p'
        end
      else GLit c :: translate_go fuel' p'
  end.

Definition translate (pat : string) : list gitem :=
  let p := PyStr.chars pat in translate_go (length p) p.

Definition in_set (c : ascii) (ms : list (ascii * ascii)) : bool :=
  existsb (fun '(lo, hi) =>
             (nat_of_ascii lo <=? nat_of_ascii c)%nat
             && (nat_of_ascii c <=? nat_of_ascii hi)%nat) ms.

Fixpoint gmatch (p : list gitem) (s : list ascii) : bool :=
  match p with
  | [] => match s with [] => true | _ => false end
  | GStar :: p' =>
      (fix star (s : list ascii) : bool :=
         gmatch p' s || match s with [] => false | _ :: s' => star s' end) s
  | GAny :: p' =>
      match s with [] => false | _ :: s' => gmatch p' s' end
  | GSet neg ms :: p' =>
      match s with
      | [] => false
      | c :: s' => xorb neg (in_set c ms) && gmatch p' s'
      end
  | GLit x :: p' =>
      match s with
      | [] => false
      | c :: s' => Ascii.eqb c x && gmatch p' s'
      end
  end.

Definition fnmatch (name pat : string) : bool :=
  gmatch (translate pat) (PyStr.chars name).

End Fnmatch.

(** ** Paths

    A [pathlib] path is the list of its [parts]; an absolute path starts
    with the part ["/"]. *)

Definition path := list string.

Module Path.

(** The parts of a path written as text: empty components and ["."] are
    dropped. *)
Definition of_string (s : string) : path :=
  ((if PyStr.startswith "/" s then ["/"] else [])
     ++ filter (fun c => c ≠ EmptyString ∧ c ≠ ".") (PyStr.split "/"%char s))%list.

(** [p / s] *)
Definition join (p : path) (s : string) : path :=
  if PyStr.startswith "/" s then of_string s else (p ++ of_string s)%list.

(** [p.name] *)
Definition name (p : path) : string :=
  match last p with
  | Some n => if String.eqb n "/" then EmptyString else n
  | None => EmptyString
  end.

(** [p.parent] *)
Definition parent (p : path) : path :=
  match p with
  | ["/"] => p
  | _ => removelast p
  end.

(** [str(p)] *)
Definition to_string (p : path) : string :=
  match p with
  | [] => "."
  | "/" :: rest => "/" ++ String.concat "/" rest
  | _ => String.concat "/" p
  end.

(** The order of [sorted] on paths: part by part. *)
Fixpoint leb (p q : path) : bool :=
  match p, q with
  | [], _ => true
  | _ :: _, [] => false
  | a :: p', b :: q' =>
      if String.eqb a b then leb p' q' else String.leb a b
  end.

Definition le (p q : path) : Prop := leb p q.

End Path.

Notation "p // s" := (Path.join p s) (at level 40, left associativity).

(** ** The file system and what the program does to it *)

Inductive node :=
| File (content : string)
| Dir.

#[global] Instance node_eq_dec : EqDecision node.
Proof. solve_decision. Defined.

Inductive stream := Stdout | Stderr.

Inductive event :=
| EvWrite (p : path) (content : string)
| EvUnlink (p : path)
| EvMkdir (p : path)
| EvPrint (to : stream) (msg : string).

Inductive exn :=
| FileNotFoundError (p : path)
| IsADirectoryError (p : path)
| FileExistsError (p : path).

Inductive result (A : Type) :=
| Ok (a : A)
| Raise (e : exn).
Arguments Ok {A} a.
Arguments Raise {A} e.

(** The files and directories, and the calls made so far, oldest first. *)
Record world := World {
  fs : gmap path node;
  trace : list event;
}.

Definition M (A : Type) : Type := world → result A * world.

Definition ret {A} (a : A) : M A := fun w => (Ok a, w).

Definition bind {A B} (m : M A) (k : A → M B) : M B :=
  fun w =>
    match m w with
    | (Ok a, w') => k a w'
    | (Raise e, w') => (Raise e, w')
    end.

Definition raise {A} (e : exn) : M A := fun w => (Raise e, w).

Definition lift {A} (r : result A) : M A := fun w => (r, w).

Definition get_fs : M (gmap path node) := fun w => (Ok (fs w), w).

Definition emit (e : event) : M unit :=
  fun w => (Ok tt, World (fs w) (trace w ++ [e])%list).

Definition set_fs (f : gmap path node) : M unit :=
  fun w => (Ok tt, World f (trace w)).

(** [try: m except Exception as e: h e] *)
Definition try_except {A} (m : M A) (h : exn → M A) : M A :=
  fun w =>
    match m w with
    | (Ok a, w') => (Ok a, w')
    | (Raise e, w') => h e w'
    end.

Notation "'let*' x := m 'in' k" := (bind m (fun x => k))
  (at level 10, x pattern, m at level 100, k at level 200).
Notation "m ;; k" := (bind m (fun _ => k))
  (at level 100, k at level 200, right associativity).

Definition bind_result {A B} (r : result A) (k : A → result B) : result B :=
  match r with
  | Ok a => k a
  | Raise e => Raise e
  end.

Fixpoint map_result {A B} (f : A → result B) (l : list A) : result (list B) :=
  match l with
  | [] => Ok []
  | x :: l' =>
      bind_result (f x) (fun y =>
      bind_result (map_result f l') (fun ys => Ok (y :: ys)))
  end.

Module FS.

(** [p.exists()] *)
Definition exists_ (f : gmap path node) (p : path) : bool :=
  bool_decide (is_Some (f !! p)).

(** [p.is_dir()] *)
Definition is_dir (f : gmap path node) (p : path) : bool :=
  bool_decide (f !! p = Some Dir).

(** [p.read_text()] and [p.read_bytes()] *)
Definition read (f : gmap path node) (p : path) : result string :=
  match f !! p with
  | Some (File c) => Ok c
  | Some Dir => Raise (IsADirectoryError p)
  | None => Raise (FileNotFoundError p)
  end.

(** [p.write_text(c)], and [open(p, "w")] followed by a write: the parent
    has to be a directory and [p] must not be one. *)
Definition write (p : path) (c : string) : M unit :=
  emit (EvWrite p c) ;;
  let* f := get_fs in
  match f !! p with
  | Some Dir => raise (IsADirectoryError p)
  | _ =>
      if is_dir f (Path.parent p) then set_fs (<[p := File c]> f)
      else raise (FileNotFoundError p)
  end.

(** [p.unlink()] *)
Definition unlink (p : path) : M unit :=
  emit (EvUnlink p) ;;
  let* f := get_fs in
  match f !! p with
  | Some (File _) => set_fs (delete p f)
  | Some Dir => raise (IsADirectoryError p)
  | None => raise (FileNotFoundError p)
  end.

(** [p.mkdir(exist_ok=True)] *)
Definition mkdir_exist_ok (p : path) : M unit :=
  emit (EvMkdir p) ;;
  let* f := get_fs in
  match f !! p with
  | Some Dir => ret tt
  | Some (File _) => raise (FileExistsError p)
  | None =>
      if is_dir f (Path.parent p) then set_fs (<[p := Dir]> f)
      else raise (FileNotFoundError p)
  end.

(** [print(msg)] and [print(msg, file=sys.stderr)] *)
Definition print (to : stream) (msg : string) : M unit := emit (EvPrint to msg).

(** The names of the entries of directory [d]. *)
Definition child_name (d p : path) : option string :=
  match last p with
  | Some n => if decide (p = (d ++ [n])%list) then Some n else None
  | None => None
  end.

Definition children (f : gmap path node) (d : path) : gset string :=
  set_omap (child_name d) (dom f).

End FS.

Definition exn_str (e : exn) : string :=
  match e with
  | FileNotFoundError p => "[Errno 2] No such file or directory: '" ++ Path.to_string p ++ "'"
  | IsADirectoryError p => "[Errno 21] Is a directory: '" ++ Path.to_string p ++ "'"
  | FileExistsError p => "[Errno 17] File exists: '" ++ Path.to_string p ++ "'"
  end.

(** ** Data of the program *)

(** What [parse_data_file] returns. *)
Record conan_file_data := ConanFileData {
  fd_include_dirs : list string;
  fd_defines : list string;
  fd_framework_dirs : list string;
  fd_frameworks : list string;
}.

(** What [scan_generators_directory] returns. *)
Record conan_data := ConanData {
  include_dirs : gset string;
  defines : gset string;
  framework_dirs : gset string;
}.

(** One entry of the configuration document. *)
Record config := Config {
  cfg_name : string;
  cfg_configurationProvider : string;
  cfg_includePath : list string;
  cfg_defines : list string;
  cfg_compilerPath : string;
  cfg_cStandard : string;
  cfg_cppStandard : string;
  cfg_intelliSenseMode : string;
  cfg_macFrameworkPath : option (list string);
}.

(** The document written to [c_cpp_properties.json]. *)
Record cpp_properties := CppProperties {
  doc_version : nat;
  doc_configurations : list config;
  doc_comment : string;
}.

(** What the program gets from its libraries and from the machine it runs
    on: [hashlib.sha256(data).hexdigest()], [json.dump(doc, indent=4)], the
    order in which a directory lists its entries (some permutation of
    them), [platform.system()], [shutil.which], the output of
    [xcrun --find clang] when it succeeds, and the first [cl.exe] that the
    [vswhere] probe of [_detect_msvc] finds. *)
Record Env := {
  sha256_hexdigest : string → string;
  json_dump : cpp_properties → string;
  listing_order : list string → list string;
  listing_perm : ∀ l, listing_order l ≡ₚ l;
  platform_system : string;
  which : string → option string;
  xcrun_find_clang : option string;
  vswhere_cl : option string;
}.

(** [sorted] on strings and on paths. *)
Definition sorted_strings (l : list string) : list string := merge_sort String.le l.

#[global] Instance path_le_dec : RelDecision Path.le.
Proof. intros p q. unfold Path.le. apply _. Defined.

Definition sorted_paths (l : list path) : list path := merge_sort Path.le l.

(** [os.path.join(a, b)] on POSIX. *)
Definition os_path_join (a b : string) : string :=
  if PyStr.startswith "/" b then b
  else if negb (PyStr.truthy a) || PyStr.startswith "/" (String.rev a) then a ++ b
  else a ++ "/" ++ b.

(** [a or b] on optional strings. *)
Definition py_or (a b : option string) : option string :=
  match a with
  | Some s => if PyStr.truthy s then Some s else b
  | None => b
  end.

Definition opt_truthy (a : option string) : bool :=
  match a with
  | Some s => PyStr.truthy s
  | None => false
  end.

(** ** [ConanDataParser] *)

Module ConanDataParser.
Import PyStr Re.

(** [set\(\w+_INCLUDE_DIRS_\w+ Q([^Q]+)Q\)], with Q for the double
    quote. *)
Definition re_include_dirs : regex :=
  [ Lit "set("; Rep word 1 true None; Lit "_INCLUDE_DIRS_"; Rep word 1 true None;
    Lit (" " ++ dq); Rep (other_than "034") 1 true (Some 1); Lit (dq ++ ")") ].

(** [set\((\w+)_PACKAGE_FOLDER_\w+ Q([^Q]+)Q\)] *)
Definition re_package_folder : regex :=
  [ Lit "set("; Rep word 1 true (Some 1); Lit "_PACKAGE_FOLDER_";
    Rep word 1 true None; Lit (" " ++ dq);
    Rep (other_than "034") 1 true (Some 2); Lit (dq ++ ")") ].

(** [set\(\w+_INCLUDE_DIRS_\w+ Q\$\{.*?PACKAGE_FOLDER.*?\}/([^Q]+)Q\)] *)
Definition re_include_templated : regex :=
  [ Lit "set("; Rep word 1 true None; Lit "_INCLUDE_DIRS_"; Rep word 1 true None;
    Lit (" " ++ dq ++ "${"); Rep dot 0 false None; Lit "PACKAGE_FOLDER";
    Rep dot 0 false None; Lit "}/";
    Rep (other_than "034") 1 true (Some 1); Lit (dq ++ ")") ].

(** [set\(\w+_COMPILE_DEFINITIONS_\w+ ([^)]+)\)] and its two siblings. *)
Definition re_set_list (field : string) : regex :=
  [ Lit "set("; Rep word 1 true None; Lit ("_" ++ field ++ "_");
    Rep word 1 true None; Lit " "; Rep (other_than ")") 1 true (Some 1); Lit ")" ].

Definition re_defines : regex := re_set_list "COMPILE_DEFINITIONS".
Definition re_framework_dirs : regex := re_set_list "FRAMEWORK_DIRS".
Definition re_frameworks : regex := re_set_list "FRAMEWORKS".

(** The include directories found in the text of a data file. *)
Definition parse_include_dirs (content : string) : list string :=
  let include_dirs :=
    match search re_include_dirs content with
    | Some m => [replace "}" "" (replace "${" "" (group 1 m))]
    | None => []
    end in
  match search re_package_folder content with
  | Some pkg_folder_match =>
      let pkg_folder := group 2 pkg_folder_match in
      match search re_include_templated content with
      | Some include_match => [os_path_join pkg_folder (group 1 include_match)]
      | None =>
          match include_dirs with
          | [] => [os_path_join pkg_folder "include"]
          | _ => include_dirs
          end
      end
  | None => include_dirs
  end.

(** A list-valued [set(...)]: the quotes around the value are stripped and
    a non-empty value is split by [splitter]. *)
Definition parse_list (r : regex) (splitter : string → list string)
    (content : string) : list string :=
  match search r content with
  | Some m =>
      let str := strip_chars dq (group 1 m) in
      if truthy str then splitter str else []
  | None => []
  end.

Definition parse_content (content : string) : conan_file_data :=
  {| fd_include_dirs := parse_include_dirs content;
     fd_defines := parse_list re_defines split_ws content;
     fd_framework_dirs := parse_list re_framework_dirs (split ";") content;
     fd_frameworks := parse_list re_frameworks (split ";") content |}.

Definition parse_data_file (f : gmap path node) (file_path : path)
    : result conan_file_data :=
  bind_result (FS.read f file_path) (fun content => Ok (parse_content content)).

End ConanDataParser.

(** ** [CMakeCacheReader] *)

Module CMakeCacheReader.
Import PyStr Re.

(** [KEY:TYPE=(.+)] *)
Definition re_entry (key type : string) : regex :=
  [ Lit (key ++ ":" ++ type ++ "="); Rep dot 1 true (Some 1) ].

Definition patterns : list (string * regex) :=
  [ ("CMAKE_CXX_COMPILER", re_entry "CMAKE_CXX_COMPILER" "FILEPATH");
    ("CMAKE_BUILD_TYPE", re_entry "CMAKE_BUILD_TYPE" "STRING");
    ("CMAKE_CONFIGURATION_TYPES", re_entry "CMAKE_CONFIGURATION_TYPES" "STRING");
    ("CMAKE_GENERATOR", re_entry "CMAKE_GENERATOR" "INTERNAL") ].

Definition read_content (content : string) : gmap string string :=
  foldl (fun cache_data '(key, pattern) =>
           match search pattern content with
           | Some m => <[key := strip (group 1 m)]> cache_data
           | None => cache_data
           end)
        ∅ patterns.

Definition read_cache (f : gmap path node) (cache_file : path)
    : result (gmap string string) :=
  if negb (FS.exists_ f cache_file) then Ok ∅
  else bind_result (FS.read f cache_file) (fun content => Ok (read_content content)).

End CMakeCacheReader.

(** The generator object: [self.workspace_root] and [self.vscode_dir]. *)
Record generator := Generator {
  workspace_root : path;
  vscode_dir : path;
}.

Section Program.
Context (E : Env).

(** [os.scandir(d)]: the entries of a directory in the order the file
    system gives them. *)
Definition scandir (f : gmap path node) (d : path) : list string :=
  listing_order E (sorted_strings (elements (FS.children f d))).

(** [directory.glob(pattern)]: the pattern is matched part by part against
    the entries of the directories. The recursive wildcard is not
    modelled. *)
Fixpoint glob_parts (f : gmap path node) (pats : list string) (d : path)
    : list path :=
  match pats with
  | [] => [d]
  | pat :: rest =>
      if FS.is_dir f d then
        flat_map (fun n => glob_parts f rest (d ++ [n])%list)
                 (filter (fun n => Fnmatch.fnmatch n pat) (scandir f d))
      else []
  end.

Definition glob (f : gmap path node) (d : path) (pattern : string) : list path :=
  glob_parts f (Path.of_string pattern) d.

(** *** [ConanDataParser.scan_generators_directory] *)

Fixpoint scan_files (f : gmap path node) (data_files : list path)
    (acc : conan_data) : result conan_data :=
  match data_files with
  | [] => Ok acc
  | data_file :: rest =>
      bind_result (ConanDataParser.parse_data_file f data_file) (fun data =>
        scan_files f rest
          {| include_dirs := include_dirs acc ∪ list_to_set (fd_include_dirs data);
             defines := defines acc ∪ list_to_set (fd_defines data);
             framework_dirs :=
               framework_dirs acc ∪ list_to_set (fd_framework_dirs data) |})
  end.

Definition scan_generators_directory (f : gmap path node)
    (generators_dir : path) (build_type : string) : result conan_data :=
  let pattern := "*-" ++ PyStr.lower build_type ++ "-*-data.cmake" in
  let data_files := glob f generators_dir pattern in
  scan_files f data_files
    {| include_dirs := ∅; defines := ∅; framework_dirs := ∅ |}.

(** *** [CompilerDetector] *)

Definition _detect_msvc : option string * string :=
  match vswhere_cl E with
  | Some cl => (Some cl, "windows-msvc-x64")
  | None =>
      let cl_exe := which E "cl" in
      if opt_truthy cl_exe then (cl_exe, "windows-msvc-x64")
      else (None, "windows-msvc-x64")
  end.

Definition _detect_macos_clang : option string * string :=
  match xcrun_find_clang E with
  | Some stdout => (Some (PyStr.strip stdout), "macos-clang-x64")
  | None => (which E "clang", "macos-clang-x64")
  end.

Definition _detect_linux_compiler : option string * string :=
  let gcc_path := which E "gcc" in
  if opt_truthy gcc_path then (gcc_path, "linux-gcc-x64")
  else
    let clang_path := which E "clang" in
    if opt_truthy clang_path then (clang_path, "linux-clang-x64")
    else (None, "linux-gcc-x64").

Definition detect_compiler : option string * string :=
  let system := platform_system E in
  if String.eqb system "Windows" then _detect_msvc
  else if String.eqb system "Darwin" then _detect_macos_clang
  else if String.eqb system "Linux" then _detect_linux_compiler
  else (None, "gcc-x64").

(** *** [IntelliSenseConfigGenerator] *)

Definition __init__ (workspace_root : path) : M generator :=
  let vscode_dir := workspace_root // ".vscode" in
  FS.mkdir_exist_ok vscode_dir ;;
  ret {| workspace_root := workspace_root; vscode_dir := vscode_dir |}.

Definition _build_include_path (conan_data : conan_data) : list string :=
  [ "${workspaceFolder}/**"; "${workspaceFolder}/include"; "${workspaceFolder}/src" ]
    ++ sorted_strings (elements (include_dirs conan_data)).

Definition _build_defines (build_type : string) (conan_data : conan_data)
    : list string :=
  ([ "UNICODE"; "_UNICODE" ]
     ++ [ if String.eqb build_type "Debug" then "_DEBUG" else "NDEBUG" ])
    ++ sorted_strings (elements (defines conan_data)).

(** The loop of [_extract_preset_name]: the part between the first two
    parts named [build] that are two apart. *)
Fixpoint find_preset (parts : list string) : option string :=
  match parts with
  | [] => None
  | part :: rest =>
      match rest with
      | next :: after :: _ =>
          if String.eqb part "build" && String.eqb after "build"
          then Some next else find_preset rest
      | _ => find_preset rest
      end
  end.

(** [_extract_preset_name] as the class ends up with it: the second
    definition of that name replaces the first. *)
Definition _extract_preset_name (build_dir : path) : string :=
  match find_preset build_dir with
  | Some preset => preset
  | None =>
      if String.eqb (Path.name build_dir) "build"
      then Path.name (Path.parent build_dir)
      else Path.name build_dir
  end.

Definition _hash_directory (f : gmap path node) (directory : path)
    (build_type : string) : result string :=
  let pattern := "*-" ++ PyStr.lower build_type ++ "-*-data.cmake" in
  let data_files := sorted_paths (glob f directory pattern) in
  bind_result (map_result (FS.read f) data_files) (fun chunks =>
    Ok (sha256_hexdigest E (String.concat "" chunks))).

Definition hash_file_of (self : generator) (preset_name build_type : string) : path :=
  vscode_dir self // (".conan_hash_" ++ preset_name ++ "_" ++ build_type).

Definition _create_configuration (self : generator) (build_dir : path)
    (preset_name build_type : string) (cache_data : gmap string string)
    : M (option config * bool) :=
  let generators_dir := build_dir // "generators" in
  let* f := get_fs in
  if negb (FS.exists_ f generators_dir) then ret (None, false)
  else
    let* content_hash := lift (_hash_directory f generators_dir build_type) in
    let hash_file := hash_file_of self preset_name build_type in
    let* has_changes :=
      (if FS.exists_ f hash_file then
         let* cached := lift (FS.read f hash_file) in
         ret (negb (String.eqb (PyStr.strip cached) content_hash))
       else ret true) in
    let* conan_data := lift (scan_generators_directory f generators_dir build_type) in
    let '(detected_compiler, intellisense_mode) := detect_compiler in
    let compiler_path := py_or (cache_data !! "CMAKE_CXX_COMPILER") detected_compiler in
    let config :=
      {| cfg_name := preset_name ++ "-" ++ build_type;
         cfg_configurationProvider := "ms-vscode.cmake-tools";
         cfg_includePath := _build_include_path conan_data;
         cfg_defines := _build_defines build_type conan_data;
         cfg_compilerPath :=
           (if opt_truthy compiler_path then default "" compiler_path else "");
         cfg_cStandard := "c17";
         cfg_cppStandard := "c++20";
         cfg_intelliSenseMode := intellisense_mode;
         cfg_macFrameworkPath :=
           (if String.eqb (platform_system E) "Darwin"
               && negb (bool_decide (framework_dirs conan_data = ∅))
            then Some (sorted_strings (elements (framework_dirs conan_data)))
            else None) |} in
    (if has_changes then FS.write hash_file content_hash else ret tt) ;;
    ret (Some config, has_changes).

(** The body of the loop of [_cleanup_orphaned_hashes]. *)
Definition cleanup_one (hash_prefix : string) (valid_build_types : gset string)
    (hash_file : path) : M unit :=
  let build_type := PyStr.drop (String.length hash_prefix) (Path.name hash_file) in
  if bool_decide (build_type ∉ valid_build_types) then
    try_except
      (FS.unlink hash_file ;;
       FS.print Stdout
         ("[IntelliSense] Cleaned up orphaned hash: " ++ Path.name hash_file))
      (fun e =>
         FS.print Stderr
           ("Warning: Could not remove " ++ Path.name hash_file ++ ": "
            ++ exn_str e))
  else ret tt.

Fixpoint cleanup_loop (hash_prefix : string) (valid_build_types : gset string)
    (hash_files : list path) : M unit :=
  match hash_files with
  | [] => ret tt
  | hash_file :: rest =>
      cleanup_one hash_prefix valid_build_types hash_file ;;
      cleanup_loop hash_prefix valid_build_types rest
  end.

Definition _cleanup_orphaned_hashes (self : generator) (preset_name : string)
    (valid_build_types : gset string) : M unit :=
  let hash_prefix := ".conan_hash_" ++ preset_name ++ "_" in
  let* f := get_fs in
  cleanup_loop hash_prefix valid_build_types
    (glob f (vscode_dir self) (hash_prefix ++ "*")).

(** The loop over the configuration types of a multi-configuration
    build. *)
Fixpoint create_each (self : generator) (build_dir : path) (preset_name : string)
    (cache_data : gmap string string) (config_types : list string)
    (configurations : list config) (has_changes : bool)
    : M (list config * bool) :=
  match config_types with
  | [] => ret (configurations, has_changes)
  | build_type :: rest =>
      if PyStr.truthy build_type then
        let* (config, changed) :=
          _create_configuration self build_dir preset_name build_type cache_data in
        match config with
        | Some c =>
            create_each self build_dir preset_name cache_data rest
              (configurations ++ [c])%list (has_changes || changed)
        | None =>
            create_each self build_dir preset_name cache_data rest
              configurations has_changes
        end
      else
        create_each self build_dir preset_name cache_data rest
          configurations has_changes
  end.

Definition _process_build_directory (self : generator) (build_dir : path)
    : M (list config * bool) :=
  let cache_file := build_dir // "CMakeCache.txt" in
  let* f := get_fs in
  if negb (FS.exists_ f cache_file) then ret ([], false)
  else
    let* cache_data := lift (CMakeCacheReader.read_cache f cache_file) in
    let preset_name := _extract_preset_name build_dir in
    let config_types :=
      PyStr.split ";" (default "" (cache_data !! "CMAKE_CONFIGURATION_TYPES")) in
    let is_multi_config := (1 <? length config_types)%nat in
    if is_multi_config then
      let valid_build_types : gset string := list_to_set config_types in
      let* (configurations, has_changes) :=
        create_each self build_dir preset_name cache_data config_types [] false in
      _cleanup_orphaned_hashes self preset_name valid_build_types ;;
      ret (configurations, has_changes)
    else
      let build_type := default "Debug" (cache_data !! "CMAKE_BUILD_TYPE") in
      let valid_build_types : gset string := {[ build_type ]} in
      let* (config, changed) :=
        _create_configuration self build_dir preset_name build_type cache_data in
      let '(configurations, has_changes) :=
        match config with
        | Some c => ([c], changed)
        | None => ([], false)
        end in
      _cleanup_orphaned_hashes self preset_name valid_build_types ;;
      ret (configurations, has_changes).

(** The loop of [generate_configuration] over the build directories. *)
Fixpoint process_each (self : generator) (build_dirs : list path)
    (configurations : list config) (has_changes : bool)
    : M (list config * bool) :=
  match build_dirs with
  | [] => ret (configurations, has_changes)
  | build_dir :: rest =>
      let* (configs, changed) := _process_build_directory self build_dir in
      process_each self rest (configurations ++ configs)%list
        (has_changes || changed)
  end.

Definition output_file_of (self : generator) : path :=
  vscode_dir self // "c_cpp_properties.json".

Definition generate_configuration (self : generator) (build_dirs : list path)
    : M nat :=
  let* (configurations, has_changes) := process_each self build_dirs [] false in
  match configurations with
  | [] =>
      FS.print Stderr
        "Warning: No build configurations found. Run CMake configure first." ;;
      ret 1
  | _ =>
      if has_changes then
        let cpp_properties :=
          {| doc_version := 4;
             doc_configurations := configurations;
             doc_comment := "CMake Tools extension provides primary IntelliSense via compile_commands.json. Explicit paths serve as fallback." |} in
        let output_file := output_file_of self in
        FS.write output_file (json_dump E cpp_properties) ;;
        FS.print Stdout
          ("[IntelliSense] Updated " ++ Path.to_string output_file ++ " with "
           ++ pretty (length configurations) ++ " configuration(s)") ;;
        ret 0
      else ret 2
  end.

End Program.

(** ** The entry point and what it calls *)

(** [p.touch()]: an existing entry only gets a new time stamp, which the
    model does not record; otherwise the file is opened for writing and left
    empty, for which the parent has to be a directory. *)
Definition touch (p : path) : M unit :=
  let* f := get_fs in
  match f !! p with
  | Some _ => ret tt
  | None =>
      emit (EvWrite p "") ;;
      if FS.is_dir f (Path.parent p) then set_fs (<[p := File ""]> f)
      else raise (FileNotFoundError p)
  end.

(** [CMakeToolsValidator.CACHE_FILE] *)
Definition CACHE_FILE : string := ".cmake_tools_validated".

(** The loop of [is_cmake_tools_installed] over the indicator files. *)
Fixpoint first_indicator (f : gmap path node) (indicators : list path) : bool :=
  match indicators with
  | [] => false
  | indicator :: rest =>
      if FS.exists_ f indicator then true else first_indicator f rest
  end.

(** [CMakeToolsValidator.is_cmake_tools_installed] *)
Definition is_cmake_tools_installed (vscode_dir : path) : M bool :=
  let cache_file := vscode_dir // CACHE_FILE in
  let* f := get_fs in
  if FS.exists_ f cache_file then ret true
  else
    let indicators :=
      [ vscode_dir // "cmake-tools-kits.json"; vscode_dir // ".cmaketools.json" ] in
    if first_indicator f indicators then
      touch cache_file ;;
      ret true
    else
      touch cache_file ;;
      FS.print Stderr
        "Note: CMake Tools extension indicators not found. Extension is recommended." ;;
      FS.print Stderr
        "  Install from: https://marketplace.visualstudio.com/items?itemName=ms-vscode.cmake-tools" ;;
      ret true.

(** The arguments of the command line: [--workspace-root] and
    [--build-dir], each of them optional. *)
Record arguments := Arguments {
  arg_workspace_root : option path;
  arg_build_dir : option path;
}.

Section Entry.
Context (E : Env).

(** [p.iterdir()] *)
Definition iterdir (f : gmap path node) (d : path) : list path :=
  map (fun n => (d ++ [n])%list) (scandir E f d).

(** [discover_build_directories] *)
Definition discover_build_directories (f : gmap path node) (workspace_root : path)
    : list path :=
  let build_root := workspace_root // "build" in
  if FS.exists_ f build_root && FS.is_dir f build_root then
    flat_map
      (fun preset_dir =>
         if FS.is_dir f preset_dir then
           let inner_build := preset_dir // "build" in
           if FS.is_dir f inner_build
              && FS.exists_ f (inner_build // "CMakeCache.txt")
           then [inner_build] else []
         else [])
      (iterdir f build_root)
  else [].

(** [main], given the current directory and the parsed arguments; the
    result is the exit code handed to [sys.exit]. *)
Definition main (cwd : path) (args : arguments) : M nat :=
  let workspace_root := default cwd (arg_workspace_root args) in
  let vscode_dir := workspace_root // ".vscode" in
  FS.mkdir_exist_ok vscode_dir ;;
  let* installed := is_cmake_tools_installed vscode_dir in
  if negb installed then ret 1
  else
    let* f := get_fs in
    let build_dirs :=
      match arg_build_dir args with
      | Some build_dir => if FS.exists_ f build_dir then [build_dir] else []
      | None => discover_build_directories f workspace_root
      end in
    match build_dirs with
    | [] =>
        FS.print Stderr "No build directories found. Run CMake configure first." ;;
        ret 1
    | _ =>
        let* generator := __init__ workspace_root in
        let* exit_code := generate_configuration E generator build_dirs in
        (if (exit_code =? 0)%nat
         then FS.print Stdout "[IntelliSense] Configuration updated successfully"
         else ret tt) ;;
        ret exit_code
    end.

End Entry.

(** ** Auxiliary definitions used by the statements *)

(** The entry that [_create_configuration] assembles from the scanned
    package data. *)
Definition config_of (E : Env) (preset_name build_type : string)
    (cache_data : gmap string string) (pkg : conan_data) : config :=
  let compiler_path :=
    py_or (cache_data !! "CMAKE_CXX_COMPILER") (fst (detect_compiler E)) in
  {| cfg_name := preset_name ++ "-" ++ build_type;
     cfg_configurationProvider := "ms-vscode.cmake-tools";
     cfg_includePath := _build_include_path pkg;
     cfg_defines := _build_defines build_type pkg;
     cfg_compilerPath :=
       (if opt_truthy compiler_path then default "" compiler_path else "");
     cfg_cStandard := "c17";
     cfg_cppStandard := "c++20";
     cfg_intelliSenseMode := snd (detect_compiler E);
     cfg_macFrameworkPath :=
       (if String.eqb (platform_system E) "Darwin"
           && negb (bool_decide (framework_dirs pkg = ∅))
        then Some (sorted_strings (elements (framework_dirs pkg)))
        else None) |}.


(** A name that is a single path component. *)
Definition plain_name (s : string) : bool :=
  forallb (fun c => negb (Ascii.eqb c "/")) (PyStr.chars s).

(** Whether the stored record at [hash_file] differs from [content_hash]:
    the test [_create_configuration] makes before it parses the data. *)
Definition has_changes_of (f : gmap path node) (hash_file : path)
    (content_hash : string) : result bool :=
  if FS.exists_ f hash_file then
    bind_result (FS.read f hash_file) (fun cached =>
      Ok (negb (String.eqb (PyStr.strip cached) content_hash)))
  else Ok true.

(** An event that stores a hash record. *)
Definition hash_write (self : generator) (e : event) : Prop :=
  ∃ preset_name build_type h,
    e = EvWrite (hash_file_of self preset_name build_type) h.

(** A character that stands for itself in a glob pattern, and a name made
    of such characters. *)
Definition literal_char (c : ascii) : bool :=
  negb (Ascii.eqb c "*") && negb (Ascii.eqb c "?") && negb (Ascii.eqb c "[").

Definition glob_literal (s : string) : bool := forallb literal_char (PyStr.chars s).

Definition is_write (e : event) : bool :=
  match e with
  | EvWrite _ _ => true
  | _ => false
  end.

(** The path an event writes, the path it removes, and the text it prints
    on the diagnostic stream. *)
Definition written (e : event) : option path :=
  match e with
  | EvWrite p _ => Some p
  | _ => None
  end.

Definition unlinked (e : event) : option path :=
  match e with
  | EvUnlink p => Some p
  | _ => None
  end.

Definition warned (e : event) : option string :=
  match e with
  | EvPrint Stderr msg => Some msg
  | _ => None
  end.

(** What a part of a run did, as far as the document is concerned: the
    events it added, of which the writes all store hash records; the change
    flag, raised exactly when there was a write; and the document, which is
    as it was. *)
Definition run_summary (self : generator) (w w' : world) (before after : bool) : Prop :=
  ∃ evs,
    trace w' = (trace w ++ evs)%list
    ∧ (∀ e, e ∈ evs → is_write e = true → hash_write self e)
    ∧ after = before || existsb is_write evs
    ∧ fs w' !! output_file_of self = fs w !! output_file_of self.


(** [p] lies below the directory [d]. *)
Definition under (d p : path) : Prop := ∃ rest, rest ≠ [] ∧ p = (d ++ rest)%list.

(** A part of a run that stays inside [.vscode]: what it writes and what it
    removes lies below that directory, and every other path is as it
    was. *)
Definition confined (self : generator) (w w' : world) : Prop :=
  ∃ evs,
    trace w' = (trace w ++ evs)%list
    ∧ (∀ e p, e ∈ evs → written e = Some p ∨ unlinked e = Some p →
              under (vscode_dir self) p)
    ∧ (∀ e, e ∈ evs → ∀ p, e ≠ EvMkdir p)
    ∧ ∀ p, ¬ under (vscode_dir self) p → fs w' !! p = fs w !! p.

(** The build types that [_process_build_directory] goes through for a
    cache: the listed configuration types when there is more than one field,
    the build type of the cache, or Debug, otherwise. *)
Definition build_types_of (cache_data : gmap string string) : list string :=
  let config_types :=
    PyStr.split ";" (default "" (cache_data !! "CMAKE_CONFIGURATION_TYPES")) in
  if (1 <? length config_types)%nat then config_types
  else [default "Debug" (cache_data !! "CMAKE_BUILD_TYPE")].

(** The build types of the cache of a build directory. *)
Definition cache_build_types (f : gmap path node) (build_dir : path) : list string :=
  match CMakeCacheReader.read_cache f (build_dir // "CMakeCache.txt") with
  | Ok cache_data => build_types_of cache_data
  | Raise _ => []
  end.

(** A world whose files outside [.vscode] are those of [f0]. *)
Definition agrees_outside (self : generator) (f0 : gmap path node) (w : world) : Prop :=
  ∀ p, ¬ under (vscode_dir self) p → fs w !! p = f0 !! p.

(** The hash record of a build type is stored in [w] and matches the content
    hash of the data files of [f0]. *)
Definition record_settled (E : Env) (self : generator) (build_dir : path)
    (preset_name : string) (f0 : gmap path node) (build_type : string)
    (w : world) : Prop :=
  ∃ h pkg c,
    _hash_directory E f0 (build_dir // "generators") build_type = Ok h
    ∧ scan_generators_directory E f0 (build_dir // "generators") build_type = Ok pkg
    ∧ fs w !! hash_file_of self preset_name build_type = Some (File c)
    ∧ PyStr.strip c = h.

(** No file among the records of a preset is left for a build type that is
    not valid. *)
Definition no_file_orphans (self : generator) (preset_name : string)
    (valid_build_types : gset string) (w : world) : Prop :=
  ∀ n c,
    Fnmatch.fnmatch n ((".conan_hash_" ++ preset_name ++ "_") ++ "*") = true →
    PyStr.drop (String.length (".conan_hash_" ++ preset_name ++ "_")) n
    ∉ valid_build_types →
    fs w !! (vscode_dir self ++ [n])%list ≠ Some (File c).

(** A build directory below [build] in the workspace. *)
Definition under_build (self : generator) (build_dir : path) : Prop :=
  ∃ rest, build_dir = (workspace_root self ++ "build" :: rest)%list.

(** Two presets neither of whose record prefixes starts with the other. *)
Definition separate_presets (a b : string) : bool :=
  negb (String.prefix (".conan_hash_" ++ a ++ "_") (".conan_hash_" ++ b ++ "_"))
  && negb (String.prefix (".conan_hash_" ++ b ++ "_") (".conan_hash_" ++ a ++ "_")).

Fixpoint pairwise_separate (presets : list string) : bool :=
  match presets with
  | [] => true
  | p :: rest => forallb (separate_presets p) rest && pairwise_separate rest
  end.

(** A build directory the second run can be followed on: below [build],
    with a preset name and build types that are single path components, and
    no wildcard in the preset name. *)
Definition regular_dir (self : generator) (f : gmap path node) (build_dir : path)
    : Prop :=
  under_build self build_dir
  ∧ plain_name (_extract_preset_name build_dir) = true
  ∧ glob_literal (_extract_preset_name build_dir) = true
  ∧ forallb plain_name (cache_build_types f build_dir) = true.












(** ** A small workspace to run the program on *)

Module Demo.
Import PyStr.

Definition nl : string := String "010"%char EmptyString.

Definition hex_digit (n : nat) : ascii :=
  match n with
  | 0 => "0" | 1 => "1" | 2 => "2" | 3 => "3" | 4 => "4" | 5 => "5"
  | 6 => "6" | 7 => "7" | 8 => "8" | 9 => "9" | 10 => "a" | 11 => "b"
  | 12 => "c" | 13 => "d" | 14 => "e" | _ => "f"
  end%char.

(** A stand-in for the digest: the bytes written in hexadecimal. *)
Fixpoint hex_encode (s : string) : string :=
  match s with
  | EmptyString => EmptyString
  | String c s' =>
      String (hex_digit (nat_of_ascii c / 16))
             (String (hex_digit (nat_of_ascii c mod 16)) (hex_encode s'))
  end.

(** A stand-in for the serializer: the names of the entries. *)
Definition dump_names (d : cpp_properties) : string :=
  String.concat ";" (map cfg_name (doc_configurations d)).

(** A Linux machine with gcc installed, listing directories in sorted
    order. *)
Definition linux : Env :=
  {| sha256_hexdigest := hex_encode;
     json_dump := dump_names;
     listing_order := fun l => l;
     listing_perm := fun l => Permutation_refl l;
     platform_system := "Linux";
     which := fun n => if String.eqb n "gcc" then Some "/usr/bin/gcc" else None;
     xcrun_find_clang := None;
     vswhere_cl := None |}.

(** The same machine listing directories in the opposite order. *)
Definition linux_rev : Env :=
  {| sha256_hexdigest := hex_encode;
     json_dump := dump_names;
     listing_order := reverse;
     listing_perm := reverse_Permutation;
     platform_system := "Linux";
     which := fun n => if String.eqb n "gcc" then Some "/usr/bin/gcc" else None;
     xcrun_find_clang := None;
     vswhere_cl := None |}.

Definition self : generator :=
  {| workspace_root := ["ws"]; vscode_dir := ["ws"] // ".vscode" |}.

Definition build_dir_of (preset : string) : path := ["ws"; "build"; preset; "build"].

(** A build directory for [preset] with the given cache and data files. *)
Definition build_tree (preset cache : string) (data : list (string * string))
    : list (path * node) :=
  ([ (["ws"; "build"; preset], Dir);
     (build_dir_of preset, Dir);
     (build_dir_of preset ++ ["CMakeCache.txt"], File cache);
     (build_dir_of preset ++ ["generators"], Dir) ]
   ++ map (fun '(n, c) => (build_dir_of preset ++ ["generators"; n], File c)) data)%list.

Definition base_tree : list (path * node) :=
  [ ([], Dir); (["ws"], Dir); (["ws"; ".vscode"], Dir); (["ws"; "build"], Dir) ].

Definition world_of (tree : list (path * node)) : world :=
  {| fs := list_to_map tree; trace := [] |}.

Definition zlib_data : string :=
  "set(ZLIB_INCLUDE_DIRS_DEBUG " ++ dq ++ "/pkg/zlib/include" ++ dq ++ ")" ++ nl.

Definition fmt_data : string :=
  "set(fmt_PACKAGE_FOLDER_DEBUG " ++ dq ++ "/conan/p/fmt" ++ dq ++ ")" ++ nl
  ++ "set(fmt_INCLUDE_DIRS_DEBUG " ++ dq ++ "${fmt_PACKAGE_FOLDER_DEBUG}/include"
  ++ dq ++ ")" ++ nl
  ++ "set(fmt_COMPILE_DEFINITIONS_DEBUG " ++ dq ++ "FMT_HEADER_ONLY=1" ++ dq
  ++ ")" ++ nl.

Definition debug_cache : string := "CMAKE_BUILD_TYPE:STRING=Debug" ++ nl.

(** A package that declares its folder and nothing else. *)
Definition bare_data : string :=
  "set(png_PACKAGE_FOLDER_DEBUG " ++ dq ++ "/conan/p/png" ++ dq ++ ")" ++ nl.

(** One preset, [a], configured for Debug with the package fmt. *)
Definition w_fmt : world :=
  world_of (base_tree
            ++ build_tree "a" debug_cache [("fmt-debug-x86_64-data.cmake", fmt_data)]).

Definition fmt_file : path :=
  (build_dir_of "a" ++ ["generators"; "fmt-debug-x86_64-data.cmake"])%list.

(** The same workspace with the hash record of that build stored. *)
Definition w_fmt_cached : world :=
  {| fs := <[hash_file_of self "a" "Debug" := File (hex_encode fmt_data)]> (fs w_fmt);
     trace := [] |}.

(** A cache whose compiler entry holds only a space. *)
Definition blank_compiler_cache : string :=
  "CMAKE_CXX_COMPILER:FILEPATH= " ++ nl ++ "CMAKE_BUILD_TYPE:STRING=Debug" ++ nl.

Definition w_blank_compiler : world :=
  world_of (base_tree
            ++ build_tree "a" blank_compiler_cache
                 [("fmt-debug-x86_64-data.cmake", fmt_data)]).

(** Two data files for the Debug build of preset [a]. *)
Definition w_two_files : world :=
  world_of (base_tree
            ++ build_tree "a" debug_cache
                 [("fmt-debug-x86_64-data.cmake", fmt_data);
                  ("zlib-debug-x86_64-data.cmake", zlib_data)]).

(** A multi-configuration build of preset [a]. *)
Definition multi_cache : string :=
  "CMAKE_CONFIGURATION_TYPES:STRING=Debug;Release" ++ nl
  ++ "CMAKE_BUILD_TYPE:STRING=Debug" ++ nl.

Definition w_multi : world :=
  world_of (base_tree
            ++ build_tree "a" multi_cache
                 [("fmt-debug-x86_64-data.cmake", fmt_data);
                  ("fmt-release-x86_64-data.cmake", fmt_data)]).

(** Two presets, [a] and [a_b], each configured for Debug. *)
Definition w_two_presets : world :=
  world_of (base_tree
            ++ build_tree "a" debug_cache [("zlib-debug-x86_64-data.cmake", zlib_data)]
            ++ build_tree "a_b" debug_cache [("fmt-debug-x86_64-data.cmake", fmt_data)]).

(** A preset whose name has a bracket expression, configured for Debug,
    with a hash record left over from a Release build. *)
Definition stale_record : path := ["ws"; ".vscode"; ".conan_hash_a[1]_Release"].

Definition w_bracket : world :=
  world_of (base_tree
            ++ build_tree "a[1]" debug_cache
                 [("zlib-debug-x86_64-data.cmake", zlib_data)]
            ++ [(stale_record, File "0123")]).

(** Preset [a] configured for Debug, with a hash record left over from a
    Release build. *)
Definition stale_record_a : path := ["ws"; ".vscode"; ".conan_hash_a_Release"].

Definition w_stale : world :=
  world_of (base_tree
            ++ build_tree "a" debug_cache [("zlib-debug-x86_64-data.cmake", zlib_data)]
            ++ [(stale_record_a, File "0123")]).

(** The same, with a directory where the stale record would be: it cannot
    be unlinked. *)
Definition w_stale_dir : world :=
  world_of (base_tree
            ++ build_tree "a" debug_cache [("zlib-debug-x86_64-data.cmake", zlib_data)]
            ++ [(stale_record_a, Dir)]).

(** Two presets that are kept apart, [a] configured for Debug and [b] a
    multi-configuration build. *)
Definition w_apart : world :=
  world_of (base_tree
            ++ build_tree "a" debug_cache [("zlib-debug-x86_64-data.cmake", zlib_data)]
            ++ build_tree "b" multi_cache
                 [("fmt-debug-x86_64-data.cmake", fmt_data);
                  ("fmt-release-x86_64-data.cmake", fmt_data)]).

(** A cache that names the compiler. *)
Definition compiler_cache : string :=
  "CMAKE_CXX_COMPILER:FILEPATH=/opt/bin/g++" ++ nl
  ++ "CMAKE_BUILD_TYPE:STRING=Debug" ++ nl.

Definition w_compiler : world :=
  world_of (base_tree
            ++ build_tree "a" compiler_cache
                 [("fmt-debug-x86_64-data.cmake", fmt_data)]).


(** The same file system before any call was made. *)
Definition restart (w : world) : world := {| fs := fs w; trace := [] |}.

End Demo.

(** * Properties *)

(** ** The monad *)

Lemma bind_ok {A B} (m : M A) (k : A → M B) w b w' :
  bind m k w = (Ok b, w') →
  ∃ a w1, m w = (Ok a, w1) ∧ k a w1 = (Ok b, w').
Proof.
  unfold bind. destruct (m w) as [[a|e] w1] eqn:Hm; [eauto | discriminate].
Qed.

Lemma lift_ok {A} (r : result A) w a w' :
  lift r w = (Ok a, w') → r = Ok a ∧ w' = w.
Proof. unfold lift. intros [= -> ->]. done. Qed.

Lemma ret_ok {A} (x : A) w a w' : ret x w = (Ok a, w') → a = x ∧ w' = w.
Proof. unfold ret. intros [= -> ->]. done. Qed.

Lemma get_fs_ok w a w' : get_fs w = (Ok a, w') → a = fs w ∧ w' = w.
Proof. unfold get_fs. intros [= <- <-]. done. Qed.

(** ** What [FS.write] and [FS.unlink] do *)

Lemma write_ok p c w u w' :
  FS.write p c w = (Ok u, w') →
  fs w' = <[p := File c]> (fs w) ∧ trace w' = (trace w ++ [EvWrite p c])%list.
Proof.
  unfold FS.write, emit, bind, get_fs, set_fs, raise. simpl.
  destruct (fs w !! p) as [[?|]|]; try discriminate;
    destruct (FS.is_dir _ _); try discriminate; intros [= _ <-]; done.
Qed.

(** ** [_create_configuration] *)

Section Create.
Context (E : Env) (self : generator) (build_dir : path)
        (preset_name build_type : string) (cache_data : gmap string string).

Let generators_dir := build_dir // "generators".
Let hash_file := hash_file_of self preset_name build_type.

(** A call that returns either skipped the directory, or returned the
    entry built from the freshly scanned data together with the outcome
    of the comparison with the stored record. *)
Lemma create_configuration_inv w r w' :
  _create_configuration E self build_dir preset_name build_type cache_data w
    = (Ok r, w') →
  (FS.exists_ (fs w) generators_dir = false ∧ r = (None, false) ∧ w' = w)
  ∨ (FS.exists_ (fs w) generators_dir = true ∧
     ∃ h pkg changed,
       _hash_directory E (fs w) generators_dir build_type = Ok h
       ∧ has_changes_of (fs w) hash_file h = Ok changed
       ∧ scan_generators_directory E (fs w) generators_dir build_type = Ok pkg
       ∧ r = (Some (config_of E preset_name build_type cache_data pkg), changed)
       ∧ (if changed
          then fs w' = <[hash_file := File h]> (fs w)
               ∧ trace w' = (trace w ++ [EvWrite hash_file h])%list
          else w' = w)).
Proof.
  unfold _create_configuration. fold generators_dir hash_file. intros H.
  apply bind_ok in H as (f & w0 & Hf & H). apply get_fs_ok in Hf as [-> ->].
  destruct (FS.exists_ (fs w) generators_dir) eqn:Hex; simpl in H.
  2:{ apply ret_ok in H as [-> ->]. left. done. }
  right. split; [done|].
  apply bind_ok in H as (h & w1 & Hh & H). apply lift_ok in Hh as [Hh ->].
  apply bind_ok in H as (changed & w1 & Hch & H).
  assert (has_changes_of (fs w) hash_file h = Ok changed ∧ w1 = w) as [Hch' ->].
  { unfold has_changes_of. destruct (FS.exists_ (fs w) hash_file).
    - apply bind_ok in Hch as (cached & w2 & Hrd & Hch).
      apply lift_ok in Hrd as [Hrd ->]. apply ret_ok in Hch as [-> ->].
      rewrite Hrd. done.
    - apply ret_ok in Hch as [-> ->]. done. }
  apply bind_ok in H as (pkg & w1 & Hpkg & H). apply lift_ok in Hpkg as [Hpkg ->].
  unfold config_of. destruct (detect_compiler E) as [detected mode]. simpl.
  apply bind_ok in H as (u & w1 & Hw & H). apply ret_ok in H as [-> ->].
  exists h, pkg, changed. repeat split; try done.
  destruct changed.
  - apply write_ok in Hw. done.
  - apply ret_ok in Hw as [_ ->]. done.
Qed.

End Create.

(** ** Sorting *)

Lemma sorted_strings_sorted l : Sorted String.le (sorted_strings l).
Proof. apply Sorted_merge_sort. apply _. Qed.

Lemma sorted_strings_perm l : sorted_strings l ≡ₚ l.
Proof. apply merge_sort_Permutation. Qed.

(** ** The defines of an entry *)

(** C10: the defines of every synthesized entry are UNICODE, _UNICODE, then
    _DEBUG when the build type is Debug and NDEBUG for any other build type,
    then the defines of the package data in sorted order, each once. *)
Theorem defines_layout E self build_dir preset_name build_type cache_data
    w c changed w' :
  _create_configuration E self build_dir preset_name build_type cache_data w
    = (Ok (Some c, changed), w') →
  ∃ pkg rest,
    scan_generators_directory E (fs w) (build_dir // "generators") build_type = Ok pkg
    ∧ cfg_defines c
      = "UNICODE" :: "_UNICODE"
          :: (if decide (build_type = "Debug") then "_DEBUG" else "NDEBUG") :: rest
    ∧ Sorted String.le rest
    ∧ NoDup rest
    ∧ ∀ d, d ∈ rest ↔ d ∈ defines pkg.
Proof.
  intros H. apply create_configuration_inv in H as [(_ & [=] & _)|(_ & h & pkg & ch & _ & _ & Hscan & [= -> ->] & _)].
  exists pkg, (sorted_strings (elements (defines pkg))).
  split; [done|]. split.
  { unfold config_of, _build_defines. simpl.
    destruct (String.eqb_spec build_type "Debug"); case_decide; done. }
  split; [apply sorted_strings_sorted|].
  split.
  - rewrite sorted_strings_perm. apply NoDup_elements.
  - intros d. rewrite sorted_strings_perm. apply elem_of_elements.
Qed.

Lemma defines_layout_witness :
  ∃ pkg rest,
    scan_generators_directory Demo.linux (fs Demo.w_fmt)
      (Demo.build_dir_of "a" // "generators") "Debug" = Ok pkg
    ∧ ["UNICODE"; "_UNICODE"; "_DEBUG"; "FMT_HEADER_ONLY=1"]
      = "UNICODE" :: "_UNICODE"
          :: (if decide ("Debug" = "Debug") then "_DEBUG" else "NDEBUG") :: rest
    ∧ Sorted String.le rest
    ∧ NoDup rest
    ∧ ∀ d, d ∈ rest ↔ d ∈ defines pkg.
Proof.
  eapply (defines_layout Demo.linux Demo.self (Demo.build_dir_of "a") "a" "Debug" ∅
            Demo.w_fmt (Config _ _ _ _ _ _ _ _ _)).
  vm_compute. reflexivity.
Defined.

(** A build type other than Debug, such as RelWithDebInfo, gets NDEBUG. *)
Example build_defines_relwithdebinfo pkg :
  _build_defines "RelWithDebInfo" pkg
  = "UNICODE" :: "_UNICODE" :: "NDEBUG" :: sorted_strings (elements (defines pkg)).
Proof. reflexivity. Qed.

(** ** The compiler path of an entry *)

(** The compiler path of the entry that [_create_configuration] returns. *)
Lemma config_of_compiler_path E preset_name build_type cache_data pkg :
  (∀ v, cache_data !! "CMAKE_CXX_COMPILER" = Some v → v ≠ "" →
        cfg_compilerPath (config_of E preset_name build_type cache_data pkg) = v)
  ∧ (cache_data !! "CMAKE_CXX_COMPILER" = None
     ∨ cache_data !! "CMAKE_CXX_COMPILER" = Some "" →
     cfg_compilerPath (config_of E preset_name build_type cache_data pkg)
     = default "" (fst (detect_compiler E))).
Proof.
  unfold config_of; simpl. split.
  - intros v -> Hv. destruct v; [done|]. reflexivity.
  - intros Hc.
    assert (py_or (cache_data !! "CMAKE_CXX_COMPILER") (fst (detect_compiler E))
            = fst (detect_compiler E)) as ->.
    { destruct Hc as [-> | ->]; reflexivity. }
    destruct (fst (detect_compiler E)) as [[|? ?]|]; reflexivity.
Qed.

(** Every entry of the loop over the configuration types was there before
    or is built from the cache handed to the loop. *)
Lemma create_each_entries E self build_dir preset_name cache_data config_types :
  ∀ acc b w configs ch w',
    create_each E self build_dir preset_name cache_data config_types acc b w
      = (Ok (configs, ch), w') →
    ∀ c, c ∈ configs →
         c ∈ acc ∨ ∃ build_type pkg,
                     c = config_of E preset_name build_type cache_data pkg.
Proof.
  induction config_types as [|build_type types IH];
    intros acc b w configs ch w' H c Hc; simpl in H.
  { apply ret_ok in H as [[= -> ->] ->]. by left. }
  destruct (PyStr.truthy build_type); [|by eapply IH].
  apply bind_ok in H as ([cfg changed] & w1 & Hcreate & H).
  apply create_configuration_inv in Hcreate
    as [(_ & [= -> ->] & ->)|(_ & h & pkg & chg & _ & _ & _ & [= -> ->] & _)].
  - by eapply IH.
  - destruct (IH _ _ _ _ _ _ H c Hc) as [Hin|Hnew]; [|by right].
    apply elem_of_app in Hin as [Hin|Hin]; [by left|].
    apply list_elem_of_singleton in Hin as ->. right. eauto.
Qed.

(** C9, as the code has it, for the entries of a build directory and the
    cache read from its CMakeCache.txt: a cache value of CMAKE_CXX_COMPILER
    that is not empty is the compiler path of every entry; when the cache
    has no value or an empty one, the compiler path is the detected
    compiler, and the empty string when nothing was detected either. *)
Theorem compiler_path_precedence E self build_dir w cache_data configs changed w' :
  CMakeCacheReader.read_cache (fs w) (build_dir // "CMakeCache.txt") = Ok cache_data →
  _process_build_directory E self build_dir w = (Ok (configs, changed), w') →
  ∀ c, c ∈ configs →
    (∀ v, cache_data !! "CMAKE_CXX_COMPILER" = Some v → v ≠ "" →
          cfg_compilerPath c = v)
    ∧ (cache_data !! "CMAKE_CXX_COMPILER" = None
       ∨ cache_data !! "CMAKE_CXX_COMPILER" = Some "" →
       cfg_compilerPath c = default "" (fst (detect_compiler E))).
Proof.
  intros Hcache H c Hc. unfold _process_build_directory in H.
  apply bind_ok in H as (f & w0 & Hf & H). apply get_fs_ok in Hf as [-> ->].
  destruct (FS.exists_ (fs w) (build_dir // "CMakeCache.txt")); simpl in H.
  2:{ apply ret_ok in H as [[= -> ->] _]. by apply elem_of_nil in Hc. }
  apply bind_ok in H as (cache_data' & w0 & Hcd & H).
  apply lift_ok in Hcd as [Hcd ->].
  assert (cache_data' = cache_data) as -> by congruence.
  destruct (1 <? length _)%nat.
  - apply bind_ok in H as ([cs ch] & w1 & Heach & H).
    apply bind_ok in H as (u & w2 & _ & H). apply ret_ok in H as [[= -> ->] _].
    destruct (create_each_entries _ _ _ _ _ _ _ _ _ _ _ _ Heach c Hc)
      as [Hin|(build_type & pkg & ->)]; [by apply elem_of_nil in Hin|].
    apply config_of_compiler_path.
  - apply bind_ok in H as ([cfg ch] & w1 & Hcreate & H).
    apply create_configuration_inv in Hcreate
      as [(_ & [= -> ->] & ->)|(_ & h & pkg & chg & _ & _ & _ & [= -> ->] & _)];
      apply bind_ok in H as (u & w2 & _ & H); apply ret_ok in H as [[= -> ->] _].
    + by apply elem_of_nil in Hc.
    + apply list_elem_of_singleton in Hc as ->. apply config_of_compiler_path.
Qed.

Lemma compiler_path_precedence_witness :
  ∃ c,
    fst (_process_build_directory Demo.linux Demo.self (Demo.build_dir_of "a")
           Demo.w_compiler) = Ok ([c], true)
    ∧ cfg_compilerPath c = "/opt/bin/g++".
Proof.
  destruct (_process_build_directory Demo.linux Demo.self (Demo.build_dir_of "a")
              Demo.w_compiler) as [r w'] eqn:Hrun.
  assert (∃ c, r = Ok ([c], true)) as [c ->].
  { change r with (fst (r, w')). rewrite <- Hrun. vm_compute. eexists. reflexivity. }
  exists c. split; [reflexivity|].
  assert (CMakeCacheReader.read_cache (fs Demo.w_compiler)
            (Demo.build_dir_of "a" // "CMakeCache.txt")
          = Ok (CMakeCacheReader.read_content Demo.compiler_cache)) as Hcache
    by (vm_compute; reflexivity).
  destruct (compiler_path_precedence Demo.linux Demo.self (Demo.build_dir_of "a")
              Demo.w_compiler _ [c] true w' Hcache Hrun c (list_elem_of_here _ _))
    as [Hv _].
  apply Hv; [vm_compute; reflexivity|done].
Defined.

(** C9 as stated fails: the cache of this build directory has a compiler
    entry, whose value is empty once stripped, and the entry gets the
    detected compiler instead of that value. *)
Lemma compiler_path_blank_entry :
  ∃ cache_data v c,
    CMakeCacheReader.read_cache (fs Demo.w_blank_compiler)
      (Demo.build_dir_of "a" // "CMakeCache.txt") = Ok cache_data
    ∧ cache_data !! "CMAKE_CXX_COMPILER" = Some v
    ∧ fst (_process_build_directory Demo.linux Demo.self (Demo.build_dir_of "a")
             Demo.w_blank_compiler) = Ok ([c], true)
    ∧ cfg_compilerPath c = "/usr/bin/gcc"
    ∧ cfg_compilerPath c ≠ v.
Proof.
  eexists _, "", (Config _ _ _ _ _ _ _ _ _).
  split; [vm_compute; reflexivity|].
  split; [vm_compute; reflexivity|].
  split; [vm_compute; reflexivity|].
  split; [reflexivity|discriminate].
Qed.

(** ** The include directories of a data file *)


(** Joining a folder that does not end in a slash with a relative suffix
    puts one slash between them. *)
Lemma os_path_join_relative a b :
  PyStr.truthy a = true →
  PyStr.startswith "/" (String.rev a) = false →
  PyStr.startswith "/" b = false →
  os_path_join a b = a ++ "/" ++ b.
Proof. unfold os_path_join. intros -> -> ->. reflexivity. Qed.



(** The three shapes on sample files. *)
Example include_dirs_direct :
  fd_include_dirs (ConanDataParser.parse_content Demo.zlib_data)
  = ["/pkg/zlib/include"].
Proof. vm_compute. reflexivity. Qed.

Example include_dirs_templated :
  fd_include_dirs (ConanDataParser.parse_content Demo.fmt_data)
  = ["/conan/p/fmt/include"].
Proof. vm_compute. reflexivity. Qed.

Example include_dirs_default :
  fd_include_dirs (ConanDataParser.parse_content Demo.bare_data)
  = ["/conan/p/png/include"].
Proof. vm_compute. reflexivity. Qed.

(** ** The order on paths *)

#[global] Instance path_le_refl : Reflexive Path.le.
Proof.
  intros p. unfold Path.le. induction p as [|a p IH]; simpl; [done|].
  by rewrite String.eqb_refl.
Qed.

#[global] Instance path_le_total : Total Path.le.
Proof.
  intros p. unfold Path.le.
  induction p as [|a p IH]; intros [|b q]; simpl; auto.
  rewrite (String.eqb_sym b a).
  destruct (String.eqb a b); [apply IH|].
  destruct (String.leb_total a b) as [-> | ->]; auto.
Qed.

#[global] Instance path_le_antisym : AntiSymm (=) Path.le.
Proof.
  intros p. unfold Path.le.
  induction p as [|a p IH]; intros [|b q]; simpl; try done.
  rewrite (String.eqb_sym b a).
  destruct (String.eqb_spec a b) as [->|Hne].
  - intros H1 H2. f_equal. by apply IH.
  - intros H1 H2. destruct Hne.
    by apply (anti_symm String.le).
Qed.

#[global] Instance path_le_trans : Transitive Path.le.
Proof.
  intros p. unfold Path.le.
  induction p as [|a p IH]; intros [|b q] [|c r]; simpl; try done.
  destruct (String.eqb_spec a b) as [->|Hab].
  - destruct (String.eqb_spec b c) as [->|Hbc]; [apply IH|done].
  - destruct (String.eqb_spec b c) as [->|Hbc].
    + intros H _. destruct (String.eqb_spec a c); [done|exact H].
    + intros H1 H2. destruct (String.eqb_spec a c) as [->|Hac].
      * destruct Hab. by apply (anti_symm String.le).
      * by trans b.
Qed.

Lemma sorted_paths_sorted l : Sorted Path.le (sorted_paths l).
Proof. apply Sorted_merge_sort. apply _. Qed.

Lemma sorted_paths_perm l : sorted_paths l ≡ₚ l.
Proof. apply merge_sort_Permutation. Qed.

(** Sorting forgets the order of its input. *)
Lemma sorted_paths_of_perm l1 l2 : l1 ≡ₚ l2 → sorted_paths l1 = sorted_paths l2.
Proof.
  intros Hp. apply (Sorted_unique Path.le); try apply sorted_paths_sorted.
  by rewrite !sorted_paths_perm.
Qed.

(** ** Listing order and [glob] *)

Lemma scandir_perm E1 E2 f d : scandir E1 f d ≡ₚ scandir E2 f d.
Proof. unfold scandir. by rewrite !listing_perm. Qed.

Lemma flat_map_perm {A B} (g1 g2 : A → list B) l1 l2 :
  (∀ x, g1 x ≡ₚ g2 x) → l1 ≡ₚ l2 → flat_map g1 l1 ≡ₚ flat_map g2 l2.
Proof.
  intros Hg Hl. rewrite <- (Permutation_flat_map g2 Hl). clear Hl l2.
  induction l1 as [|x l IH]; simpl; [done|]. by rewrite Hg, IH.
Qed.

Lemma glob_parts_perm E1 E2 f pats d :
  glob_parts E1 f pats d ≡ₚ glob_parts E2 f pats d.
Proof.
  revert d. induction pats as [|pat rest IH]; intros d; simpl; [done|].
  destruct (FS.is_dir f d); [|done].
  apply flat_map_perm; [intros n; apply IH|].
  apply filter_Permutation, scandir_perm.
Qed.

(** ** The content hash *)

(** C3: the content hash does not depend on the order in which the file
    system lists the directory. The files that match are put in sorted
    order, their bytes are concatenated in that order and digested, and two
    machines that differ only in their listing order get the same digest. *)
Theorem hash_directory_order_independent E1 E2 f directory build_type :
  sha256_hexdigest E1 = sha256_hexdigest E2 →
  ∃ files,
    Sorted Path.le files
    ∧ files ≡ₚ glob E1 f directory ("*-" ++ PyStr.lower build_type ++ "-*-data.cmake")
    ∧ files ≡ₚ glob E2 f directory ("*-" ++ PyStr.lower build_type ++ "-*-data.cmake")
    ∧ _hash_directory E1 f directory build_type
      = bind_result (map_result (FS.read f) files) (fun chunks =>
          Ok (sha256_hexdigest E1 (String.concat "" chunks)))
    ∧ _hash_directory E2 f directory build_type
      = _hash_directory E1 f directory build_type.
Proof.
  intros Hsha.
  set (pattern := "*-" ++ PyStr.lower build_type ++ "-*-data.cmake").
  assert (glob E1 f directory pattern ≡ₚ glob E2 f directory pattern) as Hperm
    by apply glob_parts_perm.
  exists (sorted_paths (glob E1 f directory pattern)).
  split; [apply sorted_paths_sorted|].
  split; [apply sorted_paths_perm|].
  split; [by rewrite sorted_paths_perm|].
  split; [done|].
  unfold _hash_directory. fold pattern.
  by rewrite Hsha, (sorted_paths_of_perm _ _ Hperm).
Qed.

Lemma hash_directory_order_independent_witness :
  glob Demo.linux (fs Demo.w_two_files) (Demo.build_dir_of "a" // "generators")
    "*-debug-*-data.cmake"
  ≠ glob Demo.linux_rev (fs Demo.w_two_files) (Demo.build_dir_of "a" // "generators")
      "*-debug-*-data.cmake"
  ∧ ∃ digest,
      _hash_directory Demo.linux (fs Demo.w_two_files)
        (Demo.build_dir_of "a" // "generators") "Debug" = Ok digest
      ∧ _hash_directory Demo.linux_rev (fs Demo.w_two_files)
          (Demo.build_dir_of "a" // "generators") "Debug" = Ok digest.
Proof.
  split; [vm_compute; discriminate|].
  destruct (hash_directory_order_independent Demo.linux Demo.linux_rev
              (fs Demo.w_two_files) (Demo.build_dir_of "a" // "generators") "Debug")
    as (files & _ & _ & _ & _ & Heq); [reflexivity|].
  rewrite Heq. eexists. split; [|reflexivity]. vm_compute. reflexivity.
Defined.

(** ** One entry per configuration type *)

Lemma exists_insert (f : gmap path node) p q v :
  FS.exists_ f p = true → FS.exists_ (<[q := v]> f) p = true.
Proof.
  unfold FS.exists_. rewrite !bool_decide_eq_true. intros Hp.
  destruct (decide (q = p)) as [->|Hne].
  - rewrite lookup_insert_eq. eauto.
  - by rewrite lookup_insert_ne.
Qed.

(** A call of [_create_configuration] leaves existing paths in place. *)
Lemma create_configuration_exists E self build_dir preset_name build_type
    cache_data w r w' p :
  _create_configuration E self build_dir preset_name build_type cache_data w
    = (Ok r, w') →
  FS.exists_ (fs w) p = true → FS.exists_ (fs w') p = true.
Proof.
  intros H Hp. apply create_configuration_inv in H
    as [(_ & _ & ->)|(_ & h & pkg & [] & _ & _ & _ & _ & Hw)]; [done| |by subst].
  destruct Hw as [-> _]. by apply exists_insert.
Qed.

(** With a generators directory in place, a call returns an entry, named
    after the preset and the build type. *)
Lemma create_configuration_name E self build_dir preset_name build_type
    cache_data w r w' :
  _create_configuration E self build_dir preset_name build_type cache_data w
    = (Ok r, w') →
  FS.exists_ (fs w) (build_dir // "generators") = true →
  ∃ c, fst r = Some c ∧ cfg_name c = preset_name ++ "-" ++ build_type.
Proof.
  intros H Hex. apply create_configuration_inv in H
    as [(Hno & _)|(_ & h & pkg & ch & _ & _ & _ & -> & _)]; [congruence|].
  eexists. split; reflexivity.
Qed.

Lemma create_each_names E self build_dir preset_name cache_data config_types :
  ∀ configurations has_changes w configs changed w',
    create_each E self build_dir preset_name cache_data config_types
      configurations has_changes w = (Ok (configs, changed), w') →
    FS.exists_ (fs w) (build_dir // "generators") = true →
    map cfg_name configs
    = (map cfg_name configurations
       ++ map (fun build_type => (preset_name ++ "-" ++ build_type)%string)
              (filter (fun build_type => build_type ≠ ""%string) config_types))%list.
Proof.
  induction config_types as [|build_type rest IH];
    intros configurations has_changes w configs changed w' H Hex; simpl in H.
  { apply ret_ok in H as [[= -> ->] _]. simpl. by rewrite app_nil_r. }
  destruct build_type as [|ch bt]; simpl in H.
  { rewrite filter_cons_False by (intros ?; done). by eapply IH. }
  rewrite filter_cons_True by done.
  apply bind_ok in H as ([config changed1] & w1 & Hc & H).
  pose proof (create_configuration_exists _ _ _ _ _ _ _ _ _ _ Hc Hex) as Hex1.
  apply create_configuration_name in Hc as (c & Hsome & Hname); [|done].
  simpl in Hsome. subst config.
  apply IH in H; [|done]. rewrite H, map_app. simpl.
  by rewrite Hname, <- app_assoc.
Qed.

(** C4: a build directory with a generators subdirectory whose cache lists
    the configuration types Debug;Release yields exactly the entries
    preset-Debug and preset-Release; a list of more than one configuration
    type yields one entry per type that is listed, in order; and a
    single-configuration build yields exactly one entry, for the build type
    of the cache or Debug when the cache has none. *)
Theorem multi_configuration_fan_out E self build_dir w cache_data
    configs changed w' :
  CMakeCacheReader.read_cache (fs w) (build_dir // "CMakeCache.txt") = Ok cache_data →
  FS.exists_ (fs w) (build_dir // "CMakeCache.txt") = true →
  FS.exists_ (fs w) (build_dir // "generators") = true →
  _process_build_directory E self build_dir w = (Ok (configs, changed), w') →
  let preset := _extract_preset_name build_dir in
  let config_types :=
    PyStr.split ";" (default "" (cache_data !! "CMAKE_CONFIGURATION_TYPES")) in
  (cache_data !! "CMAKE_CONFIGURATION_TYPES" = Some "Debug;Release" →
   map cfg_name configs = [preset ++ "-Debug"; preset ++ "-Release"])
  ∧ ((1 < length config_types)%nat →
     map cfg_name configs
     = map (fun build_type => preset ++ "-" ++ build_type)
           (filter (fun build_type => build_type ≠ "") config_types))
  ∧ ((length config_types ≤ 1)%nat →
     ∃ c, configs = [c]
          ∧ cfg_name c
            = preset ++ "-" ++ default "Debug" (cache_data !! "CMAKE_BUILD_TYPE")).
Proof.
  intros Hcache Hcf Hgen H preset config_types.
  unfold _process_build_directory in H.
  apply bind_ok in H as (f & w0 & Hf & H). apply get_fs_ok in Hf as [-> ->].
  rewrite Hcf in H. simpl in H.
  apply bind_ok in H as (cd & w0 & Hcd & H). apply lift_ok in Hcd as [Hcd ->].
  rewrite Hcache in Hcd. injection Hcd as <-.
  fold preset config_types in H.
  assert ((1 < length config_types)%nat →
          map cfg_name configs
          = map (fun build_type => preset ++ "-" ++ build_type)
                (filter (fun build_type => build_type ≠ "") config_types)) as Hmulti.
  { intros Hlen. apply Nat.ltb_lt in Hlen. rewrite Hlen in H.
    apply bind_ok in H as ([cs ch] & w1 & Heach & H).
    apply bind_ok in H as (u & w2 & _ & H). apply ret_ok in H as [[= -> ->] _].
    by apply create_each_names in Heach. }
  split; [|split; [exact Hmulti|]].
  - intros Htypes. rewrite Hmulti.
    + subst config_types. rewrite Htypes. reflexivity.
    + subst config_types. rewrite Htypes. simpl. lia.
  - intros Hlen. apply Nat.ltb_ge in Hlen. rewrite Hlen in H.
    apply bind_ok in H as ([config ch] & w1 & Hc & H).
    apply create_configuration_name in Hc as (c & Hsome & Hname); [|done].
    simpl in Hsome. subst config.
    apply bind_ok in H as (u & w2 & _ & H). apply ret_ok in H as [[= -> _] _].
    exists c. done.
Qed.

Lemma multi_configuration_fan_out_witness :
  ∃ configs,
    fst (_process_build_directory Demo.linux Demo.self (Demo.build_dir_of "a")
           Demo.w_multi) = Ok (configs, true)
    ∧ map cfg_name configs = ["a-Debug"; "a-Release"].
Proof.
  destruct (_process_build_directory Demo.linux Demo.self (Demo.build_dir_of "a")
              Demo.w_multi) as [r w'] eqn:Hrun.
  assert (∃ configs, r = Ok (configs, true)) as [configs ->].
  { assert (r = fst (_process_build_directory Demo.linux Demo.self
                       (Demo.build_dir_of "a") Demo.w_multi)) as ->
      by (rewrite Hrun; reflexivity).
    eexists. vm_compute. reflexivity. }
  exists configs. split; [reflexivity|].
  destruct (multi_configuration_fan_out Demo.linux Demo.self (Demo.build_dir_of "a")
              Demo.w_multi
              (CMakeCacheReader.read_content Demo.multi_cache) configs true w')
    as (Htwo & _ & _).
  - vm_compute. reflexivity.
  - vm_compute. reflexivity.
  - vm_compute. reflexivity.
  - exact Hrun.
  - apply Htwo. vm_compute. reflexivity.
Defined.

(** ** Names that are a single path component *)

Lemma chars_of_chars s : PyStr.of_chars (PyStr.chars s) = s.
Proof. apply string_of_list_ascii_of_string. Qed.

Lemma of_chars_app l s :
  PyStr.of_chars (l ++ PyStr.chars s) = PyStr.of_chars l ++ s.
Proof.
  induction l as [|c l IH]; simpl; [apply chars_of_chars|].
  unfold PyStr.of_chars in *. simpl. by rewrite IH.
Qed.

Lemma plain_name_cons c s :
  plain_name (String c s) = negb (Ascii.eqb c "/") && plain_name s.
Proof. reflexivity. Qed.

Lemma plain_name_app a b : plain_name (a ++ b) = plain_name a && plain_name b.
Proof.
  induction a as [|c a IH]; [done|].
  change (String c a ++ b) with (String c (a ++ b)).
  by rewrite !plain_name_cons, IH, andb_assoc.
Qed.

Lemma lower_char_slash c :
  Ascii.eqb (PyStr.lower_char c) "/" = Ascii.eqb c "/".
Proof. destruct c as [[] [] [] [] [] [] [] []]; reflexivity. Qed.

Lemma plain_name_lower s : plain_name (PyStr.lower s) = plain_name s.
Proof.
  induction s as [|c s IH]; [done|].
  simpl PyStr.lower. by rewrite !plain_name_cons, lower_char_slash, IH.
Qed.

Lemma split_go_plain cur s :
  plain_name s = true →
  PyStr.split_go "/" cur s = [PyStr.of_chars (reverse cur) ++ s].
Proof.
  revert cur. induction s as [|c s IH]; intros cur Hs; simpl.
  { f_equal. rewrite <- (of_chars_app _ ""). simpl. by rewrite app_nil_r. }
  rewrite plain_name_cons in Hs. apply andb_true_iff in Hs as [Hc Hs].
  apply negb_true_iff in Hc. rewrite Hc, IH by done.
  f_equal. rewrite reverse_cons, <- !of_chars_app. f_equal.
  by rewrite <- app_assoc.
Qed.

Lemma startswith_slash_plain s : plain_name s = true → PyStr.startswith "/" s = false.
Proof.
  destruct s as [|c s]; [done|]. rewrite plain_name_cons.
  intros [Hc _]%andb_true_iff. apply negb_true_iff in Hc.
  unfold PyStr.startswith.
  destruct c as [[] [] [] [] [] [] [] []]; try reflexivity.
  vm_compute in Hc. discriminate.
Qed.

(** A plain name is one part of a path. *)
Lemma of_string_plain s :
  plain_name s = true → s ≠ "" → s ≠ "." → Path.of_string s = [s].
Proof.
  intros Hs H1 H2. unfold Path.of_string, PyStr.split.
  rewrite startswith_slash_plain, split_go_plain by done. simpl.
  rewrite filter_cons_True by done. done.
Qed.

Lemma join_plain p s :
  plain_name s = true → s ≠ "" → s ≠ "." → p // s = (p ++ [s])%list.
Proof.
  intros Hs H1 H2. unfold Path.join.
  by rewrite startswith_slash_plain, of_string_plain.
Qed.

(** ** What [glob] looks at *)

Lemma elem_of_children (f : gmap path node) (d : path) n :
  n ∈ FS.children f d ↔ is_Some (f !! (d ++ [n])%list).
Proof.
  unfold FS.children. rewrite elem_of_set_omap. split.
  - intros (p & Hp & Hn). unfold FS.child_name in Hn.
    destruct (last p) as [m|]; [|done]. case_decide; [|done].
    injection Hn as ->. subst p. by apply elem_of_dom.
  - intros Hn. exists (d ++ [n])%list. split; [by apply elem_of_dom|].
    unfold FS.child_name. rewrite last_snoc. by rewrite decide_True.
Qed.

(** Two file systems with the same entries under [d] list it alike. *)
Lemma scandir_ext (E : Env) (f1 f2 : gmap path node) (d : path) :
  (∀ n, is_Some (f1 !! (d ++ [n])%list) ↔ is_Some (f2 !! (d ++ [n])%list)) →
  scandir E f1 d = scandir E f2 d.
Proof.
  intros H. unfold scandir. do 3 f_equal.
  apply set_eq. intros n. by rewrite !elem_of_children.
Qed.

(** A pattern of one part selects entries of the directory itself. *)
Lemma glob_single (E : Env) (f : gmap path node) (d : path) pattern :
  Path.of_string pattern = [pattern] →
  glob E f d pattern
  = if FS.is_dir f d
    then map (fun n => (d ++ [n])%list)
             (filter (fun n => Fnmatch.fnmatch n pattern) (scandir E f d))
    else [].
Proof.
  intros Hp. unfold glob. rewrite Hp. simpl.
  destruct (FS.is_dir f d); [|done].
  induction (filter _ _) as [|n l IH]; simpl; [done|]. by rewrite IH.
Qed.

Lemma glob_single_ext (E : Env) (f1 f2 : gmap path node) (d : path) pattern :
  Path.of_string pattern = [pattern] →
  f1 !! d = f2 !! d →
  (∀ n, f1 !! (d ++ [n])%list = f2 !! (d ++ [n])%list) →
  glob E f1 d pattern = glob E f2 d pattern
  ∧ ∀ p, p ∈ glob E f1 d pattern → FS.read f1 p = FS.read f2 p.
Proof.
  intros Hp Hd Hn. rewrite !glob_single by done.
  unfold FS.is_dir. rewrite Hd.
  rewrite (scandir_ext E f1 f2 d) by (intros n; by rewrite Hn).
  split; [done|]. intros p. case_bool_decide; [|by intros ?%elem_of_nil].
  intros (n & -> & _)%list_elem_of_fmap. unfold FS.read. by rewrite Hn.
Qed.

Lemma map_result_ext {A B} (g1 g2 : A → result B) l :
  (∀ x, x ∈ l → g1 x = g2 x) → map_result g1 l = map_result g2 l.
Proof.
  induction l as [|x l IH]; intros H; simpl; [done|].
  rewrite (H x) by apply list_elem_of_here.
  rewrite IH; [done|]. intros y Hy. apply H. by apply list_elem_of_further.
Qed.

Lemma scan_files_ext f1 f2 data_files :
  (∀ p, p ∈ data_files → FS.read f1 p = FS.read f2 p) →
  ∀ acc, scan_files f1 data_files acc = scan_files f2 data_files acc.
Proof.
  induction data_files as [|p l IH]; intros H acc; simpl; [done|].
  unfold ConanDataParser.parse_data_file.
  rewrite (H p) by apply list_elem_of_here.
  destruct (FS.read f2 p); simpl; [|done].
  apply IH. intros q Hq. apply H. by apply list_elem_of_further.
Qed.

(** ** The entry does not depend on the stored record *)

Section HashRecord.
Context (E : Env) (self : generator) (build_dir : path)
        (preset_name build_type : string).
Hypothesis Hvscode : vscode_dir self = workspace_root self // ".vscode".
Hypothesis Hpreset : plain_name preset_name = true.
Hypothesis Htype : plain_name build_type = true.

Let pattern := "*-" ++ PyStr.lower build_type ++ "-*-data.cmake".
Let hash_name := ".conan_hash_" ++ preset_name ++ "_" ++ build_type.

Lemma pattern_one_part : Path.of_string pattern = [pattern].
Proof.
  apply of_string_plain; [|done..].
  unfold pattern. by rewrite !plain_name_app, plain_name_lower, Htype.
Qed.

Lemma hash_file_parts :
  hash_file_of self preset_name build_type
  = ((workspace_root self ++ [".vscode"]) ++ [hash_name])%list.
Proof.
  unfold hash_file_of. rewrite Hvscode. fold hash_name.
  rewrite (join_plain _ hash_name); [done| |done..].
  unfold hash_name. by rewrite !plain_name_app, Hpreset, Htype.
Qed.

Lemma generators_parts : build_dir // "generators" = (build_dir ++ ["generators"])%list.
Proof. reflexivity. Qed.

(** The record is neither the generators directory nor one of its
    entries. *)
Lemma generators_not_hash_file :
  build_dir // "generators" ≠ hash_file_of self preset_name build_type.
Proof.
  rewrite hash_file_parts, generators_parts. intros [_ H]%app_inj_tail.
  discriminate H.
Qed.

Lemma generators_entry_not_hash_file n :
  ((build_dir // "generators") ++ [n])%list
  ≠ hash_file_of self preset_name build_type.
Proof.
  rewrite hash_file_parts, generators_parts. intros [H _]%app_inj_tail.
  apply app_inj_tail in H as [_ H]. discriminate H.
Qed.

Lemma scan_ignores_hash_file (f1 f2 : gmap path node) :
  (∀ p, p ≠ hash_file_of self preset_name build_type → f1 !! p = f2 !! p) →
  FS.exists_ f1 (build_dir // "generators") = FS.exists_ f2 (build_dir // "generators")
  ∧ scan_generators_directory E f1 (build_dir // "generators") build_type
    = scan_generators_directory E f2 (build_dir // "generators") build_type
  ∧ _hash_directory E f1 (build_dir // "generators") build_type
    = _hash_directory E f2 (build_dir // "generators") build_type.
Proof.
  intros Hagree.
  pose proof (Hagree _ generators_not_hash_file) as Hd.
  assert (∀ n, f1 !! ((build_dir // "generators") ++ [n])%list
               = f2 !! ((build_dir // "generators") ++ [n])%list) as Hn
    by (intros n; apply Hagree, generators_entry_not_hash_file).
  destruct (glob_single_ext E f1 f2 _ pattern pattern_one_part Hd Hn) as [Hglob Hread].
  split; [unfold FS.exists_; by rewrite Hd|].
  split.
  - unfold scan_generators_directory. fold pattern. rewrite <- Hglob.
    by apply scan_files_ext.
  - unfold _hash_directory. fold pattern. rewrite <- Hglob.
    rewrite (map_result_ext (FS.read f1) (FS.read f2)); [done|].
    intros p Hp. apply Hread. unfold sorted_paths in Hp.
    by rewrite merge_sort_Permutation in Hp.
Qed.

End HashRecord.

(** C7: two states of the file system that differ at most in the stored
    hash record give the same entry. The entry is built from the package
    data scanned at the time of the call; the record only decides the
    change flag. *)
Theorem entry_independent_of_hash_record E self build_dir preset_name build_type
    cache_data w1 w2 c1 changed1 w1' c2 changed2 w2' :
  vscode_dir self = workspace_root self // ".vscode" →
  plain_name preset_name = true →
  plain_name build_type = true →
  (∀ p, p ≠ hash_file_of self preset_name build_type → fs w1 !! p = fs w2 !! p) →
  _create_configuration E self build_dir preset_name build_type cache_data w1
    = (Ok (Some c1, changed1), w1') →
  _create_configuration E self build_dir preset_name build_type cache_data w2
    = (Ok (Some c2, changed2), w2') →
  c1 = c2
  ∧ ∃ pkg,
      scan_generators_directory E (fs w1) (build_dir // "generators") build_type = Ok pkg
      ∧ scan_generators_directory E (fs w2) (build_dir // "generators") build_type = Ok pkg
      ∧ c1 = config_of E preset_name build_type cache_data pkg.
Proof.
  intros Hvs Hp Ht Hagree H1 H2.
  destruct (scan_ignores_hash_file E self build_dir preset_name build_type
              Hvs Hp Ht (fs w1) (fs w2) Hagree) as (_ & Hscan & _).
  apply create_configuration_inv in H1
    as [(_ & [=] & _)|(_ & h1 & pkg1 & ch1 & _ & _ & Hs1 & [= -> ->] & _)].
  apply create_configuration_inv in H2
    as [(_ & [=] & _)|(_ & h2 & pkg2 & ch2 & _ & _ & Hs2 & [= -> ->] & _)].
  rewrite Hscan, Hs2 in Hs1. injection Hs1 as <-.
  split; [done|]. exists pkg2. by rewrite Hscan.
Qed.

Lemma entry_independent_of_hash_record_witness :
  ∃ c,
    fst (_create_configuration Demo.linux Demo.self (Demo.build_dir_of "a") "a" "Debug"
           ∅ Demo.w_fmt) = Ok (Some c, true)
    ∧ fst (_create_configuration Demo.linux Demo.self (Demo.build_dir_of "a") "a" "Debug"
             ∅ Demo.w_fmt_cached) = Ok (Some c, false).
Proof.
  destruct (_create_configuration Demo.linux Demo.self (Demo.build_dir_of "a") "a"
              "Debug" ∅ Demo.w_fmt) as [r1 w1'] eqn:H1.
  destruct (_create_configuration Demo.linux Demo.self (Demo.build_dir_of "a") "a"
              "Debug" ∅ Demo.w_fmt_cached) as [r2 w2'] eqn:H2.
  assert (∃ c1, r1 = Ok (Some c1, true)) as [c1 ->].
  { assert (r1 = fst (_create_configuration Demo.linux Demo.self
                        (Demo.build_dir_of "a") "a" "Debug" ∅ Demo.w_fmt)) as ->
      by (rewrite H1; reflexivity).
    eexists. vm_compute. reflexivity. }
  assert (∃ c2, r2 = Ok (Some c2, false)) as [c2 ->].
  { assert (r2 = fst (_create_configuration Demo.linux Demo.self
                        (Demo.build_dir_of "a") "a" "Debug" ∅ Demo.w_fmt_cached)) as ->
      by (rewrite H2; reflexivity).
    eexists. vm_compute. reflexivity. }
  destruct (entry_independent_of_hash_record Demo.linux Demo.self
              (Demo.build_dir_of "a") "a" "Debug" ∅ Demo.w_fmt Demo.w_fmt_cached
              c1 true w1' c2 false w2') as [-> _].
  - reflexivity.
  - reflexivity.
  - reflexivity.
  - intros p Hne.
    change (fs Demo.w_fmt_cached)
      with (<[hash_file_of Demo.self "a" "Debug" := File (Demo.hex_encode Demo.fmt_data)]>
              (fs Demo.w_fmt)).
    symmetry. apply lookup_insert_ne. intros Heq. apply Hne. symmetry. exact Heq.
  - exact H1.
  - exact H2.
  - exists c2. split; reflexivity.
Defined.

(** ** Hash records and the document are different files *)

Lemma split_go_head sep cur s :
  ∃ t rest, PyStr.split_go sep cur s = (PyStr.of_chars (reverse cur) ++ t) :: rest.
Proof.
  revert cur. induction s as [|c s IH]; intros cur; simpl.
  - exists "", []. f_equal. rewrite <- (of_chars_app _ ""). simpl. by rewrite app_nil_r.
  - destruct (Ascii.eqb c sep).
    + exists "", (PyStr.split_go sep [] s). f_equal.
      rewrite <- (of_chars_app _ ""). simpl. by rewrite app_nil_r.
    + destruct (IH (c :: cur)) as (t & rest & ->). exists (String c t), rest.
      f_equal. rewrite reverse_cons.
      rewrite <- (of_chars_app (reverse cur ++ [c]) t), <- app_assoc.
      by rewrite <- (of_chars_app (reverse cur) (String c t)).
Qed.

(** The parts of a name that starts with [.c]: the first one starts with
    [.c] too. *)
Lemma of_string_dot_c s :
  ∃ t rest, Path.of_string (String "." (String "c" s)) = String "." (String "c" t) :: rest.
Proof.
  unfold Path.of_string, PyStr.split. simpl.
  destruct (split_go_head "/" ["c"; "."]%char s) as (t & rest & ->).
  rewrite filter_cons_True by done. eauto.
Qed.

Lemma output_file_parts self :
  output_file_of self = (vscode_dir self ++ ["c_cpp_properties.json"])%list.
Proof. reflexivity. Qed.

Lemma hash_file_not_output self preset_name build_type :
  hash_file_of self preset_name build_type ≠ output_file_of self.
Proof.
  unfold hash_file_of, Path.join.
  change (PyStr.startswith "/" (".conan_hash_" ++ preset_name ++ "_" ++ build_type))
    with false.
  change (".conan_hash_" ++ preset_name ++ "_" ++ build_type)
    with (String "." (String "c" ("onan_hash_" ++ preset_name ++ "_" ++ build_type))).
  destruct (of_string_dot_c ("onan_hash_" ++ preset_name ++ "_" ++ build_type))
    as (t & rest & ->).
  rewrite output_file_parts. intros H%app_inv_head. discriminate H.
Qed.


(** ** What the cleanup can remove *)

Lemma glob_parts_elem (E : Env) (f : gmap path node) pats :
  ∀ (d p : path),
    p ∈ glob_parts E f pats d →
    ∃ ns, p = (d ++ ns)%list
          ∧ Forall2 (fun n pat => Fnmatch.fnmatch n pat = true) ns pats.
Proof.
  induction pats as [|pat rest IH]; intros d p; simpl.
  { intros ->%list_elem_of_singleton. exists []. by rewrite app_nil_r. }
  destruct (FS.is_dir f d); [|by intros ?%elem_of_nil].
  rewrite list_elem_of_In, in_flat_map.
  intros (n & Hn & Hp). apply list_elem_of_In, list_elem_of_filter in Hn as [Hn _].
  apply list_elem_of_In, IH in Hp as (ns & -> & Hns).
  exists (n :: ns). split; [by rewrite <- app_assoc|].
  constructor; [|done]. by apply Is_true_true.
Qed.

(** A pattern that starts with a dot matches no name that starts with
    another character. *)
Lemma fnmatch_dot c name pat :
  c ≠ "."%char → Fnmatch.fnmatch (String c name) (String "." pat) = false.
Proof.
  intros Hc. unfold Fnmatch.fnmatch, Fnmatch.translate. simpl.
  destruct (Ascii.eqb_spec c "."); [done|reflexivity].
Qed.

(** The cleanup of a preset never selects the document. *)
Lemma cleanup_glob_not_output E f self preset_name p :
  p ∈ glob E f (vscode_dir self) ((".conan_hash_" ++ preset_name ++ "_") ++ "*") →
  p ≠ output_file_of self.
Proof.
  unfold glob.
  change ((".conan_hash_" ++ preset_name ++ "_") ++ "*")
    with (String "." (String "c" (("onan_hash_" ++ preset_name ++ "_") ++ "*"))).
  destruct (of_string_dot_c (("onan_hash_" ++ preset_name ++ "_") ++ "*"))
    as (t & rest & ->).
  intros (ns & -> & Hns)%glob_parts_elem. rewrite output_file_parts.
  intros H%app_inv_head. subst ns.
  apply Forall2_cons_inv_l in Hns as (pat & pats & Hm & _ & [= <- _]).
  by rewrite fnmatch_dot in Hm.
Qed.

(** ** Summaries of the parts of a run *)

Lemma run_summary_refl self w b : run_summary self w w b b.
Proof.
  exists []. rewrite app_nil_r, orb_false_r. repeat split; [|done..].
  by intros e ?%elem_of_nil.
Qed.

Lemma run_summary_trans self w1 w2 w3 b1 b2 b3 :
  run_summary self w1 w2 b1 b2 → run_summary self w2 w3 b2 b3 →
  run_summary self w1 w3 b1 b3.
Proof.
  intros (evs1 & Ht1 & Hw1 & -> & Hf1) (evs2 & Ht2 & Hw2 & -> & Hf2).
  exists (evs1 ++ evs2)%list. split; [by rewrite Ht2, Ht1, app_assoc|].
  split. { intros e [?|?]%elem_of_app; auto. }
  split; [by rewrite existsb_app, orb_assoc|]. by rewrite Hf2.
Qed.

(** A part that only removes files other than the document and prints. *)
Lemma run_summary_no_write self w w' evs b :
  trace w' = (trace w ++ evs)%list →
  existsb is_write evs = false →
  fs w' !! output_file_of self = fs w !! output_file_of self →
  run_summary self w w' b b.
Proof.
  intros Ht Hno Hf. exists evs. rewrite Hno, orb_false_r.
  repeat split; [done| |done..].
  intros e He Hw. assert (existsb is_write evs = true) as Hyes; [|congruence].
  apply existsb_exists. exists e. by rewrite <- list_elem_of_In.
Qed.

Lemma create_configuration_summary E self build_dir preset_name build_type
    cache_data w config changed w' b :
  _create_configuration E self build_dir preset_name build_type cache_data w
    = (Ok (config, changed), w') →
  run_summary self w w' b (b || changed) ∧ (changed = true → config ≠ None).
Proof.
  intros H. apply create_configuration_inv in H
    as [(_ & [= -> ->] & ->)|(_ & h & pkg & ch & _ & _ & _ & [= -> ->] & Hw)].
  { rewrite orb_false_r. split; [apply run_summary_refl|done]. }
  split; [|done]. destruct ch.
  - destruct Hw as [Hfs Htr].
    exists [EvWrite (hash_file_of self preset_name build_type) h].
    split; [done|]. split.
    { intros e ->%list_elem_of_singleton _. by exists preset_name, build_type, h. }
    split; [done|]. rewrite Hfs, lookup_insert_ne; [done|].
    apply hash_file_not_output.
  - subst w'. rewrite orb_false_r. apply run_summary_refl.
Qed.

(** One round of the cleanup: it returns; a file that is not wanted any
    more is removed, and when that fails a warning is printed. *)
Lemma cleanup_one_cases hash_prefix valid_build_types hash_file w :
  ∃ w1 evs,
    cleanup_one hash_prefix valid_build_types hash_file w = (Ok tt, w1)
    ∧ trace w1 = (trace w ++ evs)%list
    ∧ existsb is_write evs = false
    ∧ (PyStr.drop (String.length hash_prefix) (Path.name hash_file)
       ∈ valid_build_types → w1 = w)
    ∧ (PyStr.drop (String.length hash_prefix) (Path.name hash_file)
       ∉ valid_build_types →
       match fs w !! hash_file with
       | Some (File _) => fs w1 = delete hash_file (fs w) ∧ omap warned evs = []
       | Some Dir =>
           fs w1 = fs w
           ∧ omap warned evs
             = [("Warning: Could not remove " ++ Path.name hash_file ++ ": "
                 ++ exn_str (IsADirectoryError hash_file))%string]
       | None =>
           fs w1 = fs w
           ∧ omap warned evs
             = [("Warning: Could not remove " ++ Path.name hash_file ++ ": "
                 ++ exn_str (FileNotFoundError hash_file))%string]
       end).
Proof.
  unfold cleanup_one. case_bool_decide as Hvalid.
  2:{ exists w, []. rewrite app_nil_r. repeat split; try done. }
  unfold try_except, FS.unlink, FS.print, bind, emit, get_fs, set_fs, raise. simpl.
  destruct (fs w !! hash_file) as [[c|]|] eqn:Hlook; simpl;
    eexists _, [EvUnlink hash_file; _]; (split; [reflexivity|]); simpl;
    rewrite <- app_assoc; repeat split; try done; intros Hin; by destruct Hvalid.
Qed.

(** The cleanup loop always returns, writes nothing and leaves alone every
    file that is not in its list. *)
Lemma cleanup_loop_effect hash_prefix valid_build_types hash_files :
  ∀ w, ∃ w' evs,
    cleanup_loop hash_prefix valid_build_types hash_files w = (Ok tt, w')
    ∧ trace w' = (trace w ++ evs)%list
    ∧ existsb is_write evs = false
    ∧ ∀ p, p ∉ hash_files → fs w' !! p = fs w !! p.
Proof.
  induction hash_files as [|hash_file rest IH]; intros w; simpl.
  { exists w, []. by rewrite app_nil_r. }
  destruct (cleanup_one_cases hash_prefix valid_build_types hash_file w)
    as (w1 & evs1 & Hstep & Ht1 & Hn1 & Hkeep & Hdrop).
  assert (∀ p, p ≠ hash_file → fs w1 !! p = fs w !! p) as Hf1.
  { intros p Hp.
    destruct (decide (PyStr.drop (String.length hash_prefix) (Path.name hash_file)
                      ∈ valid_build_types)) as [Hv|Hv].
    - by rewrite (Hkeep Hv).
    - specialize (Hdrop Hv). destruct (fs w !! hash_file) as [[c|]|].
      + destruct Hdrop as [-> _]. by rewrite lookup_delete_ne.
      + by destruct Hdrop as [-> _].
      + by destruct Hdrop as [-> _]. }
  destruct (IH w1) as (w' & evs & Hrest & Ht & Hn & Hf).
  exists w', (evs1 ++ evs)%list. unfold bind at 1. rewrite Hstep.
  split; [done|]. split; [by rewrite Ht, Ht1, app_assoc|].
  split; [by rewrite existsb_app, Hn1, Hn|].
  intros p Hp. apply not_elem_of_cons in Hp as [Hp1 Hp2].
  by rewrite Hf, Hf1.
Qed.

Lemma cleanup_orphaned_hashes_summary E self preset_name valid_build_types w b :
  ∃ w', _cleanup_orphaned_hashes E self preset_name valid_build_types w = (Ok tt, w')
        ∧ run_summary self w w' b b.
Proof.
  unfold _cleanup_orphaned_hashes, bind at 1, get_fs.
  destruct (cleanup_loop_effect (".conan_hash_" ++ preset_name ++ "_")
              valid_build_types
              (glob E (fs w) (vscode_dir self)
                 ((".conan_hash_" ++ preset_name ++ "_") ++ "*")) w)
    as (w' & evs & Hrun & Ht & Hn & Hf).
  exists w'. split; [done|].
  apply (run_summary_no_write _ _ _ evs); [done..|].
  apply Hf. intros Hin. by apply cleanup_glob_not_output in Hin.
Qed.

Lemma run_summary_flag self w w' b c :
  run_summary self w w' false c → run_summary self w w' b (b || c).
Proof.
  intros (evs & Ht & Hw & -> & Hf). exists evs. done.
Qed.

Lemma create_each_summary E self build_dir preset_name cache_data config_types :
  ∀ configurations has_changes w configs changed w',
    create_each E self build_dir preset_name cache_data config_types
      configurations has_changes w = (Ok (configs, changed), w') →
    run_summary self w w' has_changes changed
    ∧ ∃ new, configs = (configurations ++ new)%list
             ∧ (changed = true → has_changes = true ∨ new ≠ []).
Proof.
  induction config_types as [|build_type rest IH];
    intros configurations has_changes w configs changed w' H; simpl in H.
  { apply ret_ok in H as [[= -> ->] ->]. split; [apply run_summary_refl|].
    exists []. rewrite app_nil_r. auto. }
  destruct (PyStr.truthy build_type); [|by apply IH].
  apply bind_ok in H as ([config changed1] & w1 & Hc & H).
  apply (create_configuration_summary _ _ _ _ _ _ _ _ _ _ has_changes) in Hc
    as [Hsum Hsome].
  destruct config as [c|].
  - apply IH in H as [Hsum' (new & -> & Hnew)].
    split; [by eapply run_summary_trans|].
    exists (c :: new). split; [by rewrite <- app_assoc|].
    intros _. by right.
  - assert (changed1 = false) as ->
      by (destruct changed1; [by destruct Hsome|done]).
    rewrite orb_false_r in Hsum.
    apply IH in H as [Hsum' Hnew]. split; [by eapply run_summary_trans|done].
Qed.

(** A build directory that reports a change also yields an entry. *)
Lemma process_build_directory_summary E self build_dir w configs changed w' :
  _process_build_directory E self build_dir w = (Ok (configs, changed), w') →
  run_summary self w w' false changed ∧ (changed = true → configs ≠ []).
Proof.
  unfold _process_build_directory. intros H.
  apply bind_ok in H as (f & w0 & Hf & H). apply get_fs_ok in Hf as [-> ->].
  destruct (FS.exists_ (fs w) (build_dir // "CMakeCache.txt")); simpl in H.
  2:{ apply ret_ok in H as [[= -> ->] ->]. split; [apply run_summary_refl|done]. }
  apply bind_ok in H as (cache_data & w0 & Hcd & H). apply lift_ok in Hcd as [_ ->].
  destruct (1 <? length _)%nat.
  - apply bind_ok in H as ([cs ch] & w1 & Heach & H).
    apply create_each_summary in Heach as [Hsum (new & -> & Hnew)].
    apply bind_ok in H as (u & w2 & Hclean & H). apply ret_ok in H as [[= -> ->] ->].
    destruct (cleanup_orphaned_hashes_summary E self (_extract_preset_name build_dir)
                (list_to_set
                   (PyStr.split ";"
                      (default "" (cache_data !! "CMAKE_CONFIGURATION_TYPES"))))
                w1 ch) as (w2' & Hrun & Hsum').
    rewrite Hrun in Hclean. injection Hclean as _ <-.
    split; [by eapply run_summary_trans|].
    intros Hch. destruct (Hnew Hch) as [?|?]; [done|]. by destruct new.
  - apply bind_ok in H as ([config ch] & w1 & Hc & H).
    apply (create_configuration_summary _ _ _ _ _ _ _ _ _ _ false) in Hc
      as [Hsum Hsome]. simpl in Hsum.
    destruct (cleanup_orphaned_hashes_summary E self (_extract_preset_name build_dir)
                {[default "Debug" (cache_data !! "CMAKE_BUILD_TYPE")]}
                w1 ch) as (w2' & Hrun & Hsum').
    destruct config as [c|].
    + apply bind_ok in H as (u & w2 & Hclean & H).
      rewrite Hrun in Hclean. injection Hclean as _ <-.
      apply ret_ok in H as [[= -> ->] ->].
      split; [by eapply run_summary_trans|done].
    + assert (ch = false) as -> by (destruct ch; [by destruct Hsome|done]).
      apply bind_ok in H as (u & w2 & Hclean & H).
      rewrite Hrun in Hclean. injection Hclean as _ <-.
      apply ret_ok in H as [[= -> ->] ->].
      split; [by eapply run_summary_trans|done].
Qed.

Lemma process_each_summary E self build_dirs :
  ∀ configurations has_changes w configs changed w',
    process_each E self build_dirs configurations has_changes w
      = (Ok (configs, changed), w') →
    run_summary self w w' has_changes changed
    ∧ ((has_changes = true → configurations ≠ []) → changed = true → configs ≠ []).
Proof.
  induction build_dirs as [|build_dir rest IH];
    intros configurations has_changes w configs changed w' H; simpl in H.
  { apply ret_ok in H as [[= -> ->] ->]. split; [apply run_summary_refl|done]. }
  apply bind_ok in H as ([cs ch] & w1 & Hdir & H).
  apply process_build_directory_summary in Hdir as [Hsum Hne].
  apply IH in H as [Hsum' Hinv].
  split.
  { eapply run_summary_trans; [|exact Hsum']. by apply run_summary_flag. }
  intros Hold. apply Hinv. intros [Hb|Hc]%orb_true_iff.
  - specialize (Hold Hb). by destruct configurations.
  - specialize (Hne Hc). destruct cs; [done|]. by destruct configurations.
Qed.

Lemma generate_configuration_inv E self build_dirs w rc w' :
  generate_configuration E self build_dirs w = (Ok rc, w') →
  ∃ configs changed w1,
    process_each E self build_dirs [] false w = (Ok (configs, changed), w1)
    ∧ ((configs = [] ∧ rc = 1 ∧ fs w' = fs w1
        ∧ ∃ msg, trace w' = (trace w1 ++ [EvPrint Stderr msg])%list)
       ∨ (configs ≠ [] ∧ changed = true ∧ rc = 0
          ∧ ∃ doc msg,
              doc_version doc = 4 ∧ doc_configurations doc = configs
              ∧ fs w' = <[output_file_of self := File (json_dump E doc)]> (fs w1)
              ∧ trace w'
                = (trace w1 ++ [EvWrite (output_file_of self) (json_dump E doc);
                                EvPrint Stdout msg])%list)
       ∨ (configs ≠ [] ∧ changed = false ∧ rc = 2 ∧ w' = w1)).
Proof.
  unfold generate_configuration. intros H.
  apply bind_ok in H as ([configs changed] & w1 & Hproc & H).
  exists configs, changed, w1. split; [done|].
  destruct configs as [|c configs].
  { left. apply bind_ok in H as (u & w2 & Hprint & H). apply ret_ok in H as [-> ->].
    unfold FS.print, emit in Hprint. injection Hprint as _ <-. simpl. eauto 6. }
  right. destruct changed.
  - left. apply bind_ok in H as (u & w2 & Hwrite & H).
    apply write_ok in Hwrite as [Hfs Htr].
    apply bind_ok in H as (u' & w3 & Hprint & H). apply ret_ok in H as [-> ->].
    unfold FS.print, emit in Hprint. injection Hprint as _ <-. simpl.
    repeat split; [done|]. eexists _, _. split; [|split; [|split]].
    3: exact Hfs. 1,2: reflexivity. by rewrite Htr, <- app_assoc.
  - right. apply ret_ok in H as [-> ->]. done.
Qed.

(** ** The result of a run *)

(** C6: a run that returns gives 1 when no entry was synthesized, 0 when
    there are entries and a pair changed, in which case the document holds
    all the entries, and 2 when there are entries and no pair changed, in
    which case the run wrote nothing at all. *)
Theorem generate_configuration_tri_state E self build_dirs w rc w' :
  generate_configuration E self build_dirs w = (Ok rc, w') →
  ∃ configs changed w1,
    process_each E self build_dirs [] false w = (Ok (configs, changed), w1)
    ∧ ((configs = [] ∧ rc = 1)
       ∨ (configs ≠ [] ∧ changed = true ∧ rc = 0
          ∧ ∃ doc,
              doc_version doc = 4 ∧ doc_configurations doc = configs
              ∧ fs w' !! output_file_of self = Some (File (json_dump E doc)))
       ∨ (configs ≠ [] ∧ changed = false ∧ rc = 2
          ∧ fs w' = fs w1
          ∧ ∀ evs, trace w' = (trace w ++ evs)%list → existsb is_write evs = false)).
Proof.
  intros H. apply generate_configuration_inv in H
    as (configs & changed & w1 & Hproc & Hcases).
  exists configs, changed, w1. split; [done|].
  destruct Hcases as [(-> & -> & _)|[(Hne & -> & -> & doc & msg & Hv & Hc & Hfs & _)
                                    |(Hne & -> & -> & ->)]].
  - left. done.
  - right. left. repeat split; [done|]. exists doc. rewrite Hfs, lookup_insert_eq. done.
  - right. right. repeat split; [done|].
    apply process_each_summary in Hproc as [(evs0 & Ht & _ & Hflag & _) _].
    intros evs Hevs. rewrite Ht in Hevs. apply app_inv_head in Hevs as <-.
    by rewrite Hflag.
Qed.

Lemma generate_configuration_tri_state_witness :
  ∃ configs changed w1,
    process_each Demo.linux Demo.self [Demo.build_dir_of "a"] [] false Demo.w_fmt
      = (Ok (configs, changed), w1)
    ∧ configs ≠ [] ∧ changed = true.
Proof.
  destruct (generate_configuration Demo.linux Demo.self [Demo.build_dir_of "a"]
              Demo.w_fmt) as [r w'] eqn:Hrun.
  assert (r = Ok 0) as ->.
  { assert (r = fst (generate_configuration Demo.linux Demo.self
                       [Demo.build_dir_of "a"] Demo.w_fmt)) as ->
      by (rewrite Hrun; reflexivity).
    vm_compute. reflexivity. }
  destruct (generate_configuration_tri_state _ _ _ _ _ _ Hrun)
    as (configs & changed & w1 & Hproc & Hcases).
  exists configs, changed, w1. split; [exact Hproc|].
  destruct Hcases as [[_ [=]]|[(Hne & Hch & _)|(_ & _ & [=] & _)]].
  split; [exact Hne|exact Hch].
Defined.

(** ** Runs that raise *)

Lemma bind_any {A B} (m : M A) (k : A → M B) w r w' :
  bind m k w = (r, w') →
  (∃ a w1, m w = (Ok a, w1) ∧ k a w1 = (r, w'))
  ∨ (∃ e, m w = (Raise e, w') ∧ r = Raise e).
Proof.
  unfold bind. destruct (m w) as [[a|e] w1] eqn:Hm; [eauto|].
  intros [= <- <-]. eauto.
Qed.










Lemma write_trace p c w r w' :
  FS.write p c w = (r, w') → trace w' = (trace w ++ [EvWrite p c])%list.
Proof.
  unfold FS.write, emit, bind, get_fs, set_fs, raise. simpl.
  destruct (fs w !! p) as [[?|]|]; try destruct (FS.is_dir _ _);
    intros [= _ <-]; done.
Qed.

(** ** When the document is written *)



(** ** Patterns without wildcards *)

Lemma translate_go_literal l :
  ∀ rest fuel,
    forallb literal_char l = true →
    (length l + length rest ≤ fuel)%nat →
    Fnmatch.translate_go fuel (l ++ rest)
    = (map Fnmatch.GLit l ++ Fnmatch.translate_go (fuel - length l) rest)%list.
Proof.
  induction l as [|c l IH]; intros rest fuel Hl Hfuel; simpl.
  { by rewrite Nat.sub_0_r. }
  simpl in Hl. apply andb_true_iff in Hl as [Hc Hl].
  destruct fuel as [|fuel]; [simpl in Hfuel; lia|]. simpl.
  unfold literal_char in Hc.
  apply andb_true_iff in Hc as [Hc H3]. apply andb_true_iff in Hc as [H1 H2].
  apply negb_true_iff in H1, H2, H3. rewrite H1, H2, H3.
  f_equal. apply IH; [done|]. simpl in Hfuel. lia.
Qed.

Lemma gmatch_star s : Fnmatch.gmatch [Fnmatch.GStar] s = true.
Proof. induction s as [|c s IH]; [reflexivity|]. simpl in *. exact IH. Qed.

Lemma gmatch_literal l :
  ∀ s, Fnmatch.gmatch (map Fnmatch.GLit l ++ [Fnmatch.GStar]) s = true
       ↔ l `prefix_of` s.
Proof.
  induction l as [|c l IH]; intros s.
  { simpl map. simpl app. rewrite gmatch_star. split; [intros _; apply prefix_nil|done]. }
  destruct s as [|x s].
  { simpl. split; [done|]. intros [k Hk]. discriminate Hk. }
  change (Fnmatch.gmatch (map Fnmatch.GLit (c :: l) ++ [Fnmatch.GStar]) (x :: s))
    with (Ascii.eqb x c && Fnmatch.gmatch (map Fnmatch.GLit l ++ [Fnmatch.GStar]) s).
  rewrite andb_true_iff, IH. destruct (Ascii.eqb_spec x c) as [->|Hne].
  - split; [intros [_ H]; by apply prefix_cons|].
    intros H. split; [done|]. by apply prefix_cons_inv_2 in H.
  - split; [intros [[=] _]|]. intros H. apply prefix_cons_inv_1 in H. done.
Qed.

Lemma chars_app a b : PyStr.chars (a ++ b) = (PyStr.chars a ++ PyStr.chars b)%list.
Proof.
  induction a as [|c a IH]; [done|].
  change (String c a ++ b) with (String c (a ++ b)).
  unfold PyStr.chars in *. simpl. by rewrite IH.
Qed.

Lemma chars_inj a b : PyStr.chars a = PyStr.chars b → a = b.
Proof. intros H. by rewrite <- (chars_of_chars a), H, chars_of_chars. Qed.

Lemma glob_literal_app a b : glob_literal (a ++ b) = glob_literal a && glob_literal b.
Proof. unfold glob_literal. by rewrite chars_app, forallb_app. Qed.

(** A pattern made of a name without wildcards and a final star matches
    the names that start with that name. *)
Lemma fnmatch_literal_star p n :
  glob_literal p = true →
  Fnmatch.fnmatch n (p ++ "*") = true ↔ ∃ t, n = p ++ t.
Proof.
  intros Hp. unfold Fnmatch.fnmatch, Fnmatch.translate.
  rewrite chars_app, length_app.
  rewrite translate_go_literal by (try done; simpl; lia).
  replace (length (PyStr.chars p) + length (PyStr.chars "*") - length (PyStr.chars p))
    with 1 by (simpl; lia).
  change (Fnmatch.translate_go 1 (PyStr.chars "*")) with [Fnmatch.GStar].
  rewrite gmatch_literal. split.
  - intros [k Hk]. exists (PyStr.of_chars k). apply chars_inj.
    rewrite chars_app, Hk. f_equal. unfold PyStr.chars, PyStr.of_chars.
    by rewrite list_ascii_of_string_of_list_ascii.
  - intros [t ->]. exists (PyStr.chars t). apply chars_app.
Qed.

Lemma elem_of_scandir (E : Env) (f : gmap path node) (d : path) (n : string) :
  n ∈ scandir E f d ↔ is_Some (f !! (d ++ [n])%list).
Proof.
  unfold scandir. rewrite listing_perm. unfold sorted_strings.
  rewrite merge_sort_Permutation, elem_of_elements. apply elem_of_children.
Qed.

Section Cleanup.
Context (E : Env) (self : generator) (preset_name : string).
Hypothesis Hplain : plain_name preset_name = true.
Hypothesis Hliteral : glob_literal preset_name = true.

Let hash_prefix := ".conan_hash_" ++ preset_name ++ "_".

(** What the cleanup selects: the entries of the directory whose names
    start with the prefix of the preset. *)
Lemma cleanup_glob_elem (f : gmap path node) p :
  FS.is_dir f (vscode_dir self) = true →
  p ∈ glob E f (vscode_dir self) (hash_prefix ++ "*")
  ↔ ∃ t, p = (vscode_dir self ++ [(hash_prefix ++ t)%string])%list ∧ is_Some (f !! p).
Proof.
  intros Hdir. rewrite glob_single, Hdir.
  2:{ apply of_string_plain; [|done..].
      unfold hash_prefix. by rewrite !plain_name_app, Hplain. }
  rewrite list_elem_of_fmap. split.
  - intros (n & -> & [Hm Hn]%list_elem_of_filter).
    apply Is_true_true, fnmatch_literal_star in Hm as [t ->].
    + exists t. split; [done|]. by apply elem_of_scandir in Hn.
    + unfold hash_prefix. by rewrite !glob_literal_app, Hliteral.
  - intros (t & -> & Hsome). exists (hash_prefix ++ t). split; [done|].
    apply list_elem_of_filter. split; [|by apply elem_of_scandir].
    apply Is_true_true, fnmatch_literal_star; [|by exists t].
    unfold hash_prefix. by rewrite !glob_literal_app, Hliteral.
Qed.

End Cleanup.

(** ** What the cleanup removes *)

Lemma string_app_assoc (a b c : string) : (a ++ b) ++ c = a ++ (b ++ c).
Proof.
  induction a as [|x a IH]; [done|].
  change (String x (a ++ b) ++ c = String x (a ++ (b ++ c))).
  change (String x ((a ++ b) ++ c) = String x (a ++ (b ++ c))). by rewrite IH.
Qed.

Lemma cleanup_loop_removes hash_prefix valid_build_types hash_files :
  ∀ w w',
    cleanup_loop hash_prefix valid_build_types hash_files w = (Ok tt, w') →
    ∃ evs,
      trace w' = (trace w ++ evs)%list
      ∧ (∀ p, fs w !! p = None → fs w' !! p = None)
      ∧ (∀ p, fs w !! p = Some Dir → fs w' !! p = Some Dir)
      ∧ ∀ p, p ∈ hash_files →
             PyStr.drop (String.length hash_prefix) (Path.name p) ∉ valid_build_types →
             (fs w !! p ≠ Some Dir → fs w' !! p = None)
             ∧ (fs w !! p = Some Dir →
                ("Warning: Could not remove " ++ Path.name p ++ ": "
                 ++ exn_str (IsADirectoryError p))%string ∈ omap warned evs).
Proof.
  induction hash_files as [|hash_file rest IH]; intros w w' H; simpl in H.
  { apply ret_ok in H as [_ ->]. exists []. rewrite app_nil_r.
    split; [done|]. split; [done|]. split; [done|].
    intros p Hp. by apply elem_of_nil in Hp. }
  destruct (cleanup_one_cases hash_prefix valid_build_types hash_file w)
    as (w1 & evs1 & Hstep & Ht1 & _ & Hkeep & Hdrop).
  unfold bind in H. rewrite Hstep in H.
  apply IH in H as (evs & Ht & Hnone & Hdir & Hrest).
  assert (∀ p, fs w !! p = None → fs w1 !! p = None) as Hnone1.
  { intros p Hp.
    destruct (decide (PyStr.drop (String.length hash_prefix) (Path.name hash_file)
                      ∈ valid_build_types)) as [Hv|Hv]; [by rewrite (Hkeep Hv)|].
    specialize (Hdrop Hv). destruct (fs w !! hash_file) as [[c|]|].
    - destruct Hdrop as [-> _]. apply lookup_delete_None. by right.
    - by destruct Hdrop as [-> _].
    - by destruct Hdrop as [-> _]. }
  assert (∀ p, fs w !! p = Some Dir → fs w1 !! p = Some Dir) as Hdir1.
  { intros p Hp.
    destruct (decide (PyStr.drop (String.length hash_prefix) (Path.name hash_file)
                      ∈ valid_build_types)) as [Hv|Hv]; [by rewrite (Hkeep Hv)|].
    specialize (Hdrop Hv). destruct (fs w !! hash_file) as [[c|]|] eqn:Hlook.
    - destruct Hdrop as [-> _]. rewrite lookup_delete_ne; [done|]. congruence.
    - by destruct Hdrop as [-> _].
    - by destruct Hdrop as [-> _]. }
  assert (∀ p, fs w !! p ≠ Some Dir → fs w1 !! p ≠ Some Dir) as Hnodir1.
  { intros p Hp.
    destruct (decide (PyStr.drop (String.length hash_prefix) (Path.name hash_file)
                      ∈ valid_build_types)) as [Hv|Hv]; [by rewrite (Hkeep Hv)|].
    specialize (Hdrop Hv). destruct (fs w !! hash_file) as [[c|]|] eqn:Hlook.
    - destruct Hdrop as [-> _]. intros [_ Hd]%lookup_delete_Some. done.
    - by destruct Hdrop as [-> _].
    - by destruct Hdrop as [-> _]. }
  exists (evs1 ++ evs)%list. split; [by rewrite Ht, Ht1, app_assoc|].
  split; [auto|]. split; [auto|].
  intros p Hp Horphan. rewrite omap_app, elem_of_app.
  apply elem_of_cons in Hp as [->|Hp].
  - specialize (Hdrop Horphan). destruct (fs w !! hash_file) as [[c|]|] eqn:Hlook.
    + destruct Hdrop as [Hfs _]. split; [|done]. intros _. apply Hnone.
      rewrite Hfs. apply lookup_delete_eq.
    + destruct Hdrop as [_ Hwarn]. split; [done|]. intros _. left.
      rewrite Hwarn. apply list_elem_of_here.
    + split; [|done]. intros _. by apply Hnone, Hnone1.
  - destruct (Hrest p Hp Horphan) as [Hgone Hwarn]. split.
    + intros Hno. by apply Hgone, Hnodir1.
    + intros Hd. right. by apply Hwarn, Hdir1.
Qed.

(** The cleanup of a preset whose name has no wildcard: it returns, every
    record of the preset for a build type that is not valid is gone unless
    it is a directory, and for each of those a warning is printed. *)
Lemma cleanup_removes_orphans E self preset_name valid_build_types w :
  plain_name preset_name = true →
  glob_literal preset_name = true →
  FS.is_dir (fs w) (vscode_dir self) = true →
  ∃ w' evs,
    _cleanup_orphaned_hashes E self preset_name valid_build_types w = (Ok tt, w')
    ∧ trace w' = (trace w ++ evs)%list
    ∧ ∀ build_type,
        build_type ∉ valid_build_types →
        let name := ".conan_hash_" ++ preset_name ++ "_" ++ build_type in
        let record := (vscode_dir self ++ [name])%list in
        (∀ c, fs w !! record = Some (File c) → fs w' !! record = None)
        ∧ (fs w !! record = Some Dir →
           ("Warning: Could not remove " ++ name ++ ": "
            ++ exn_str (IsADirectoryError record))%string ∈ omap warned evs).
Proof.
  intros Hplain Hlit Hdir.
  destruct (cleanup_orphaned_hashes_summary E self preset_name valid_build_types w false)
    as (w' & Hrun & _).
  pose proof Hrun as Hloop.
  unfold _cleanup_orphaned_hashes, bind, get_fs in Hloop.
  apply cleanup_loop_removes in Hloop as (evs & Ht & _ & _ & Hrem).
  exists w', evs. split; [done|]. split; [done|].
  intros build_type Hbt name record.
  assert (Path.name record = name) as Hname.
  { unfold Path.name, record. rewrite last_snoc. reflexivity. }
  assert (PyStr.drop (String.length (".conan_hash_" ++ preset_name ++ "_")) name
          = build_type) as Hsuffix.
  { unfold name. clear. 
    change (".conan_hash_" ++ preset_name ++ "_" ++ build_type)
      with (".conan_hash_" ++ (preset_name ++ "_" ++ build_type)).
    simpl. induction preset_name as [|c s IH]; [done|]. exact IH. }
  assert (is_Some (fs w !! record) →
          (∀ c, fs w !! record = Some (File c) → fs w' !! record = None)
          ∧ (fs w !! record = Some Dir →
             ("Warning: Could not remove " ++ name ++ ": "
              ++ exn_str (IsADirectoryError record))%string ∈ omap warned evs)) as Hgo.
  { intros Hsome.
    destruct (Hrem record) as [Hgone Hwarn].
    - apply (cleanup_glob_elem E self preset_name Hplain Hlit (fs w) record Hdir).
      exists build_type. split; [|done]. unfold record, name.
      by rewrite !string_app_assoc.
    - by rewrite Hname, Hsuffix.
    - rewrite Hname in Hwarn. split; [|done]. intros c Hc. apply Hgone.
      intros Hd. pose proof (eq_trans (eq_sym Hc) Hd) as Heq. discriminate Heq. }
  split.
  - intros c Hc. assert (is_Some (fs w !! record)) as Hsome by (rewrite Hc; eauto).
    destruct (Hgo Hsome) as [Hgone _]. by apply (Hgone c).
  - intros Hd. assert (is_Some (fs w !! record)) as Hsome by (rewrite Hd; eauto).
    destruct (Hgo Hsome) as [_ Hwarn]. by apply Hwarn.
Qed.

(** ** The generator object *)

(** [__init__] sets [vscode_dir] to [.vscode] under the workspace root and
    makes sure that it is a directory. *)
Lemma init_vscode_dir ws w self w' :
  __init__ ws w = (Ok self, w') →
  vscode_dir self = workspace_root self // ".vscode"
  ∧ FS.is_dir (fs w') (vscode_dir self) = true.
Proof.
  unfold __init__. intros H.
  apply bind_ok in H as (u & w1 & Hmk & H). apply ret_ok in H as [-> ->].
  split; [reflexivity|]. simpl.
  unfold FS.mkdir_exist_ok, bind, emit, get_fs, set_fs, raise in Hmk. simpl in Hmk.
  unfold FS.is_dir. apply bool_decide_eq_true.
  destruct (fs w !! (ws // ".vscode")) as [[c|]|] eqn:Hlook;
    try discriminate.
  - injection Hmk as _ <-. done.
  - destruct (FS.is_dir _ _); [|discriminate]. injection Hmk as _ <-. simpl.
    apply lookup_insert_eq.
Qed.

(** ** Two runs in a row *)

(** C2 fails on the code. The workspace has the presets [a] and [a_b]. The
    first run stores the hash records of both and writes the document. In
    the second run, on the file system the first one left, the cleanup for
    preset [a] takes the record of [a_b] for one of its own, with build type
    [b_Debug], and removes it; [a_b] is then marked as changed, the record
    and the document are written again and the run returns 0 instead of
    2. *)
Theorem second_run_reports_changes :
  let build_dirs := [Demo.build_dir_of "a"; Demo.build_dir_of "a_b"] in
  let first := generate_configuration Demo.linux Demo.self build_dirs
                 Demo.w_two_presets in
  let second := generate_configuration Demo.linux Demo.self build_dirs
                  (Demo.restart (snd first)) in
  fst first = Ok 0
  ∧ omap written (trace (snd first))
    = [hash_file_of Demo.self "a" "Debug"; hash_file_of Demo.self "a_b" "Debug";
       output_file_of Demo.self]
  ∧ omap unlinked (trace (snd first)) = []
  ∧ fst second = Ok 0
  ∧ omap unlinked (trace (snd second)) = [hash_file_of Demo.self "a_b" "Debug"]
  ∧ omap written (trace (snd second))
    = [hash_file_of Demo.self "a_b" "Debug"; output_file_of Demo.self]
  ∧ fs (snd second) !! output_file_of Demo.self
    = fs (snd first) !! output_file_of Demo.self.
Proof. vm_compute. repeat split; reflexivity. Qed.

(** The other order of the two build directories does no better: the
    record of [a_b] is removed in every run. *)
Example second_run_reports_changes_other_order :
  let build_dirs := [Demo.build_dir_of "a_b"; Demo.build_dir_of "a"] in
  let first := generate_configuration Demo.linux Demo.self build_dirs
                 Demo.w_two_presets in
  let second := generate_configuration Demo.linux Demo.self build_dirs
                  (Demo.restart (snd first)) in
  fst first = Ok 0
  ∧ fst second = Ok 0
  ∧ omap unlinked (trace (snd second)) = [hash_file_of Demo.self "a_b" "Debug"].
Proof. vm_compute. repeat split; reflexivity. Qed.

(** With the preset [a] alone the second run finds nothing to do. *)
Example second_run_single_preset :
  let build_dirs := [Demo.build_dir_of "a"] in
  let first := generate_configuration Demo.linux Demo.self build_dirs Demo.w_fmt in
  let second := generate_configuration Demo.linux Demo.self build_dirs
                  (Demo.restart (snd first)) in
  fst first = Ok 0
  ∧ fst second = Ok 2
  ∧ trace (snd second) = []
  ∧ fs (snd second) !! output_file_of Demo.self
    = fs (snd first) !! output_file_of Demo.self.
Proof. vm_compute. repeat split; reflexivity. Qed.

(** ** The cleanup of orphaned records *)

(** C5 fails on the code. The preset is named [a[1]] and is configured for
    Debug; the record of a Release build carries the prefix of the preset
    and Release is not a valid build type. The pattern handed to [glob]
    reads [[1]] as a set of characters, so the record is not selected: it is
    still there afterwards, no removal was tried and no warning printed. *)
Theorem cleanup_misses_bracket_preset :
  let build_dir := Demo.build_dir_of "a[1]" in
  let run := _process_build_directory Demo.linux Demo.self build_dir Demo.w_bracket in
  _extract_preset_name build_dir = "a[1]"
  ∧ Path.name Demo.stale_record = ".conan_hash_" ++ "a[1]" ++ "_" ++ "Release"
  ∧ fs Demo.w_bracket !! Demo.stale_record = Some (File "0123")
  ∧ omap (fun r => Some (map cfg_name (fst r))) (match fst run with Ok r => [r] | _ => [] end)
    = [["a[1]-Debug"]]
  ∧ fs (snd run) !! Demo.stale_record = Some (File "0123")
  ∧ omap unlinked (trace (snd run)) = []
  ∧ omap warned (trace (snd run)) = [].
Proof. vm_compute. repeat split; reflexivity. Qed.

(** For the preset [a] the stale record is removed. *)
Example cleanup_removes_stale_record :
  let run := _process_build_directory Demo.linux Demo.self (Demo.build_dir_of "a")
               Demo.w_stale in
  fs Demo.w_stale !! Demo.stale_record_a = Some (File "0123")
  ∧ fs (snd run) !! Demo.stale_record_a = None
  ∧ omap unlinked (trace (snd run)) = [Demo.stale_record_a]
  ∧ omap warned (trace (snd run)) = [].
Proof. vm_compute. repeat split; reflexivity. Qed.

(** A record that cannot be removed gives a warning, and the run goes
    on. *)
Example cleanup_warns_on_failure :
  let run := _process_build_directory Demo.linux Demo.self (Demo.build_dir_of "a")
               Demo.w_stale_dir in
  omap (fun r => Some (map cfg_name (fst r))) (match fst run with Ok r => [r] | _ => [] end)
  = [["a-Debug"]]
  ∧ fs (snd run) !! Demo.stale_record_a = Some Dir
  ∧ omap unlinked (trace (snd run)) = [Demo.stale_record_a]
  ∧ omap warned (trace (snd run))
    = ["Warning: Could not remove .conan_hash_a_Release: [Errno 21] Is a directory: 'ws/.vscode/.conan_hash_a_Release'"].
Proof. vm_compute. repeat split; reflexivity. Qed.

(** * Further properties *)

(** ** The run stays inside the settings directory *)

Lemma confined_refl self w : confined self w w.
Proof.
  exists []. rewrite app_nil_r. split; [done|].
  split; [by intros e p ?%elem_of_nil|]. split; [by intros e ?%elem_of_nil|done].
Qed.

Lemma confined_trans self w1 w2 w3 :
  confined self w1 w2 → confined self w2 w3 → confined self w1 w3.
Proof.
  intros (evs1 & Ht1 & Hp1 & Hm1 & Hf1) (evs2 & Ht2 & Hp2 & Hm2 & Hf2).
  exists (evs1 ++ evs2)%list. split; [by rewrite Ht2, Ht1, app_assoc|].
  split; [intros e p [?|?]%elem_of_app; eauto|].
  split; [intros e [?|?]%elem_of_app; eauto|].
  intros p Hp. by rewrite Hf2, Hf1.
Qed.

Lemma hash_file_under self preset_name build_type :
  under (vscode_dir self) (hash_file_of self preset_name build_type).
Proof.
  unfold hash_file_of, Path.join.
  change (PyStr.startswith "/" (".conan_hash_" ++ preset_name ++ "_" ++ build_type))
    with false.
  change (".conan_hash_" ++ preset_name ++ "_" ++ build_type)
    with (String "." (String "c" ("onan_hash_" ++ preset_name ++ "_" ++ build_type))).
  destruct (of_string_dot_c ("onan_hash_" ++ preset_name ++ "_" ++ build_type))
    as (t & rest & ->).
  eexists. split; [|reflexivity]. done.
Qed.

Lemma output_file_under self : under (vscode_dir self) (output_file_of self).
Proof. exists ["c_cpp_properties.json"]. split; [done|apply output_file_parts]. Qed.

(** Writing a file below the settings directory, whether it succeeds or
    not. *)
Lemma write_confined self p c w r w' :
  under (vscode_dir self) p → FS.write p c w = (r, w') → confined self w w'.
Proof.
  intros Hu H. exists [EvWrite p c].
  split; [by eapply write_trace|].
  split. { intros e q ->%list_elem_of_singleton [[= <-]|[=]]. done. }
  split. { intros e ->%list_elem_of_singleton q [=]. }
  intros q Hq.
  unfold FS.write, emit, bind, get_fs, set_fs, raise in H. simpl in H.
  assert (p ≠ q) as Hne by (intros ->; done).
  destruct (fs w !! p) as [[?|]|]; try destruct (FS.is_dir _ _);
    injection H as _ <-; simpl; try done; by rewrite lookup_insert_ne.
Qed.

(** The world after [_create_configuration]: untouched, or what storing
    the hash record made of it. *)
Lemma create_configuration_world E self build_dir preset_name build_type
    cache_data w r w' :
  _create_configuration E self build_dir preset_name build_type cache_data w
    = (r, w') →
  w' = w
  ∨ ∃ h r', FS.write (hash_file_of self preset_name build_type) h w = (r', w').
Proof.
  unfold _create_configuration. intros H.
  apply bind_any in H as [(f & w0 & Hf & H)|(e & Hf & _)];
    [apply get_fs_ok in Hf as [-> ->]|discriminate Hf].
  destruct (FS.exists_ (fs w) (build_dir // "generators")); simpl in H.
  2:{ injection H as _ <-. by left. }
  apply bind_any in H as [(h & w0 & Hh & H)|(e & Hh & _)].
  2:{ injection Hh as _ <-. by left. }
  apply lift_ok in Hh as [_ ->].
  apply bind_any in H as [(ch & w0 & Hch & H)|(e & Hch & _)].
  - assert (w0 = w) as ->.
    { destruct (FS.exists_ (fs w) _).
      - apply bind_ok in Hch as (c & w1 & Hrd & Hch).
        apply lift_ok in Hrd as [_ ->]. by apply ret_ok in Hch as [_ ->].
      - by apply ret_ok in Hch as [_ ->]. }
    apply bind_any in H as [(pkg & w0 & Hpkg & H)|(e & Hpkg & _)].
    2:{ injection Hpkg as _ <-. by left. }
    apply lift_ok in Hpkg as [_ ->].
    destruct (detect_compiler E) as [detected mode].
    apply bind_any in H as [(u & w0 & Hw & H)|(e & Hw & _)].
    + injection H as _ <-. destruct ch; [right; eauto|].
      apply ret_ok in Hw as [_ ->]. by left.
    + destruct ch; [right; eauto|discriminate Hw].
  - left. destruct (FS.exists_ (fs w) _); [|discriminate Hch].
    apply bind_any in Hch as [(c & w1 & Hrd & Hch)|(e' & Hrd & _)].
    + discriminate Hch.
    + by injection Hrd as _ <-.
Qed.

Lemma create_configuration_confined E self build_dir preset_name build_type
    cache_data w r w' :
  _create_configuration E self build_dir preset_name build_type cache_data w
    = (r, w') →
  confined self w w'.
Proof.
  intros [->|(h & r' & Hw)]%create_configuration_world; [apply confined_refl|].
  eapply write_confined; [apply hash_file_under|exact Hw].
Qed.

Lemma confined_unlink_print self w w' q to msg :
  under (vscode_dir self) q →
  trace w' = (trace w ++ [EvUnlink q; EvPrint to msg])%list →
  (∀ p, p ≠ q → fs w' !! p = fs w !! p) →
  confined self w w'.
Proof.
  intros Hu Ht Hf. exists [EvUnlink q; EvPrint to msg]. split; [done|].
  split.
  { intros e p He Hor. apply elem_of_cons in He as [->|He].
    - destruct Hor as [[=]|[= <-]]. done.
    - apply list_elem_of_singleton in He as ->. by destruct Hor as [[=]|[=]]. }
  split.
  { intros e He p. apply elem_of_cons in He as [->|He]; [done|].
    apply list_elem_of_singleton in He as ->. done. }
  intros p Hp. apply Hf. by intros ->.
Qed.

Lemma cleanup_one_confined self hash_prefix valid_build_types hash_file w r w' :
  under (vscode_dir self) hash_file →
  cleanup_one hash_prefix valid_build_types hash_file w = (r, w') →
  confined self w w'.
Proof.
  intros Hu. unfold cleanup_one. case_bool_decide as Horphan.
  2:{ intros [= _ <-]. apply confined_refl. }
  unfold try_except, FS.unlink, FS.print, bind, emit, get_fs, set_fs, raise. simpl.
  intros H.
  destruct (fs w !! hash_file) as [[c|]|] eqn:Hlook; simpl in H;
    injection H as _ <-;
    (eapply (confined_unlink_print self _ _ hash_file); [done| |]);
    simpl; try (by rewrite <- app_assoc); intros p Hp; try done.
  by rewrite lookup_delete_ne.
Qed.

Lemma cleanup_loop_confined self hash_prefix valid_build_types hash_files :
  (∀ p, p ∈ hash_files → under (vscode_dir self) p) →
  ∀ w r w',
    cleanup_loop hash_prefix valid_build_types hash_files w = (r, w') →
    confined self w w'.
Proof.
  induction hash_files as [|hash_file rest IH]; intros Hu w r w' H; simpl in H.
  { injection H as _ <-. apply confined_refl. }
  apply bind_any in H as [(u & w1 & Hone & H)|(e & Hone & _)].
  - eapply confined_trans.
    + eapply cleanup_one_confined; [|exact Hone]. apply Hu, list_elem_of_here.
    + eapply IH; [|exact H]. intros p Hp. by apply Hu, list_elem_of_further.
  - eapply cleanup_one_confined; [|exact Hone]. apply Hu, list_elem_of_here.
Qed.

Lemma cleanup_orphaned_hashes_confined E self preset_name valid_build_types w r w' :
  _cleanup_orphaned_hashes E self preset_name valid_build_types w = (r, w') →
  confined self w w'.
Proof.
  unfold _cleanup_orphaned_hashes. intros H.
  apply bind_any in H as [(f & w0 & Hf & H)|(e & Hf & _)];
    [apply get_fs_ok in Hf as [-> ->]|discriminate Hf].
  eapply cleanup_loop_confined; [|exact H].
  intros p. unfold glob.
  change ((".conan_hash_" ++ preset_name ++ "_") ++ "*")
    with (String "." (String "c" (("onan_hash_" ++ preset_name ++ "_") ++ "*"))).
  destruct (of_string_dot_c (("onan_hash_" ++ preset_name ++ "_") ++ "*"))
    as (t & rest & ->).
  intros (ns & -> & Hns)%glob_parts_elem. exists ns. split; [|done].
  intros ->. by apply Forall2_nil_inv_l in Hns.
Qed.

Lemma create_each_confined E self build_dir preset_name cache_data config_types :
  ∀ configurations has_changes w r w',
    create_each E self build_dir preset_name cache_data config_types
      configurations has_changes w = (r, w') →
    confined self w w'.
Proof.
  induction config_types as [|build_type rest IH];
    intros configurations has_changes w r w' H; simpl in H.
  { injection H as _ <-. apply confined_refl. }
  destruct (PyStr.truthy build_type); [|by eapply IH].
  apply bind_any in H as [([config changed] & w1 & Hc & H)|(e & Hc & _)].
  - apply create_configuration_confined in Hc.
    eapply confined_trans; [exact Hc|].
    destruct config; by eapply IH.
  - by apply create_configuration_confined in Hc.
Qed.

Lemma process_build_directory_confined E self build_dir w r w' :
  _process_build_directory E self build_dir w = (r, w') → confined self w w'.
Proof.
  unfold _process_build_directory. intros H.
  apply bind_any in H as [(f & w0 & Hf & H)|(e & Hf & _)];
    [apply get_fs_ok in Hf as [-> ->]|discriminate Hf].
  destruct (FS.exists_ (fs w) (build_dir // "CMakeCache.txt")); simpl in H.
  2:{ injection H as _ <-. apply confined_refl. }
  apply bind_any in H as [(cache_data & w0 & Hcd & H)|(e & Hcd & _)].
  2:{ injection Hcd as _ <-. apply confined_refl. }
  apply lift_ok in Hcd as [_ ->].
  destruct (1 <? length _)%nat.
  - apply bind_any in H as [([cs ch] & w1 & Heach & H)|(e & Heach & _)].
    2:{ by apply create_each_confined in Heach. }
    apply create_each_confined in Heach. eapply confined_trans; [exact Heach|].
    apply bind_any in H as [(u & w2 & Hclean & H)|(e & Hclean & _)].
    + injection H as _ <-. by eapply cleanup_orphaned_hashes_confined.
    + by eapply cleanup_orphaned_hashes_confined.
  - apply bind_any in H as [([config ch] & w1 & Hc & H)|(e & Hc & _)].
    2:{ by apply create_configuration_confined in Hc. }
    apply create_configuration_confined in Hc. eapply confined_trans; [exact Hc|].
    destruct config.
    + apply bind_any in H as [(u & w2 & Hclean & H)|(e & Hclean & _)].
      * injection H as _ <-. by eapply cleanup_orphaned_hashes_confined.
      * by eapply cleanup_orphaned_hashes_confined.
    + apply bind_any in H as [(u & w2 & Hclean & H)|(e & Hclean & _)].
      * injection H as _ <-. by eapply cleanup_orphaned_hashes_confined.
      * by eapply cleanup_orphaned_hashes_confined.
Qed.




(** ** The preset name of a build directory *)

Lemma find_preset_skip part rest :
  part ≠ "build" → find_preset (part :: rest) = find_preset rest.
Proof.
  intros Hne. simpl. destruct rest as [|next [|after rest']]; try done.
  destruct (String.eqb_spec part "build"); [done|reflexivity].
Qed.

(** X2: the preset name is the part between the first two parts named
    [build] that are two apart. For a path without a part named [build]
    before [build/<preset>/build], such as the directories found under a
    workspace root that has no part of that name, it is [<preset>], whatever
    follows. *)
Theorem extract_preset_name_layout (root : path) (preset : string) (rest : path) :
  "build" ∉ root →
  _extract_preset_name (root ++ "build" :: preset :: "build" :: rest)%list = preset.
Proof.
  intros Hroot. unfold _extract_preset_name.
  assert (find_preset (root ++ "build" :: preset :: "build" :: rest)%list = Some preset)
    as ->; [|done].
  induction root as [|part root IH]; [reflexivity|].
  apply not_elem_of_cons in Hroot as [Hne Hroot].
  change ((part :: root) ++ "build" :: preset :: "build" :: rest)%list
    with (part :: (root ++ "build" :: preset :: "build" :: rest))%list.
  rewrite find_preset_skip by done. by apply IH.
Qed.

Lemma extract_preset_name_layout_witness :
  _extract_preset_name
    (["home"; "me"; "ws"] ++ "build" :: "gcc-debug" :: "build" :: [])%list
  = "gcc-debug".
Proof.
  apply (extract_preset_name_layout ["home"; "me"; "ws"] "gcc-debug" []).
  intros H. repeat (apply elem_of_cons in H as [H|H]; [discriminate H|]).
  by apply elem_of_nil in H.
Defined.

Lemma find_preset_none (parts : list string) :
  (∀ i, ¬ (parts !! i = Some "build" ∧ parts !! (i + 2)%nat = Some "build")) →
  find_preset parts = None.
Proof.
  induction parts as [|part rest IH]; intros Hno; [done|].
  assert (find_preset rest = None) as Hrest.
  { apply IH. intros i Hi. apply (Hno (S i)). exact Hi. }
  simpl. destruct rest as [|next [|after rest']]; try done.
  destruct (String.eqb_spec part "build") as [->|]; [|done].
  destruct (String.eqb_spec after "build") as [->|]; [|done].
  destruct (Hno 0%nat). done.
Qed.

(** X3: a build directory whose path has no two parts named [build] that are
    two apart gets the name of its parent when its own name is [build], and
    its own name otherwise. *)
Theorem extract_preset_name_fallback (build_dir : path) :
  (∀ i, ¬ (build_dir !! i = Some "build" ∧ build_dir !! (i + 2)%nat = Some "build")) →
  _extract_preset_name build_dir
  = if decide (Path.name build_dir = "build")
    then Path.name (Path.parent build_dir)
    else Path.name build_dir.
Proof.
  intros Hno. unfold _extract_preset_name. rewrite find_preset_none by done.
  destruct (String.eqb_spec (Path.name build_dir) "build"); case_decide; done.
Qed.

Lemma extract_preset_name_fallback_witness :
  _extract_preset_name ["out"; "gcc"; "build"] = "gcc"
  ∧ _extract_preset_name ["out"; "gcc"] = "gcc".
Proof.
  split.
  - rewrite (extract_preset_name_fallback ["out"; "gcc"; "build"]); [reflexivity|].
    intros [|[|[|i]]] [H1 H2]; discriminate.
  - rewrite (extract_preset_name_fallback ["out"; "gcc"]); [reflexivity|].
    intros [|[|i]] [H1 H2]; discriminate.
Defined.

(** ** Discovery of the build directories *)

Lemma is_dir_exists (f : gmap path node) (p : path) :
  FS.is_dir f p = true → FS.exists_ f p = true.
Proof.
  unfold FS.is_dir, FS.exists_. rewrite !bool_decide_eq_true. intros ->. eauto.
Qed.

(** X4: the directories that [discover_build_directories] returns are exactly
    the directories [build/<preset>/build] under the workspace root, for the
    entries [<preset>] of [build] that are directories, that hold an entry
    [CMakeCache.txt]; nothing is returned when [build] is not a directory. *)
Theorem discover_build_directories_spec (E : Env) (f : gmap path node)
    (workspace_root p : path) :
  p ∈ discover_build_directories E f workspace_root
  ↔ ∃ preset,
      p = (workspace_root ++ ["build"; preset; "build"])%list
      ∧ FS.is_dir f (workspace_root ++ ["build"])%list = true
      ∧ FS.is_dir f (workspace_root ++ ["build"; preset])%list = true
      ∧ FS.is_dir f p = true
      ∧ FS.exists_ f (p ++ ["CMakeCache.txt"])%list = true.
Proof.
  unfold discover_build_directories.
  change (workspace_root // "build") with (workspace_root ++ ["build"])%list.
  split.
  - destruct (FS.exists_ f _ && FS.is_dir f _) eqn:Hroot;
      [|by intros ?%elem_of_nil].
    apply andb_true_iff in Hroot as [_ Hroot].
    rewrite list_elem_of_In, in_flat_map. intros (preset_dir & Hin & Hp).
    apply list_elem_of_In, list_elem_of_fmap in Hin as (preset & -> & Hn).
    destruct (FS.is_dir f ((workspace_root ++ ["build"]) ++ [preset])%list)
      eqn:Hpreset; [|done].
    change (((workspace_root ++ ["build"]) ++ [preset])%list // "build")
      with (((workspace_root ++ ["build"]) ++ [preset]) ++ ["build"])%list in Hp.
    destruct (FS.is_dir f _ && FS.exists_ f _) eqn:Hinner; [|done].
    apply andb_true_iff in Hinner as [Hinner Hcache].
    destruct Hp as [<-|[]]. exists preset.
    rewrite <- !app_assoc in *. simpl in *.
    change ((workspace_root ++ ["build"; preset; "build"])%list // "CMakeCache.txt")
      with ((workspace_root ++ ["build"; preset; "build"]) ++ ["CMakeCache.txt"])%list
      in Hcache.
    rewrite <- app_assoc in Hcache. done.
  - intros (preset & -> & Hroot & Hpreset & Hinner & Hcache).
    rewrite Hroot, (is_dir_exists _ _ Hroot). simpl.
    rewrite list_elem_of_In, in_flat_map.
    exists ((workspace_root ++ ["build"]) ++ [preset])%list. split.
    + apply list_elem_of_In, list_elem_of_fmap. exists preset. split; [done|].
      apply elem_of_scandir. rewrite <- app_assoc. simpl.
      apply is_dir_exists in Hpreset. unfold FS.exists_ in Hpreset.
      by apply bool_decide_eq_true in Hpreset.
    + rewrite <- app_assoc. simpl. rewrite Hpreset.
      change ((workspace_root ++ ["build"; preset])%list // "build")
        with ((workspace_root ++ ["build"; preset]) ++ ["build"])%list.
      rewrite <- app_assoc. simpl.
      change ((workspace_root ++ ["build"; preset; "build"])%list // "CMakeCache.txt")
        with ((workspace_root ++ ["build"; preset; "build"]) ++ ["CMakeCache.txt"])%list.
      rewrite Hinner, Hcache. simpl. by left.
Qed.

(** X5: under a workspace root that has no part named [build], every
    directory that is discovered is named after its own preset directory, so
    two discovered directories with the same preset name are the same
    directory. *)
Theorem discovered_preset_names (E : Env) (f : gmap path node)
    (workspace_root p q : path) :
  "build" ∉ workspace_root →
  p ∈ discover_build_directories E f workspace_root →
  q ∈ discover_build_directories E f workspace_root →
  (∃ preset, p = (workspace_root ++ ["build"; preset; "build"])%list
             ∧ _extract_preset_name p = preset)
  ∧ (_extract_preset_name p = _extract_preset_name q → p = q).
Proof.
  intros Hroot (preset & -> & _)%discover_build_directories_spec
    (preset' & -> & _)%discover_build_directories_spec.
  rewrite !(extract_preset_name_layout workspace_root _ []) by done.
  split; [eauto|]. by intros ->.
Qed.

Lemma discovered_preset_names_witness :
  ∃ preset,
    Demo.build_dir_of "a_b" = (["ws"] ++ ["build"; preset; "build"])%list
    ∧ _extract_preset_name (Demo.build_dir_of "a_b") = preset.
Proof.
  apply (discovered_preset_names Demo.linux (fs Demo.w_two_presets) ["ws"]
           (Demo.build_dir_of "a_b") (Demo.build_dir_of "a")).
  - intros H. apply elem_of_cons in H as [H|H]; [discriminate H|].
    by apply elem_of_nil in H.
  - apply discover_build_directories_spec. exists "a_b". vm_compute. done.
  - apply discover_build_directories_spec. exists "a". vm_compute. done.
Defined.

(** ** The check for the CMake Tools extension *)

Lemma parent_of_entry (d : path) (n : string) :
  n ≠ "/" → Path.parent (d ++ [n])%list = d.
Proof.
  intros Hn. unfold Path.parent.
  assert (removelast (d ++ [n]) = d) as Hrem by apply removelast_last.
  destruct d as [|a d]; simpl in *.
  - destruct (String.eqb_spec n "/"); [done|].
    destruct n as [|c n]; [done|].
    destruct c as [[] [] [] [] [] [] [] []]; try done; destruct n; done.
  - destruct (d ++ [n])%list eqn:Hd; [by destruct d|].
    destruct a as [|c a]; [exact Hrem|].
    destruct c as [[] [] [] [] [] [] [] []]; try exact Hrem; destruct a; exact Hrem.
Qed.

Lemma touch_new p w :
  fs w !! p = None → FS.is_dir (fs w) (Path.parent p) = true →
  touch p w
  = (Ok tt, {| fs := <[p := File ""]> (fs w);
               trace := (trace w ++ [EvWrite p ""])%list |}).
Proof.
  intros Hnone Hdir. unfold touch, bind, get_fs, emit, set_fs. simpl.
  rewrite Hnone. simpl. by rewrite Hdir.
Qed.

(** X6: with [.vscode] a directory, [is_cmake_tools_installed] returns True;
    afterwards the marker file exists and nothing else has changed, and a
    second call returns True without touching or printing anything. *)
Theorem cmake_tools_validated_once (vscode_dir : path) (w : world) :
  FS.is_dir (fs w) vscode_dir = true →
  ∃ w',
    is_cmake_tools_installed vscode_dir w = (Ok true, w')
    ∧ FS.exists_ (fs w') (vscode_dir // CACHE_FILE) = true
    ∧ (∀ p, p ≠ vscode_dir // CACHE_FILE → fs w' !! p = fs w !! p)
    ∧ is_cmake_tools_installed vscode_dir w' = (Ok true, w').
Proof.
  intros Hdir.
  change (vscode_dir // CACHE_FILE) with (vscode_dir ++ [CACHE_FILE])%list.
  assert (∀ w0, FS.exists_ (fs w0) (vscode_dir ++ [CACHE_FILE])%list = true →
                is_cmake_tools_installed vscode_dir w0 = (Ok true, w0)) as Hagain.
  { intros w0 Hex. unfold is_cmake_tools_installed, bind, get_fs.
    change (vscode_dir // CACHE_FILE) with (vscode_dir ++ [CACHE_FILE])%list.
    by rewrite Hex. }
  destruct (FS.exists_ (fs w) (vscode_dir ++ [CACHE_FILE])%list) eqn:Hex.
  { exists w. rewrite Hagain by done. done. }
  assert (fs w !! (vscode_dir ++ [CACHE_FILE])%list = None) as Hnone.
  { unfold FS.exists_ in Hex. apply bool_decide_eq_false in Hex.
    by apply eq_None_not_Some. }
  assert (FS.exists_ (<[(vscode_dir ++ [CACHE_FILE])%list := File ""]> (fs w))
            (vscode_dir ++ [CACHE_FILE])%list = true) as Hnow.
  { unfold FS.exists_. apply bool_decide_eq_true. rewrite lookup_insert_eq. eauto. }
  assert (touch (vscode_dir ++ [CACHE_FILE])%list w
          = (Ok tt, {| fs := <[(vscode_dir ++ [CACHE_FILE])%list := File ""]> (fs w);
                       trace := (trace w ++ [EvWrite (vscode_dir ++ [CACHE_FILE])%list ""])%list |}))
    as Htouch.
  { apply touch_new; [done|]. by rewrite parent_of_entry. }
  unfold is_cmake_tools_installed at 1.
  change (vscode_dir // CACHE_FILE) with (vscode_dir ++ [CACHE_FILE])%list.
  unfold bind at 1, get_fs. rewrite Hex.
  destruct (first_indicator (fs w) _).
  - unfold bind. rewrite Htouch. eexists. split; [reflexivity|]. simpl.
    split; [exact Hnow|]. split; [intros p Hp; by rewrite lookup_insert_ne|].
    apply Hagain. exact Hnow.
  - unfold bind, FS.print, emit. rewrite Htouch. eexists. split; [reflexivity|].
    simpl. split; [exact Hnow|]. split; [intros p Hp; by rewrite lookup_insert_ne|].
    apply Hagain. exact Hnow.
Qed.

Lemma cmake_tools_validated_once_witness :
  ∃ w',
    is_cmake_tools_installed ["ws"; ".vscode"] Demo.w_fmt = (Ok true, w')
    ∧ FS.exists_ (fs w') (["ws"; ".vscode"] // CACHE_FILE) = true
    ∧ (∀ p, p ≠ ["ws"; ".vscode"] // CACHE_FILE → fs w' !! p = fs Demo.w_fmt !! p)
    ∧ is_cmake_tools_installed ["ws"; ".vscode"] w' = (Ok true, w').
Proof.
  apply (cmake_tools_validated_once ["ws"; ".vscode"] Demo.w_fmt).
  vm_compute. reflexivity.
Defined.

(** ** The exit code *)

Lemma is_cmake_tools_installed_true vscode_dir w r w' :
  is_cmake_tools_installed vscode_dir w = (Ok r, w') → r = true.
Proof.
  unfold is_cmake_tools_installed. intros H.
  apply bind_ok in H as (f & w0 & Hf & H). apply get_fs_ok in Hf as [-> ->].
  destruct (FS.exists_ (fs w) _); [by apply ret_ok in H as [-> _]|].
  destruct (first_indicator (fs w) _).
  - apply bind_ok in H as (u & w1 & _ & H). by apply ret_ok in H as [-> _].
  - apply bind_ok in H as (u & w1 & _ & H).
    apply bind_ok in H as (u1 & w2 & _ & H).
    apply bind_ok in H as (u2 & w3 & _ & H). by apply ret_ok in H as [-> _].
Qed.

(** X7: when [main] gets to its end, the exit code is 0, 1 or 2, and it is 0
    only if [c_cpp_properties.json] under the workspace root now holds a
    document of version 4 with at least one entry. *)
Theorem main_exit_code E cwd args w rc w' :
  main E cwd args w = (Ok rc, w') →
  (rc = 0 ∨ rc = 1 ∨ rc = 2)%nat
  ∧ (rc = 0%nat →
     ∃ doc,
       doc_version doc = 4%nat
       ∧ doc_configurations doc ≠ []
       ∧ fs w' !! ((default cwd (arg_workspace_root args) // ".vscode")
                   // "c_cpp_properties.json")
         = Some (File (json_dump E doc))).
Proof.
  unfold main. intros H.
  apply bind_ok in H as (u & w1 & _ & H).
  apply bind_ok in H as (installed & w2 & Hinst & H).
  apply is_cmake_tools_installed_true in Hinst as ->. simpl in H.
  apply bind_ok in H as (f & w3 & Hf & H). apply get_fs_ok in Hf as [-> ->].
  destruct (match arg_build_dir args with
            | Some build_dir => if FS.exists_ (fs w2) build_dir then [build_dir] else []
            | None => discover_build_directories E (fs w2)
                        (default cwd (arg_workspace_root args))
            end) as [|d ds].
  { apply bind_ok in H as (u1 & w3 & _ & H). apply ret_ok in H as [-> _].
    split; [auto|done]. }
  apply bind_ok in H as (generator & w3 & Hinit & H).
  apply bind_ok in Hinit as (u1 & w4 & _ & Hinit). apply ret_ok in Hinit as [-> ->].
  apply bind_ok in H as (exit_code & w5 & Hgen & H).
  apply bind_ok in H as (u2 & w6 & Hprint & H). apply ret_ok in H as [-> ->].
  apply generate_configuration_inv in Hgen
    as (configs & changed & w7 & _ & [(_ & -> & _)
                                    |[(Hne & _ & -> & doc & msg & Hv & Hc & Hfs & _)
                                     |(_ & _ & -> & _)]]).
  - split; [auto|done].
  - split; [auto|]. intros _. exists doc. split; [done|]. split; [by rewrite Hc|].
    simpl in Hprint. unfold FS.print, emit in Hprint. injection Hprint as _ <-. simpl.
    rewrite Hfs. apply lookup_insert_eq.
  - split; [auto|done].
Qed.

Lemma main_exit_code_witness :
  ∃ w',
    main Demo.linux ["ws"] {| arg_workspace_root := None; arg_build_dir := None |}
      Demo.w_fmt = (Ok 0%nat, w')
    ∧ ∃ doc,
        doc_version doc = 4%nat
        ∧ doc_configurations doc ≠ []
        ∧ fs w' !! ((["ws"] // ".vscode") // "c_cpp_properties.json")
          = Some (File (json_dump Demo.linux doc)).
Proof.
  destruct (main Demo.linux ["ws"]
              {| arg_workspace_root := None; arg_build_dir := None |} Demo.w_fmt)
    as [r w'] eqn:Hrun.
  assert (r = Ok 0%nat) as ->.
  { assert (r = fst (main Demo.linux ["ws"]
                       {| arg_workspace_root := None; arg_build_dir := None |}
                       Demo.w_fmt)) as -> by (rewrite Hrun; reflexivity).
    vm_compute. reflexivity. }
  exists w'. split; [reflexivity|].
  destruct (main_exit_code _ _ _ _ _ _ Hrun) as [_ Hdoc]. exact (Hdoc eq_refl).
Defined.

(** ** Scanning the generators directory *)

Lemma scan_files_ok f data_files :
  ∀ acc pkg,
    scan_files f data_files acc = Ok pkg →
    (∀ p, p ∈ data_files → ∃ content, FS.read f p = Ok content)
    ∧ (∀ d, d ∈ include_dirs pkg
            ↔ d ∈ include_dirs acc
              ∨ ∃ p content, p ∈ data_files ∧ FS.read f p = Ok content
                  ∧ d ∈ fd_include_dirs (ConanDataParser.parse_content content))
    ∧ (∀ d, d ∈ defines pkg
            ↔ d ∈ defines acc
              ∨ ∃ p content, p ∈ data_files ∧ FS.read f p = Ok content
                  ∧ d ∈ fd_defines (ConanDataParser.parse_content content))
    ∧ (∀ d, d ∈ framework_dirs pkg
            ↔ d ∈ framework_dirs acc
              ∨ ∃ p content, p ∈ data_files ∧ FS.read f p = Ok content
                  ∧ d ∈ fd_framework_dirs (ConanDataParser.parse_content content)).
Proof.
  induction data_files as [|file rest IH]; intros acc pkg H; simpl in H.
  { injection H as <-. split; [by intros p ?%elem_of_nil|].
    repeat split; try (intros ?; by left);
      intros [?|(p & c & ?%elem_of_nil & _)]; done. }
  unfold ConanDataParser.parse_data_file in H.
  destruct (FS.read f file) as [content|] eqn:Hread; [|discriminate]. simpl in H.
  apply IH in H as (Hreads & Hinc & Hdef & Hfw). simpl in *.
  split.
  { intros p [->|Hp]%elem_of_cons; [eauto|by apply Hreads]. }
  repeat split.
  - intros Hd. apply Hinc in Hd as [[Hd|Hd%elem_of_list_to_set]%elem_of_union
                                   |(p & c & Hp & Hr & Hd)].
    + by left.
    + right. exists file, content. split; [apply list_elem_of_here|done].
    + right. exists p, c. split; [by apply list_elem_of_further|done].
  - intros [Hd|(p & c & [->|Hp]%elem_of_cons & Hr & Hd)]; apply Hinc.
    + left. apply elem_of_union. by left.
    + left. apply elem_of_union. right. apply elem_of_list_to_set.
      rewrite Hread in Hr. by injection Hr as ->.
    + right. eauto.
  - intros Hd. apply Hdef in Hd as [[Hd|Hd%elem_of_list_to_set]%elem_of_union
                                   |(p & c & Hp & Hr & Hd)].
    + by left.
    + right. exists file, content. split; [apply list_elem_of_here|done].
    + right. exists p, c. split; [by apply list_elem_of_further|done].
  - intros [Hd|(p & c & [->|Hp]%elem_of_cons & Hr & Hd)]; apply Hdef.
    + left. apply elem_of_union. by left.
    + left. apply elem_of_union. right. apply elem_of_list_to_set.
      rewrite Hread in Hr. by injection Hr as ->.
    + right. eauto.
  - intros Hd. apply Hfw in Hd as [[Hd|Hd%elem_of_list_to_set]%elem_of_union
                                  |(p & c & Hp & Hr & Hd)].
    + by left.
    + right. exists file, content. split; [apply list_elem_of_here|done].
    + right. exists p, c. split; [by apply list_elem_of_further|done].
  - intros [Hd|(p & c & [->|Hp]%elem_of_cons & Hr & Hd)]; apply Hfw.
    + left. apply elem_of_union. by left.
    + left. apply elem_of_union. right. apply elem_of_list_to_set.
      rewrite Hread in Hr. by injection Hr as ->.
    + right. eauto.
Qed.

Lemma scan_files_total f data_files :
  (∀ p, p ∈ data_files → ∃ content, FS.read f p = Ok content) →
  ∀ acc, ∃ pkg, scan_files f data_files acc = Ok pkg.
Proof.
  induction data_files as [|file rest IH]; intros Hreads acc; simpl; [eauto|].
  destruct (Hreads file) as [content Hread]; [apply list_elem_of_here|].
  unfold ConanDataParser.parse_data_file. rewrite Hread. simpl.
  apply IH. intros p Hp. by apply Hreads, list_elem_of_further.
Qed.

(** X8: when the scan of a generators directory returns, an include
    directory, a define or a framework directory is in its result exactly
    when one of the data files that match the build type declares it; and on
    a machine that lists the directory in another order the scan returns the
    same result. *)
Theorem scan_generators_directory_union E f generators_dir build_type pkg :
  scan_generators_directory E f generators_dir build_type = Ok pkg →
  let matching :=
    glob E f generators_dir ("*-" ++ PyStr.lower build_type ++ "-*-data.cmake") in
  (∀ d, d ∈ include_dirs pkg
        ↔ ∃ p content, p ∈ matching ∧ FS.read f p = Ok content
            ∧ d ∈ fd_include_dirs (ConanDataParser.parse_content content))
  ∧ (∀ d, d ∈ defines pkg
          ↔ ∃ p content, p ∈ matching ∧ FS.read f p = Ok content
              ∧ d ∈ fd_defines (ConanDataParser.parse_content content))
  ∧ (∀ d, d ∈ framework_dirs pkg
          ↔ ∃ p content, p ∈ matching ∧ FS.read f p = Ok content
              ∧ d ∈ fd_framework_dirs (ConanDataParser.parse_content content))
  ∧ ∀ E', scan_generators_directory E' f generators_dir build_type = Ok pkg.
Proof.
  intros H matching. unfold scan_generators_directory in H. fold matching in H.
  pose proof (scan_files_ok _ _ _ _ H) as (Hreads & Hinc & Hdef & Hfw).
  simpl in Hinc, Hdef, Hfw.
  assert (∀ (P : Prop), (False ∨ P) ↔ P) as Hor by (intros P; tauto).
  assert (∀ d : string, d ∈ (∅ : gset string) ↔ False) as Hempty
    by (intros d; split; [apply not_elem_of_empty|done]).
  split; [intros d; by rewrite Hinc, Hempty, Hor|].
  split; [intros d; by rewrite Hdef, Hempty, Hor|].
  split; [intros d; by rewrite Hfw, Hempty, Hor|].
  intros E'. unfold scan_generators_directory.
  set (matching' :=
         glob E' f generators_dir ("*-" ++ PyStr.lower build_type ++ "-*-data.cmake")).
  assert (matching' ≡ₚ matching) as Hperm by apply glob_parts_perm.
  destruct (scan_files_total f matching') with
    (acc := {| include_dirs := ∅; defines := ∅; framework_dirs := ∅ |})
    as [pkg' H'].
  { intros p Hp. apply Hreads. by rewrite <- Hperm. }
  rewrite H'. f_equal.
  pose proof (scan_files_ok _ _ _ _ H') as (_ & Hinc' & Hdef' & Hfw').
  simpl in Hinc', Hdef', Hfw'.
  destruct pkg as [i1 d1 f1], pkg' as [i2 d2 f2]. simpl in *.
  f_equal; apply set_eq; intros d.
  - rewrite Hinc, Hinc'. by setoid_rewrite Hperm.
  - rewrite Hdef, Hdef'. by setoid_rewrite Hperm.
  - rewrite Hfw, Hfw'. by setoid_rewrite Hperm.
Qed.

Lemma scan_generators_directory_union_witness :
  ∃ pkg,
    scan_generators_directory Demo.linux (fs Demo.w_two_files)
      (Demo.build_dir_of "a" // "generators") "Debug" = Ok pkg
    ∧ scan_generators_directory Demo.linux_rev (fs Demo.w_two_files)
        (Demo.build_dir_of "a" // "generators") "Debug" = Ok pkg.
Proof.
  destruct (scan_generators_directory Demo.linux (fs Demo.w_two_files)
              (Demo.build_dir_of "a" // "generators") "Debug") as [pkg|e] eqn:Hscan.
  - exists pkg. split; [reflexivity|].
    destruct (scan_generators_directory_union _ _ _ _ _ Hscan) as (_ & _ & _ & Hany).
    apply Hany.
  - exfalso.
    assert (match scan_generators_directory Demo.linux (fs Demo.w_two_files)
                    (Demo.build_dir_of "a" // "generators") "Debug" with
            | Ok _ => true | Raise _ => false end = true) as Hok
      by (vm_compute; reflexivity).
    rewrite Hscan in Hok. discriminate Hok.
Defined.

(** ** More on the fields of an entry *)

(** X9: the include path of every synthesized entry starts with the three
    workspace folders, followed by the include directories of the package
    data in sorted order, each once. *)
Theorem include_path_layout E self build_dir preset_name build_type cache_data
    w c changed w' :
  _create_configuration E self build_dir preset_name build_type cache_data w
    = (Ok (Some c, changed), w') →
  ∃ pkg rest,
    scan_generators_directory E (fs w) (build_dir // "generators") build_type = Ok pkg
    ∧ cfg_includePath c
      = "${workspaceFolder}/**" :: "${workspaceFolder}/include"
          :: "${workspaceFolder}/src" :: rest
    ∧ Sorted String.le rest
    ∧ NoDup rest
    ∧ ∀ d, d ∈ rest ↔ d ∈ include_dirs pkg.
Proof.
  intros H. apply create_configuration_inv in H
    as [(_ & [=] & _)|(_ & h & pkg & ch & _ & _ & Hscan & [= -> ->] & _)].
  exists pkg, (sorted_strings (elements (include_dirs pkg))).
  split; [done|]. split; [reflexivity|].
  split; [apply sorted_strings_sorted|].
  split.
  - rewrite sorted_strings_perm. apply NoDup_elements.
  - intros d. rewrite sorted_strings_perm. apply elem_of_elements.
Qed.

Lemma include_path_layout_witness :
  ∃ pkg rest,
    scan_generators_directory Demo.linux (fs Demo.w_two_files)
      (Demo.build_dir_of "a" // "generators") "Debug" = Ok pkg
    ∧ ["${workspaceFolder}/**"; "${workspaceFolder}/include"; "${workspaceFolder}/src";
       "/conan/p/fmt/include"; "/pkg/zlib/include"]
      = "${workspaceFolder}/**" :: "${workspaceFolder}/include"
          :: "${workspaceFolder}/src" :: rest
    ∧ Sorted String.le rest
    ∧ NoDup rest
    ∧ ∀ d, d ∈ rest ↔ d ∈ include_dirs pkg.
Proof.
  eapply (include_path_layout Demo.linux Demo.self (Demo.build_dir_of "a") "a" "Debug" ∅
            Demo.w_two_files (Config _ _ _ _ _ _ _ _ _)).
  vm_compute. reflexivity.
Defined.

(** X10: an entry has a framework path only on macOS and only when the
    package data has framework directories; it then lists them in sorted
    order, each once, and is not empty. *)
Theorem framework_path_only_on_macos E self build_dir preset_name build_type
    cache_data w c changed w' :
  _create_configuration E self build_dir preset_name build_type cache_data w
    = (Ok (Some c, changed), w') →
  ∃ pkg,
    scan_generators_directory E (fs w) (build_dir // "generators") build_type = Ok pkg
    ∧ match cfg_macFrameworkPath c with
      | Some dirs =>
          platform_system E = "Darwin"
          ∧ dirs ≠ []
          ∧ Sorted String.le dirs
          ∧ NoDup dirs
          ∧ ∀ d, d ∈ dirs ↔ d ∈ framework_dirs pkg
      | None => platform_system E ≠ "Darwin" ∨ framework_dirs pkg = ∅
      end.
Proof.
  intros H. apply create_configuration_inv in H
    as [(_ & [=] & _)|(_ & h & pkg & ch & _ & _ & Hscan & [= -> ->] & _)].
  exists pkg. split; [done|]. unfold config_of. simpl.
  destruct (String.eqb_spec (platform_system E) "Darwin") as [Hmac|Hother]; simpl.
  2:{ by left. }
  case_bool_decide as Hfw; simpl; [by right|].
  split; [done|].
  assert (∀ d, d ∈ sorted_strings (elements (framework_dirs pkg))
               ↔ d ∈ framework_dirs pkg) as Hmem.
  { intros d. rewrite sorted_strings_perm. apply elem_of_elements. }
  split.
  { intros Hnil. apply Hfw, set_eq. intros d. rewrite <- Hmem, Hnil.
    split; [by intros ?%elem_of_nil|by intros ?%not_elem_of_empty]. }
  split; [apply sorted_strings_sorted|].
  split; [|done]. rewrite sorted_strings_perm. apply NoDup_elements.
Qed.

Lemma framework_path_only_on_macos_witness :
  ∃ pkg,
    scan_generators_directory Demo.linux (fs Demo.w_fmt)
      (Demo.build_dir_of "a" // "generators") "Debug" = Ok pkg
    ∧ (platform_system Demo.linux ≠ "Darwin" ∨ framework_dirs pkg = ∅).
Proof.
  destruct (_create_configuration Demo.linux Demo.self (Demo.build_dir_of "a") "a"
              "Debug" ∅ Demo.w_fmt) as [r w'] eqn:Hrun.
  assert (∃ c, r = Ok (Some c, true)) as [c ->].
  { assert (r = fst (_create_configuration Demo.linux Demo.self
                       (Demo.build_dir_of "a") "a" "Debug" ∅ Demo.w_fmt)) as ->
      by (rewrite Hrun; reflexivity).
    eexists. vm_compute. reflexivity. }
  destruct (framework_path_only_on_macos _ _ _ _ _ _ _ _ _ _ Hrun)
    as (pkg & Hscan & Hcase).
  exists pkg. split; [exact Hscan|].
  destruct (cfg_macFrameworkPath c) as [dirs|]; [|exact Hcase].
  left. discriminate.
Defined.

(** X11: on Linux the compiler path of an entry is empty exactly when the
    cache gives no compiler, or an empty one, and neither gcc nor clang is
    found on the search path. *)
Theorem compiler_path_empty_on_linux E self build_dir preset_name build_type
    cache_data w c changed w' :
  platform_system E = "Linux" →
  _create_configuration E self build_dir preset_name build_type cache_data w
    = (Ok (Some c, changed), w') →
  cfg_compilerPath c = ""
  ↔ (cache_data !! "CMAKE_CXX_COMPILER" = None
     ∨ cache_data !! "CMAKE_CXX_COMPILER" = Some "")
    ∧ opt_truthy (which E "gcc") = false
    ∧ opt_truthy (which E "clang") = false.
Proof.
  intros Hlinux H. apply create_configuration_inv in H
    as [(_ & [=] & _)|(_ & h & pkg & ch & _ & _ & _ & [= -> ->] & _)].
  unfold config_of. simpl. unfold detect_compiler, _detect_linux_compiler.
  rewrite Hlinux. simpl.
  destruct (cache_data !! "CMAKE_CXX_COMPILER") as [[|x v]|] eqn:Hcache; simpl.
  - destruct (which E "gcc") as [[|g gs]|]; simpl;
      destruct (which E "clang") as [[|k ks]|]; simpl; intuition congruence.
  - split; [discriminate|]. intros [[?|?] _]; congruence.
  - destruct (which E "gcc") as [[|g gs]|]; simpl;
      destruct (which E "clang") as [[|k ks]|]; simpl; intuition congruence.
Qed.

Lemma compiler_path_empty_on_linux_witness :
  "/usr/bin/gcc" = ""
  ↔ ((∅ : gmap string string) !! "CMAKE_CXX_COMPILER" = None
     ∨ (∅ : gmap string string) !! "CMAKE_CXX_COMPILER" = Some "")
    ∧ opt_truthy (which Demo.linux "gcc") = false
    ∧ opt_truthy (which Demo.linux "clang") = false.
Proof.
  eapply (compiler_path_empty_on_linux Demo.linux Demo.self (Demo.build_dir_of "a")
            "a" "Debug" ∅ Demo.w_fmt (Config _ _ _ _ _ _ _ _ _)).
  - reflexivity.
  - vm_compute. reflexivity.
Defined.

(** ** A second run on what the first one left *)

Lemma string_app_inv_head (a b c : string) : a ++ b = a ++ c → b = c.
Proof.
  induction a as [|x a IH]; [done|].
  change (String x (a ++ b) = String x (a ++ c) → b = c). intros [= H]. auto.
Qed.

Lemma drop_app_length (a b : string) : PyStr.drop (String.length a) (a ++ b) = b.
Proof. induction a as [|x a IH]; [by destruct b|exact IH]. Qed.

Lemma hash_directory_digest E f directory build_type h :
  _hash_directory E f directory build_type = Ok h →
  ∃ x, h = sha256_hexdigest E x.
Proof.
  unfold _hash_directory. destruct (map_result _ _) as [chunks|e]; simpl; [|done].
  intros [= <-]. eauto.
Qed.

Lemma has_changes_of_false f hash_file h :
  has_changes_of f hash_file h = Ok false ↔
  ∃ c, f !! hash_file = Some (File c) ∧ PyStr.strip c = h.
Proof.
  unfold has_changes_of, FS.exists_, FS.read. split.
  - case_bool_decide as Hs; [|done].
    destruct (f !! hash_file) as [[c|]|]; simpl; try done.
    intros [= Heq]. exists c. split; [done|].
    apply negb_false_iff in Heq. by apply String.eqb_eq in Heq.
  - intros (c & Hc & <-). rewrite Hc. rewrite bool_decide_eq_true_2 by eauto.
    simpl. by rewrite String.eqb_refl.
Qed.

(** The cleanup loop leaves alone the records of the valid build types. *)
Lemma cleanup_loop_keeps hash_prefix valid_build_types hash_files :
  ∀ w w',
    cleanup_loop hash_prefix valid_build_types hash_files w = (Ok tt, w') →
    ∀ p, PyStr.drop (String.length hash_prefix) (Path.name p) ∈ valid_build_types →
         fs w' !! p = fs w !! p.
Proof.
  induction hash_files as [|hash_file rest IH]; intros w w' H p Hp; simpl in H.
  { by apply ret_ok in H as [_ ->]. }
  destruct (cleanup_one_cases hash_prefix valid_build_types hash_file w)
    as (w1 & evs1 & Hstep & _ & _ & Hkeep & Hdrop).
  unfold bind in H. rewrite Hstep in H. rewrite (IH _ _ H p Hp).
  destruct (decide (PyStr.drop (String.length hash_prefix) (Path.name hash_file)
                    ∈ valid_build_types)) as [Hv|Hv]; [by rewrite (Hkeep Hv)|].
  specialize (Hdrop Hv).
  assert (hash_file ≠ p) as Hne by (intros ->; done).
  destruct (fs w !! hash_file) as [[c|]|].
  - destruct Hdrop as [-> _]. by rewrite lookup_delete_ne.
  - by destruct Hdrop as [-> _].
  - by destruct Hdrop as [-> _].
Qed.

(** Where no file is left to remove, the cleanup loop changes no file. *)
Lemma cleanup_loop_settled hash_prefix valid_build_types hash_files :
  ∀ w,
    (∀ p c, p ∈ hash_files →
            PyStr.drop (String.length hash_prefix) (Path.name p) ∉ valid_build_types →
            fs w !! p ≠ Some (File c)) →
    ∃ w' evs,
      cleanup_loop hash_prefix valid_build_types hash_files w = (Ok tt, w')
      ∧ fs w' = fs w
      ∧ trace w' = (trace w ++ evs)%list
      ∧ existsb is_write evs = false.
Proof.
  induction hash_files as [|hash_file rest IH]; intros w Hno; simpl.
  { exists w, []. by rewrite app_nil_r. }
  destruct (cleanup_one_cases hash_prefix valid_build_types hash_file w)
    as (w1 & evs1 & Hstep & Ht1 & Hn1 & Hkeep & Hdrop).
  assert (fs w1 = fs w) as Hfs.
  { destruct (decide (PyStr.drop (String.length hash_prefix) (Path.name hash_file)
                      ∈ valid_build_types)) as [Hv|Hv]; [by rewrite (Hkeep Hv)|].
    specialize (Hdrop Hv).
    pose proof (fun c => Hno hash_file c (list_elem_of_here _ _) Hv) as Hnf.
    destruct (fs w !! hash_file) as [[c|]|].
    - by destruct (Hnf c).
    - by destruct Hdrop as [-> _].
    - by destruct Hdrop as [-> _]. }
  destruct (IH w1) as (w' & evs & Hrest & Hf & Ht & Hn).
  { intros p c Hp Hv. rewrite Hfs. apply Hno; [by apply list_elem_of_further|done]. }
  exists w', (evs1 ++ evs)%list. unfold bind at 1. rewrite Hstep.
  split; [done|]. split; [by rewrite Hf|].
  split; [by rewrite Ht, Ht1, app_assoc|]. by rewrite existsb_app, Hn1, Hn.
Qed.
Section Settled.
Context (E : Env) (self : generator) (rest : path) (build_dir : path)
        (preset_name : string) (f0 : gmap path node).
Hypothesis Hvscode : vscode_dir self = workspace_root self // ".vscode".
Hypothesis Hbuild : build_dir = (workspace_root self ++ "build" :: rest)%list.
Hypothesis Hpreset : plain_name preset_name = true.
Hypothesis Hdigest :
  ∀ x, PyStr.strip (sha256_hexdigest E x) = sha256_hexdigest E x.

Lemma vscode_parts : vscode_dir self = (workspace_root self ++ [".vscode"])%list.
Proof. by rewrite Hvscode. Qed.

Lemma not_under_build x : ¬ under (vscode_dir self) (build_dir ++ x)%list.
Proof.
  rewrite vscode_parts, Hbuild. intros (r & _ & H).
  rewrite <- !app_assoc in H. apply app_inv_head in H. discriminate H.
Qed.

Lemma vscode_not_under : ¬ under (vscode_dir self) (vscode_dir self).
Proof.
  intros (r & Hr & H). rewrite <- (app_nil_r (vscode_dir self)) in H at 1.
  apply app_inv_head in H. by subst r.
Qed.

(** The data files are read alike in every world that agrees with [f0]
    outside the settings directory. *)
Lemma metadata_agree w build_type :
  agrees_outside self f0 w →
  plain_name build_type = true →
  FS.exists_ (fs w) (build_dir // "generators") = FS.exists_ f0 (build_dir // "generators")
  ∧ scan_generators_directory E (fs w) (build_dir // "generators") build_type
    = scan_generators_directory E f0 (build_dir // "generators") build_type
  ∧ _hash_directory E (fs w) (build_dir // "generators") build_type
    = _hash_directory E f0 (build_dir // "generators") build_type.
Proof.
  intros Hagree Htype. rewrite generators_parts.
  pose proof (Hagree _ (not_under_build ["generators"])) as Hd.
  assert (∀ n, fs w !! ((build_dir ++ ["generators"]) ++ [n])%list
               = f0 !! ((build_dir ++ ["generators"]) ++ [n])%list) as Hn.
  { intros n. rewrite <- app_assoc. apply Hagree, not_under_build. }
  destruct (glob_single_ext E (fs w) f0 _ _ (pattern_one_part build_type Htype) Hd Hn)
    as [Hglob Hread].
  split; [unfold FS.exists_; by rewrite Hd|].
  split.
  - unfold scan_generators_directory. rewrite <- Hglob. by apply scan_files_ext.
  - unfold _hash_directory. rewrite <- Hglob.
    rewrite (map_result_ext (FS.read (fs w)) (FS.read f0)); [done|].
    intros p Hp. apply Hread. unfold sorted_paths in Hp.
    by rewrite merge_sort_Permutation in Hp.
Qed.

Lemma hash_file_inj build_type build_type' :
  plain_name build_type = true → plain_name build_type' = true →
  hash_file_of self preset_name build_type = hash_file_of self preset_name build_type' →
  build_type = build_type'.
Proof.
  intros H1 H2. rewrite !hash_file_parts by done.
  intros [_ H]%app_inj_tail.
  apply (string_app_inv_head ".conan_hash_") in H.
  apply string_app_inv_head in H. by apply (string_app_inv_head "_") in H.
Qed.

Lemma hash_file_suffix build_type :
  plain_name build_type = true →
  PyStr.drop (String.length (".conan_hash_" ++ preset_name ++ "_"))
    (Path.name (hash_file_of self preset_name build_type)) = build_type.
Proof.
  intros Htype. rewrite hash_file_parts by done.
  unfold Path.name. rewrite last_snoc.
  change (String.eqb (".conan_hash_" ++ preset_name ++ "_" ++ build_type) "/")
    with false. cbv iota.
  rewrite <- (drop_app_length (".conan_hash_" ++ preset_name ++ "_") build_type) at 2.
  by rewrite !string_app_assoc.
Qed.

(** A call of the first run keeps the worlds in agreement with [f0], keeps
    the records that are settled, and settles the record of its own build
    type. *)
Lemma create_configuration_settles cache_data build_type wa cfg ch wb :
  agrees_outside self f0 wa →
  plain_name build_type = true →
  _create_configuration E self build_dir preset_name build_type cache_data wa
    = (Ok (cfg, ch), wb) →
  agrees_outside self f0 wb
  ∧ (∀ bt, plain_name bt = true →
           record_settled E self build_dir preset_name f0 bt wa →
           record_settled E self build_dir preset_name f0 bt wb)
  ∧ (FS.exists_ f0 (build_dir // "generators") = false ∧ cfg = None
     ∨ FS.exists_ f0 (build_dir // "generators") = true
       ∧ record_settled E self build_dir preset_name f0 build_type wb
       ∧ ∃ pkg,
           scan_generators_directory E f0 (build_dir // "generators") build_type = Ok pkg
           ∧ cfg = Some (config_of E preset_name build_type cache_data pkg)).
Proof.
  intros Hagree Htype Hrun.
  destruct (metadata_agree wa build_type Hagree Htype) as (Hex & Hscan & Hhash).
  split.
  { apply create_configuration_confined in Hrun as (_ & _ & _ & _ & Hf).
    intros p Hp. rewrite Hf by done. by apply Hagree. }
  apply create_configuration_inv in Hrun
    as [(Hno & [= -> ->] & ->)|(Hyes & h & pkg & changed & Hh & Hch & Hpkg & [= -> ->] & Hw)].
  { split; [done|]. left. by rewrite <- Hex. }
  rewrite Hex in Hyes. rewrite Hscan in Hpkg. rewrite Hhash in Hh.
  destruct changed.
  - destruct Hw as [Hfs _]. split.
    + intros bt Hbt (h' & pkg' & c & Hh' & Hpkg' & Hc & Hs).
      exists h', pkg'.
      destruct (decide (hash_file_of self preset_name bt
                        = hash_file_of self preset_name build_type)) as [Heq|Hne].
      * apply hash_file_inj in Heq as ->; [|done..].
        exists h. rewrite Hfs, lookup_insert_eq. repeat split; try done.
        assert (h' = h) as -> by congruence.
        apply hash_directory_digest in Hh as (x & ->). apply Hdigest.
      * exists c. rewrite Hfs, lookup_insert_ne by done. done.
    + right. split; [done|]. split; [|eauto].
      exists h, pkg, h. rewrite Hfs, lookup_insert_eq. repeat split; try done.
      apply hash_directory_digest in Hh as (x & ->). apply Hdigest.
  - subst wb. split; [done|]. right. split; [done|]. split; [|eauto].
    apply has_changes_of_false in Hch as (c & Hc & Hs).
    by exists h, pkg, c.
Qed.

(** A call on a world whose record is settled returns the same entry and
    changes nothing. *)
Lemma create_configuration_settled cache_data build_type w pkg :
  agrees_outside self f0 w →
  plain_name build_type = true →
  FS.exists_ f0 (build_dir // "generators") = true →
  record_settled E self build_dir preset_name f0 build_type w →
  scan_generators_directory E f0 (build_dir // "generators") build_type = Ok pkg →
  _create_configuration E self build_dir preset_name build_type cache_data w
  = (Ok (Some (config_of E preset_name build_type cache_data pkg), false), w).
Proof.
  intros Hagree Htype Hyes (h & pkg' & c & Hh & Hpkg' & Hc & Hs) Hpkg.
  destruct (metadata_agree w build_type Hagree Htype) as (Hex & Hscan & Hhash).
  unfold _create_configuration, bind at 1, get_fs.
  rewrite Hex, Hyes. cbv iota beta. simpl negb. cbv iota.
  unfold bind at 1, lift. rewrite Hhash, Hh.
  unfold bind at 1. unfold FS.exists_ at 1. rewrite Hc.
  rewrite bool_decide_eq_true_2 by eauto.
  unfold bind at 1, lift, FS.read. rewrite Hc. unfold ret at 1.
  rewrite Hs, String.eqb_refl. simpl negb.
  unfold bind at 1, lift. rewrite Hscan, Hpkg.
  unfold config_of. destruct (detect_compiler E) as [detected mode]. reflexivity.
Qed.

Lemma create_configuration_skipped cache_data build_type w :
  agrees_outside self f0 w →
  plain_name build_type = true →
  FS.exists_ f0 (build_dir // "generators") = false →
  _create_configuration E self build_dir preset_name build_type cache_data w
  = (Ok (None, false), w).
Proof.
  intros Hagree Htype Hno.
  destruct (metadata_agree w build_type Hagree Htype) as (Hex & _ & _).
  unfold _create_configuration, bind at 1, get_fs. by rewrite Hex, Hno.
Qed.

(** The loop over the configuration types: what the first run leaves, and
    what a later run on a settled world returns. *)
Lemma create_each_settles cache_data config_types :
  Forall (fun bt => plain_name bt = true) config_types →
  ∀ acc b wa configs ch wb,
    agrees_outside self f0 wa →
    create_each E self build_dir preset_name cache_data config_types acc b wa
      = (Ok (configs, ch), wb) →
    agrees_outside self f0 wb
    ∧ (∀ bt, plain_name bt = true →
             record_settled E self build_dir preset_name f0 bt wa →
             record_settled E self build_dir preset_name f0 bt wb)
    ∧ (FS.exists_ f0 (build_dir // "generators") = true →
       ∀ bt, bt ∈ config_types → PyStr.truthy bt = true →
             record_settled E self build_dir preset_name f0 bt wb)
    ∧ ∃ new,
        configs = (acc ++ new)%list
        ∧ ∀ w acc' b',
            agrees_outside self f0 w →
            (FS.exists_ f0 (build_dir // "generators") = true →
             ∀ bt, bt ∈ config_types → PyStr.truthy bt = true →
                   record_settled E self build_dir preset_name f0 bt w) →
            create_each E self build_dir preset_name cache_data config_types acc' b' w
            = (Ok ((acc' ++ new)%list, b'), w).
Proof.
  induction 1 as [|build_type types Htype Htypes IH];
    intros acc b wa configs ch wb Hagree Hrun; simpl in Hrun.
  { apply ret_ok in Hrun as [[= -> ->] ->]. split; [done|]. split; [done|].
    split; [by intros _ bt ?%elem_of_nil|].
    exists []. rewrite app_nil_r. split; [done|].
    intros w acc' b' _ _. simpl. by rewrite app_nil_r. }
  destruct (PyStr.truthy build_type) eqn:Htruthy.
  2:{ apply IH in Hrun as (Hag & Hkeep & Hset & new & Hnew & Hnext); [|done].
      split; [done|]. split; [done|]. split.
      - intros Hyes bt [->|Hbt]%elem_of_cons Ht; [congruence|by apply Hset].
      - exists new. split; [done|]. intros w acc' b' Hw Hsw. simpl.
        rewrite Htruthy. apply Hnext; [done|].
        intros Hyes bt Hbt Ht. apply Hsw; [done| |done]. by apply list_elem_of_further. }
  apply bind_ok in Hrun as ([cfg changed] & w1 & Hcreate & Hrun).
  apply create_configuration_settles in Hcreate as (Hag1 & Hkeep1 & Hcase); [|done..].
  destruct Hcase as [[Hno ->]|(Hyes & Hset1 & pkg & Hpkg & ->)].
  - apply IH in Hrun as (Hag & Hkeep & Hset & new & Hnew & Hnext); [|done].
    split; [done|]. split; [auto|]. split; [intros Hyes; congruence|].
    exists new. split; [done|]. intros w acc' b' Hw Hsw. simpl. rewrite Htruthy.
    unfold bind at 1. rewrite create_configuration_skipped by done.
    apply Hnext; [done|]. intros Hyes. congruence.
  - apply IH in Hrun as (Hag & Hkeep & Hset & new & Hnew & Hnext); [|done].
    split; [done|]. split; [auto|]. split.
    { intros _ bt [->|Hbt]%elem_of_cons Ht; [by apply Hkeep|by apply Hset]. }
    exists (config_of E preset_name build_type cache_data pkg :: new).
    split. { rewrite Hnew, <- app_assoc. done. }
    intros w acc' b' Hw Hsw. simpl. rewrite Htruthy. unfold bind at 1.
    rewrite (create_configuration_settled cache_data build_type w pkg); try done.
    2:{ apply Hsw; [done|apply list_elem_of_here|done]. }
    rewrite orb_false_r.
    rewrite Hnext; [by rewrite <- app_assoc|done|].
    intros _ bt Hbt Ht. apply Hsw; [done| |done]. by apply list_elem_of_further.
Qed.

(** What the cleanup selects lies in the settings directory and matches the
    pattern of the preset. *)
Lemma cleanup_glob_names (f : gmap path node) p :
  p ∈ glob E f (vscode_dir self) ((".conan_hash_" ++ preset_name ++ "_") ++ "*")
  ↔ FS.is_dir f (vscode_dir self) = true
    ∧ ∃ n, p = (vscode_dir self ++ [n])%list
           ∧ Fnmatch.fnmatch n ((".conan_hash_" ++ preset_name ++ "_") ++ "*") = true
           ∧ is_Some (f !! p).
Proof.
  rewrite glob_single.
  2:{ apply of_string_plain; [|done..]. by rewrite !plain_name_app, Hpreset. }
  destruct (FS.is_dir f (vscode_dir self)).
  - rewrite list_elem_of_fmap. split.
    + intros (n & -> & [Hm Hn]%list_elem_of_filter). split; [done|].
      exists n. split; [done|]. split; [by apply Is_true_true|].
      by apply elem_of_scandir in Hn.
    + intros (_ & n & -> & Hm & Hn). exists n. split; [done|].
      apply list_elem_of_filter. split; [by apply Is_true_true|].
      by apply elem_of_scandir.
  - split; [by intros ?%elem_of_nil|by intros [? _]].
Qed.

(** An entry that matches the pattern of the preset is named as its last
    part. *)
Lemma name_of_match n :
  Fnmatch.fnmatch n ((".conan_hash_" ++ preset_name ++ "_") ++ "*") = true →
  Path.name (vscode_dir self ++ [n])%list = n.
Proof.
  intros Hm. unfold Path.name. rewrite last_snoc.
  destruct (String.eqb n "/") eqn:Hn; [|done].
  apply String.eqb_eq in Hn as ->.
  change ((".conan_hash_" ++ preset_name ++ "_") ++ "*")
    with (String "." (("conan_hash_" ++ preset_name ++ "_") ++ "*")) in Hm.
  by rewrite fnmatch_dot in Hm.
Qed.

(** The cleanup of the first run leaves no file to remove, and keeps the
    records of the valid build types. *)
Lemma cleanup_settles valid_build_types wc wd :
  FS.is_dir (fs wc) (vscode_dir self) = true →
  _cleanup_orphaned_hashes E self preset_name valid_build_types wc = (Ok tt, wd) →
  no_file_orphans self preset_name valid_build_types wd
  ∧ ∀ bt, plain_name bt = true → bt ∈ valid_build_types →
          record_settled E self build_dir preset_name f0 bt wc →
          record_settled E self build_dir preset_name f0 bt wd.
Proof.
  intros Hdir Hrun. unfold _cleanup_orphaned_hashes, bind, get_fs in Hrun.
  split.
  - apply cleanup_loop_removes in Hrun as (evs & _ & Hnone & Hkeepdir & Hrem).
    intros n c Hm Horphan Hfile.
    destruct (fs wc !! (vscode_dir self ++ [n])%list) as [[c'|]|] eqn:Hlook.
    + destruct (Hrem (vscode_dir self ++ [n])%list) as [Hgone _].
      * apply cleanup_glob_names. split; [done|]. exists n.
        rewrite Hlook. eauto.
      * by rewrite name_of_match.
      * assert (fs wc !! (vscode_dir self ++ [n])%list ≠ Some Dir) as Hnd
          by (by rewrite Hlook).
        apply Hgone in Hnd.
        pose proof (eq_trans (eq_sym Hfile) Hnd) as Heq. discriminate Heq.
    + apply Hkeepdir in Hlook.
      pose proof (eq_trans (eq_sym Hfile) Hlook) as Heq. discriminate Heq.
    + apply Hnone in Hlook.
      pose proof (eq_trans (eq_sym Hfile) Hlook) as Heq. discriminate Heq.
  - intros bt Hbt Hvalid (h & pkg & c & Hh & Hpkg & Hc & Hs).
    exists h, pkg, c. repeat split; try done.
    rewrite (cleanup_loop_keeps _ _ _ _ _ Hrun); [done|].
    by rewrite hash_file_suffix.
Qed.

(** On a world with no file to remove, the cleanup changes no file. *)
Lemma cleanup_settled valid_build_types w :
  no_file_orphans self preset_name valid_build_types w →
  ∃ w' evs,
    _cleanup_orphaned_hashes E self preset_name valid_build_types w = (Ok tt, w')
    ∧ fs w' = fs w
    ∧ trace w' = (trace w ++ evs)%list
    ∧ existsb is_write evs = false.
Proof.
  intros Hno. unfold _cleanup_orphaned_hashes, bind at 1, get_fs.
  apply cleanup_loop_settled.
  intros p c (_ & n & -> & Hm & _)%cleanup_glob_names Horphan.
  apply Hno; [done|]. by rewrite name_of_match in Horphan.
Qed.

Lemma read_cache_ext (f1 f2 : gmap path node) (p : path) :
  f1 !! p = f2 !! p →
  FS.exists_ f1 p = FS.exists_ f2 p
  ∧ CMakeCacheReader.read_cache f1 p = CMakeCacheReader.read_cache f2 p.
Proof.
  intros H. unfold CMakeCacheReader.read_cache, FS.exists_, FS.read. by rewrite H.
Qed.

(** A build directory processed again, on a world that has the records and
    the entries under the pattern of the preset as the first pass left
    them: the same entries, no change reported, no file changed and nothing
    written. *)
Lemma process_build_directory_again w configs ch wd :
  agrees_outside self f0 w →
  preset_name = _extract_preset_name build_dir →
  FS.is_dir f0 (vscode_dir self) = true →
  Forall (fun bt => plain_name bt = true) (cache_build_types f0 build_dir) →
  _process_build_directory E self build_dir w = (Ok (configs, ch), wd) →
  ∀ w1,
    agrees_outside self f0 w1 →
    (∀ bt, plain_name bt = true →
           fs w1 !! hash_file_of self preset_name bt
           = fs wd !! hash_file_of self preset_name bt) →
    (∀ n, Fnmatch.fnmatch n ((".conan_hash_" ++ preset_name ++ "_") ++ "*") = true →
          fs w1 !! (vscode_dir self ++ [n])%list
          = fs wd !! (vscode_dir self ++ [n])%list) →
    ∃ w2 evs,
      _process_build_directory E self build_dir w1 = (Ok (configs, false), w2)
      ∧ fs w2 = fs w1
      ∧ trace w2 = (trace w1 ++ evs)%list
      ∧ existsb is_write evs = false.
Proof.
  intros Hag0 Hname Hdir Htypes Hrun w1 Hag1 Hrec Hpat.
  assert (¬ under (vscode_dir self) (build_dir // "CMakeCache.txt")) as Hnu.
  { change (build_dir // "CMakeCache.txt") with (build_dir ++ ["CMakeCache.txt"])%list.
    apply not_under_build. }
  assert (fs w1 !! (build_dir // "CMakeCache.txt")
          = fs w !! (build_dir // "CMakeCache.txt")) as Hcf
    by (by rewrite (Hag1 _ Hnu), (Hag0 _ Hnu)).
  assert (∀ bt, plain_name bt = true →
                record_settled E self build_dir preset_name f0 bt wd →
                record_settled E self build_dir preset_name f0 bt w1) as Hmove.
  { intros bt Hbt (h & pkg & c & Hh & Hpkg & Hc & Hs). exists h, pkg, c.
    repeat split; try done. by rewrite Hrec. }
  assert (∀ valid, no_file_orphans self preset_name valid wd →
                   no_file_orphans self preset_name valid w1) as Hmove_no.
  { intros valid Hno n c Hm Ho Hfile. apply (Hno n c Hm Ho).
    rewrite <- Hfile. symmetry. by apply Hpat. }
  assert (∀ wc, agrees_outside self f0 wc →
                FS.is_dir (fs wc) (vscode_dir self) = true) as Hdirs.
  { intros wc Hagc. unfold FS.is_dir in *.
    by rewrite (Hagc _ vscode_not_under). }
  unfold cache_build_types in Htypes.
  destruct (read_cache_ext _ _ _ (Hag0 _ Hnu)) as [_ Hrd0]. rewrite <- Hrd0 in Htypes.
  unfold _process_build_directory in Hrun |- *. rewrite <- Hname in Hrun |- *.
  apply bind_ok in Hrun as (f & w0 & Hf & Hrun). apply get_fs_ok in Hf as [-> ->].
  unfold bind at 1, get_fs.
  destruct (read_cache_ext _ _ _ Hcf) as [Hex Hrd]. rewrite Hex, Hrd.
  destruct (FS.exists_ (fs w) (build_dir // "CMakeCache.txt")) eqn:Hexists;
    [change (negb true) with false in Hrun |- *
    |change (negb false) with true in Hrun |- *]; cbv iota in Hrun |- *.
  2:{ apply ret_ok in Hrun as [[= -> ->] ->]. exists w1, [].
      rewrite app_nil_r. done. }
  apply bind_ok in Hrun as (cache_data & w0 & Hc & Hrun).
  apply lift_ok in Hc as [Hc ->].
  rewrite Hc in Htypes. unfold bind at 1, lift. rewrite Hc. cbv iota beta.
  unfold build_types_of in Htypes.
  destruct (1 <? length _)%nat eqn:Hmulti.
  - apply bind_ok in Hrun as ([cs ch'] & wc & Heach & Hrun).
    apply bind_ok in Hrun as ([] & wd' & Hclean & Hrun).
    apply ret_ok in Hrun as [[= -> ->] ->].
    destruct (create_each_settles _ _ Htypes _ _ _ _ _ _ Hag0 Heach)
      as (Hagc & _ & Hset & new & -> & Hnext).
    destruct (cleanup_settles _ _ _ (Hdirs _ Hagc) Hclean) as [Hno Hkeep].
    destruct (cleanup_settled _ _ (Hmove_no _ Hno)) as (w2 & evs & Hclean2 & Hfs2 & Ht2 & Hw2).
    exists w2, evs. unfold bind at 1. rewrite Hnext; [|done|].
    + unfold bind at 1. rewrite Hclean2. done.
    + intros Hyes bt Hbt Ht.
      assert (plain_name bt = true) as Hplain.
      { rewrite Forall_forall in Htypes. by apply Htypes. }
      apply Hmove, Hkeep; [done..| |by apply Hset].
      by apply elem_of_list_to_set.
  - apply bind_ok in Hrun as ([cfg changed] & wc & Hcreate & Hrun).
    apply Forall_cons in Htypes as [Htype _].
    destruct (create_configuration_settles _ _ _ _ _ _ Hag0 Htype Hcreate)
      as (Hagc & _ & Hcase).
    assert (∃ wd' , _cleanup_orphaned_hashes E self preset_name
                      {[default "Debug" (cache_data !! "CMAKE_BUILD_TYPE")]} wc
                    = (Ok tt, wd') ∧ wd' = wd
                    ∧ configs = match cfg with Some c => [c] | None => [] end)
      as (wd' & Hclean & -> & ->).
    { destruct cfg; apply bind_ok in Hrun as ([] & wd' & Hclean & Hrun);
        apply ret_ok in Hrun as [[= -> ->] ->]; eauto. }
    destruct (cleanup_settles _ _ _ (Hdirs _ Hagc) Hclean) as [Hno Hkeep].
    destruct (cleanup_settled _ _ (Hmove_no _ Hno)) as (w2 & evs & Hclean2 & Hfs2 & Ht2 & Hw2).
    exists w2, evs. unfold bind at 1.
    destruct Hcase as [[Hnone ->]|(Hyes & Hset & pkg & Hpkg & ->)].
    + rewrite create_configuration_skipped by done.
      unfold bind at 1. rewrite Hclean2. done.
    + rewrite (create_configuration_settled _ _ _ pkg); try done.
      * unfold bind at 1. rewrite Hclean2. done.
      * apply Hmove, Hkeep; [done..| |done]. by apply elem_of_singleton.
Qed.

(** The same on the files the first pass left and whatever document was
    written since. *)
Lemma process_build_directory_settled w configs ch wd :
  fs w = f0 →
  preset_name = _extract_preset_name build_dir →
  FS.is_dir (fs w) (vscode_dir self) = true →
  Forall (fun bt => plain_name bt = true) (cache_build_types (fs w) build_dir) →
  _process_build_directory E self build_dir w = (Ok (configs, ch), wd) →
  ∀ w1,
    (∀ p, p ≠ output_file_of self → fs w1 !! p = fs wd !! p) →
    ∃ w2 evs,
      _process_build_directory E self build_dir w1 = (Ok (configs, false), w2)
      ∧ fs w2 = fs w1
      ∧ trace w2 = (trace w1 ++ evs)%list
      ∧ existsb is_write evs = false.
Proof.
  intros Hf0 Hname Hdir Htypes Hrun w1 Hsame.
  assert (agrees_outside self f0 w) as Hag0 by (intros p _; by rewrite Hf0).
  assert (agrees_outside self f0 wd) as Hagd.
  { apply process_build_directory_confined in Hrun as (_ & _ & _ & _ & Hf).
    intros p Hp. rewrite Hf by done. by apply Hag0. }
  assert (agrees_outside self f0 w1) as Hag1.
  { intros p Hp. rewrite Hsame; [by apply Hagd|].
    intros ->. apply Hp, output_file_under. }
  rewrite Hf0 in Hdir, Htypes.
  apply (process_build_directory_again w configs ch wd Hag0 Hname Hdir Htypes Hrun
           w1 Hag1).
  - intros bt _. apply Hsame, hash_file_not_output.
  - intros n Hm. apply Hsame.
    rewrite output_file_parts. intros [_ ->]%app_inj_tail.
    change ((".conan_hash_" ++ preset_name ++ "_") ++ "*")
      with (String "." (("conan_hash_" ++ preset_name ++ "_") ++ "*")) in Hm.
    by rewrite fnmatch_dot in Hm.
Qed.

End Settled.
(** X12: a second run on what the first one left changes nothing, for a
    workspace with one build directory under [build]. If the first run
    returned, whether it wrote the document (0), found nothing (1) or found
    nothing changed (2), then the second run returns 1 if the first one did
    and 2 otherwise, leaves every file as it is, and writes neither a hash
    record nor the document. The preset name and the build types are single
    path components, and the digest is a text without surrounding white
    space, as a hexadecimal digest is. *)
Theorem second_run_changes_nothing E self rest build_dir w rc w1 :
  vscode_dir self = workspace_root self // ".vscode" →
  build_dir = (workspace_root self ++ "build" :: rest)%list →
  plain_name (_extract_preset_name build_dir) = true →
  forallb plain_name (cache_build_types (fs w) build_dir) = true →
  (∀ x, PyStr.strip (sha256_hexdigest E x) = sha256_hexdigest E x) →
  FS.is_dir (fs w) (vscode_dir self) = true →
  generate_configuration E self [build_dir] w = (Ok rc, w1) →
  ∃ w2 evs,
    generate_configuration E self [build_dir] w1
    = (Ok (if (rc =? 1)%nat then 1%nat else 2%nat), w2)
    ∧ fs w2 = fs w1
    ∧ trace w2 = (trace w1 ++ evs)%list
    ∧ existsb is_write evs = false.
Proof.
  intros Hvscode Hbuild Hpreset Htypes Hdigest Hdir Hrun.
  assert (Forall (fun bt => plain_name bt = true)
            (cache_build_types (fs w) build_dir)) as Hplain.
  { apply Forall_forall. intros bt Hbt%list_elem_of_In.
    rewrite forallb_forall in Htypes. by apply Htypes. }
  unfold generate_configuration in Hrun.
  apply bind_ok in Hrun as ([configs ch] & wd & Hproc & Hrun). simpl in Hproc.
  apply bind_ok in Hproc as ([cs c] & wd0 & Hproc & Hret).
  apply ret_ok in Hret as [[= -> ->] ->]. simpl in Hrun.
  assert (∀ p, p ≠ output_file_of self → fs w1 !! p = fs wd0 !! p) as Hsame.
  { intros p Hp. destruct cs as [|c0 cs].
    - apply bind_ok in Hrun as (u & w' & Hprint & Hrun).
      apply ret_ok in Hrun as [_ ->]. by injection Hprint as _ <-.
    - destruct c.
      + apply bind_ok in Hrun as (u & w' & Hwrite & Hrun).
        apply write_ok in Hwrite as [Hfs _].
        apply bind_ok in Hrun as (u' & w'' & Hprint & Hrun).
        apply ret_ok in Hrun as [_ ->]. injection Hprint as _ <-. simpl.
        by rewrite Hfs, lookup_insert_ne.
      + by apply ret_ok in Hrun as [_ ->]. }
  destruct (process_build_directory_settled E self rest build_dir
              (_extract_preset_name build_dir) (fs w) Hvscode Hbuild Hpreset Hdigest
              w cs c wd0 eq_refl eq_refl Hdir Hplain Hproc w1 Hsame)
    as (w2 & evs & Hproc2 & Hfs2 & Ht2 & Hw2).
  unfold generate_configuration, bind at 1. simpl process_each.
  unfold bind at 1. rewrite Hproc2. simpl.
  destruct cs as [|c0 cs].
  - apply bind_ok in Hrun as (u & w' & Hprint & Hrun).
    apply ret_ok in Hrun as [-> _].
    eexists _, (evs ++ [_])%list. split; [reflexivity|]. simpl.
    split; [done|]. split; [by rewrite Ht2, app_assoc|].
    by rewrite existsb_app, Hw2.
  - exists w2, evs. split; [|done]. unfold ret. f_equal. f_equal.
    destruct c.
    + apply bind_ok in Hrun as (u & w' & Hwrite & Hrun).
      apply bind_ok in Hrun as (u' & w'' & Hprint & Hrun).
      by apply ret_ok in Hrun as [-> _].
    + by apply ret_ok in Hrun as [-> _].
Qed.
Lemma chars_rev_app (s acc : string) :
  PyStr.chars (String.rev_app s acc) = (rev (PyStr.chars s) ++ PyStr.chars acc)%list.
Proof.
  revert acc. induction s as [|x s IH]; intros acc; [done|].
  simpl. rewrite IH. change (PyStr.chars (String x acc)) with (x :: PyStr.chars acc).
  by rewrite <- app_assoc.
Qed.

Lemma chars_rev (s : string) : PyStr.chars (String.rev s) = rev (PyStr.chars s).
Proof. unfold String.rev. rewrite chars_rev_app. apply app_nil_r. Qed.

Lemma rev_rev_string (s : string) : String.rev (String.rev s) = s.
Proof. apply chars_inj. by rewrite !chars_rev, rev_involutive. Qed.

Lemma lstrip_by_head f (s : string) :
  Forall (fun c => f c = false) (PyStr.chars s) → PyStr.lstrip_by f s = s.
Proof.
  destruct s as [|x s]; [done|]. intros [Hx _]%Forall_cons. simpl. by rewrite Hx.
Qed.

(** A text without white space is what [strip] makes of it. *)
Lemma strip_no_space (s : string) :
  Forall (fun c => PyStr.isspace c = false) (PyStr.chars s) → PyStr.strip s = s.
Proof.
  intros Hs. unfold PyStr.strip, PyStr.strip_by, PyStr.rstrip_by.
  rewrite (lstrip_by_head _ s Hs), lstrip_by_head, rev_rev_string; [done|].
  rewrite chars_rev. by apply Forall_rev.
Qed.

Lemma hex_digit_no_space n : PyStr.isspace (Demo.hex_digit n) = false.
Proof. unfold Demo.hex_digit. do 15 (destruct n as [|n]; [reflexivity|]). reflexivity. Qed.

Lemma hex_encode_strip x : PyStr.strip (Demo.hex_encode x) = Demo.hex_encode x.
Proof.
  apply strip_no_space. induction x as [|c x IH]; [constructor|].
  simpl. repeat constructor; [apply hex_digit_no_space..|exact IH].
Qed.

Lemma second_run_changes_nothing_witness :
  ∃ w1 w2 evs,
    generate_configuration Demo.linux Demo.self [Demo.build_dir_of "a"] Demo.w_stale
    = (Ok 0%nat, w1)
    ∧ generate_configuration Demo.linux Demo.self [Demo.build_dir_of "a"] w1
      = (Ok 2%nat, w2)
    ∧ fs w2 = fs w1
    ∧ trace w2 = (trace w1 ++ evs)%list
    ∧ existsb is_write evs = false.
Proof.
  destruct (generate_configuration Demo.linux Demo.self [Demo.build_dir_of "a"]
              Demo.w_stale) as [r w1] eqn:Hrun.
  assert (r = Ok 0%nat) as ->.
  { change r with (fst (r, w1)). rewrite <- Hrun. vm_compute. reflexivity. }
  assert (forallb plain_name (cache_build_types (fs Demo.w_stale) (Demo.build_dir_of "a"))
          = true) as Htypes by (vm_compute; reflexivity).
  assert (FS.is_dir (fs Demo.w_stale) (vscode_dir Demo.self) = true) as Hdir
    by (vm_compute; reflexivity).
  destruct (second_run_changes_nothing Demo.linux Demo.self ["a"; "build"]
              (Demo.build_dir_of "a") Demo.w_stale 0%nat w1
              eq_refl eq_refl eq_refl Htypes hex_encode_strip Hdir Hrun)
    as (w2 & evs & H).
  exists w1, w2, evs. split; [reflexivity|]. exact H.
Defined.

(** ** The cleanup of the hash records *)



(** ** The data files of one build type *)

Lemma scandir_NoDup (E : Env) (f : gmap path node) (d : path) : NoDup (scandir E f d).
Proof.
  unfold scandir. rewrite listing_perm. unfold sorted_strings.
  rewrite merge_sort_Permutation. apply NoDup_elements.
Qed.

(** Two file systems with the same matching entries in [d] select the same
    files, up to the order. *)
Lemma glob_single_matching (E : Env) (f1 f2 : gmap path node) (d : path) pattern :
  Path.of_string pattern = [pattern] →
  FS.is_dir f1 d = FS.is_dir f2 d →
  (∀ n, Fnmatch.fnmatch n pattern = true →
        f1 !! (d ++ [n])%list = f2 !! (d ++ [n])%list) →
  glob E f1 d pattern ≡ₚ glob E f2 d pattern
  ∧ ∀ p, p ∈ glob E f1 d pattern → FS.read f1 p = FS.read f2 p.
Proof.
  intros Hp Hd Hn. rewrite !glob_single by done. rewrite <- Hd.
  destruct (FS.is_dir f1 d); [|split; [done|by intros p ?%elem_of_nil]].
  split.
  - apply fmap_Permutation. apply NoDup_Permutation.
    + apply NoDup_filter, scandir_NoDup.
    + apply NoDup_filter, scandir_NoDup.
    + intros n. rewrite !list_elem_of_filter, !elem_of_scandir.
      split; intros [Hm Hs]; (split; [done|]);
        apply Is_true_true in Hm; [by rewrite <- Hn|by rewrite Hn].
  - intros p (n & -> & [Hm _]%list_elem_of_filter)%list_elem_of_fmap.
    unfold FS.read. rewrite Hn; [done|]. by apply Is_true_true.
Qed.

(** X14: the content hash and the package data of a build type depend only
    on the entries of the generators directory whose names match the pattern
    of that build type. Two file systems that agree on whether the
    directory is one and on the matching entries give the same hash, and
    the package data scanned from one is scanned from the other. The build
    type is a single path component. *)
Theorem data_depends_on_matching_files E f1 f2 generators_dir build_type :
  plain_name build_type = true →
  FS.is_dir f1 generators_dir = FS.is_dir f2 generators_dir →
  (∀ n, Fnmatch.fnmatch n ("*-" ++ PyStr.lower build_type ++ "-*-data.cmake") = true →
        f1 !! (generators_dir ++ [n])%list = f2 !! (generators_dir ++ [n])%list) →
  _hash_directory E f1 generators_dir build_type
  = _hash_directory E f2 generators_dir build_type
  ∧ ∀ pkg, scan_generators_directory E f1 generators_dir build_type = Ok pkg →
           scan_generators_directory E f2 generators_dir build_type = Ok pkg.
Proof.
  intros Htype Hd Hn.
  destruct (glob_single_matching E f1 f2 generators_dir _
              (pattern_one_part build_type Htype) Hd Hn) as [Hperm Hread].
  split.
  - unfold _hash_directory.
    rewrite <- (sorted_paths_of_perm _ _ Hperm).
    rewrite (map_result_ext (FS.read f1) (FS.read f2)); [done|].
    intros p Hp. apply Hread. unfold sorted_paths in Hp.
    by rewrite merge_sort_Permutation in Hp.
  - intros pkg H. unfold scan_generators_directory in H |- *.
    pose proof (scan_files_ok _ _ _ _ H) as (Hreads & Hinc & Hdef & Hfw).
    destruct (scan_files_total f2
                (glob E f2 generators_dir
                   ("*-" ++ PyStr.lower build_type ++ "-*-data.cmake")))
      with (acc := {| include_dirs := ∅; defines := ∅; framework_dirs := ∅ |})
      as [pkg' H'].
    { intros p Hp. rewrite <- Hperm in Hp. rewrite <- Hread by done.
      by apply Hreads. }
    rewrite H'. f_equal.
    pose proof (scan_files_ok _ _ _ _ H') as (_ & Hinc' & Hdef' & Hfw').
    assert (∀ (g : conan_file_data → list string) d,
              (∃ p content,
                 p ∈ glob E f1 generators_dir
                       ("*-" ++ PyStr.lower build_type ++ "-*-data.cmake")
                 ∧ FS.read f1 p = Ok content
                 ∧ d ∈ g (ConanDataParser.parse_content content))
              ↔ (∃ p content,
                   p ∈ glob E f2 generators_dir
                         ("*-" ++ PyStr.lower build_type ++ "-*-data.cmake")
                   ∧ FS.read f2 p = Ok content
                   ∧ d ∈ g (ConanDataParser.parse_content content))) as Hsame.
    { intros g d. split; intros (p & content & Hp & Hrd & Hin); exists p, content.
      - split; [by rewrite <- Hperm|]. split; [|done]. by rewrite <- Hread.
      - rewrite <- Hperm in Hp. split; [done|]. split; [|done]. by rewrite Hread. }
    destruct pkg as [i1 d1 fw1], pkg' as [i2 d2 fw2]. simpl in *.
    f_equal; apply set_eq; intros d.
    + rewrite Hinc, Hinc'. by rewrite (Hsame fd_include_dirs).
    + rewrite Hdef, Hdef'. by rewrite (Hsame fd_defines).
    + rewrite Hfw, Hfw'. by rewrite (Hsame fd_framework_dirs).
Qed.

Lemma data_depends_on_matching_files_witness :
  let generators_dir := ["ws"; "build"; "a"; "build"; "generators"] in
  let changed :=
    <[(generators_dir ++ ["fmt-release-x86_64-data.cmake"])%list := File "set(x)"]>
      (fs Demo.w_multi) in
  _hash_directory Demo.linux (fs Demo.w_multi) generators_dir "Debug"
  = _hash_directory Demo.linux changed generators_dir "Debug"
  ∧ ∀ pkg,
      scan_generators_directory Demo.linux (fs Demo.w_multi) generators_dir "Debug"
      = Ok pkg →
      scan_generators_directory Demo.linux changed generators_dir "Debug" = Ok pkg.
Proof.
  intros generators_dir changed.
  apply (data_depends_on_matching_files Demo.linux (fs Demo.w_multi) changed
           generators_dir "Debug").
  - vm_compute. reflexivity.
  - unfold FS.is_dir, changed. rewrite lookup_insert_ne; [reflexivity|].
    unfold generators_dir. simpl. discriminate.
  - intros n Hn. unfold changed.
    destruct (decide (n = "fmt-release-x86_64-data.cmake")) as [->|Hne].
    + vm_compute in Hn. discriminate Hn.
    + rewrite lookup_insert_ne; [reflexivity|].
      intros [_ H]%app_inj_tail. by destruct Hne.
Defined.

(** ** The entries read from the cache *)

Lemma rev_cons_string (x : ascii) (s : string) :
  String.rev (String x s) = String.rev s ++ String x "".
Proof.
  apply chars_inj. rewrite chars_app, !chars_rev.
  change (PyStr.chars (String x s)) with (x :: PyStr.chars s). reflexivity.
Qed.

Lemma rev_snoc_string (x : ascii) (s : string) :
  String.rev (s ++ String x "") = String x (String.rev s).
Proof.
  apply chars_inj. rewrite chars_rev, chars_app.
  change (PyStr.chars (String x (String.rev s))) with (x :: PyStr.chars (String.rev s)).
  rewrite chars_rev. apply rev_unit.
Qed.

Lemma lstrip_by_clean f (s : string) :
  (∀ c t, s = String c t → f c = false) → PyStr.lstrip_by f s = s.
Proof.
  destruct s as [|x s]; [done|]. intros H. simpl. by rewrite (H x s).
Qed.

Lemma lstrip_by_starts f (s : string) :
  ∀ c t, PyStr.lstrip_by f s = String c t → f c = false.
Proof.
  induction s as [|x s IH]; intros c t; simpl; [done|].
  destruct (f x) eqn:Hx; [apply IH|]. by intros [= <- _].
Qed.

Lemma lstrip_by_snoc f (s : string) (c : ascii) :
  f c = false → ∃ u, PyStr.lstrip_by f (s ++ String c "") = u ++ String c "".
Proof.
  intros Hc. induction s as [|x s IH].
  - exists "". simpl. by rewrite Hc.
  - change (String x s ++ String c "") with (String x (s ++ String c "")). simpl.
    destruct (f x); [exact IH|]. by exists (String x s).
Qed.

Lemma rstrip_by_starts f (s : string) :
  (∀ c t, s = String c t → f c = false) →
  ∀ c t, PyStr.rstrip_by f s = String c t → f c = false.
Proof.
  unfold PyStr.rstrip_by. destruct s as [|x s]; intros Hs c t; [done|].
  rewrite rev_cons_string.
  destruct (lstrip_by_snoc f (String.rev s) x (Hs x s eq_refl)) as [u ->].
  rewrite rev_snoc_string. intros [= <- _]. by apply (Hs x s).
Qed.

(** Stripping twice is stripping once. *)
Lemma strip_by_idem f (s : string) :
  PyStr.strip_by f (PyStr.strip_by f s) = PyStr.strip_by f s.
Proof.
  unfold PyStr.strip_by.
  rewrite (lstrip_by_clean f (PyStr.rstrip_by f (PyStr.lstrip_by f s))).
  2:{ apply rstrip_by_starts, lstrip_by_starts. }
  unfold PyStr.rstrip_by. rewrite rev_rev_string.
  rewrite (lstrip_by_clean f (PyStr.lstrip_by f _)); [done|].
  apply lstrip_by_starts.
Qed.

Lemma lstrip_by_Forall (P : ascii → Prop) f (s : string) :
  Forall P (PyStr.chars s) → Forall P (PyStr.chars (PyStr.lstrip_by f s)).
Proof.
  induction s as [|x s IH]; [done|]. intros H. simpl.
  destruct (f x); [|done]. apply IH. by apply Forall_cons in H as [_ H].
Qed.

Lemma strip_by_Forall (P : ascii → Prop) f (s : string) :
  Forall P (PyStr.chars s) → Forall P (PyStr.chars (PyStr.strip_by f s)).
Proof.
  intros H. unfold PyStr.strip_by, PyStr.rstrip_by.
  rewrite chars_rev. apply Forall_rev, lstrip_by_Forall.
  rewrite chars_rev. by apply Forall_rev, lstrip_by_Forall.
Qed.

(** What a repetition hands on: a run of characters of its class. *)
Lemma rep_run {A} cls greedy (k : list ascii → string → option A) (s : string) :
  ∀ acc least r,
    Re.rep cls greedy k acc s least = Some r →
    ∃ new rest, k (new ++ acc)%list rest = Some r ∧ Forall (fun c => cls c = true) new.
Proof.
  induction s as [|c s IH]; intros acc least r; simpl.
  - destruct least; [|done]. intros H. by exists [], EmptyString.
  - assert (match least with O => k acc (String c s) | S _ => None end = Some r →
            ∃ new rest, k (new ++ acc)%list rest = Some r
                        ∧ Forall (fun c => cls c = true) new) as Hstop.
    { destruct least; [|done]. intros H. by exists [], (String c s). }
    assert (Re.rep cls greedy k (c :: acc) s (pred least) = Some r → cls c = true →
            ∃ new rest, k (new ++ acc)%list rest = Some r
                        ∧ Forall (fun c => cls c = true) new) as Hgo.
    { intros (new & rest & Hk & Hnew)%IH Hc. exists (new ++ [c])%list, rest.
      rewrite <- app_assoc. split; [done|]. apply Forall_app. split; [done|].
      by constructor. }
    destruct (cls c) eqn:Hc; [|exact Hstop].
    destruct greedy.
    + destruct (Re.rep cls true k (c :: acc) s (pred least)) as [r'|] eqn:Hrep;
        [|exact Hstop]. intros [= <-]. by apply Hgo.
    + destruct (match least with O => k acc (String c s) | S _ => None end) as [r'|]
        eqn:Hs.
      * intros [= <-]. by apply Hstop.
      * intros H. by apply Hgo.
Qed.

(** The group of a match of [KEY:TYPE=(.+)] holds no line break. *)
Lemma match_entry key type (s : string) m :
  Re.match_here (CMakeCacheReader.re_entry key type) s ∅ = Some m →
  Forall (fun c => PyStr.is_newline c = false) (PyStr.chars (Re.group 1 m)).
Proof.
  unfold CMakeCacheReader.re_entry. simpl.
  destruct (Re.strip_prefix _ _) as [s'|]; [|done].
  intros (new & rest & Hk & Hnew)%rep_run.
  simpl in Hk. injection Hk as <-. unfold Re.group, Re.captures.
  rewrite lookup_insert_eq. simpl. unfold PyStr.chars, PyStr.of_chars.
  rewrite list_ascii_of_string_of_list_ascii, app_nil_r.
  apply Forall_reverse. eapply Forall_impl; [exact Hnew|].
  intros c Hc. unfold Re.dot in Hc. by apply negb_true_iff in Hc.
Qed.

Lemma search_entry key type (content : string) m :
  Re.search (CMakeCacheReader.re_entry key type) content = Some m →
  Forall (fun c => PyStr.is_newline c = false) (PyStr.chars (Re.group 1 m)).
Proof.
  induction content as [|x content IH]; cbn [Re.search];
    destruct (Re.match_here _ _ _) as [m'|] eqn:Hm; try done;
    intros [= <-]; by eapply match_entry.
Qed.

Lemma read_content_fold (content : string) (pats : list (string * Re.regex)) :
  ∀ (acc : gmap string string) key value,
    foldl (fun cache_data '(key, pattern) =>
             match Re.search pattern content with
             | Some m => <[key := PyStr.strip (Re.group 1 m)]> cache_data
             | None => cache_data
             end) acc pats !! key = Some value →
    acc !! key = Some value
    ∨ ∃ pattern m,
        (key, pattern) ∈ pats
        ∧ Re.search pattern content = Some m
        ∧ value = PyStr.strip (Re.group 1 m).
Proof.
  induction pats as [|[k pattern] pats IH]; intros acc key value; simpl; [by left|].
  intros [H|(pattern' & m & Hin & Hs & Hv)]%IH.
  - destruct (Re.search pattern content) as [m|] eqn:Hs; [|by left].
    apply lookup_insert_Some in H as [[<- <-]|[_ H]]; [|by left].
    right. exists pattern, m. split; [apply list_elem_of_here|done].
  - right. exists pattern', m. split; [by apply list_elem_of_further|done].
Qed.

(** X15: what [read_cache] returns. An entry of the result comes from a
    cache file that exists and is a regular file; its key is one of the four
    the reader looks for; and its value has no line break and no white space
    at either end. *)
Theorem read_cache_entries f cache_file cache_data key value :
  CMakeCacheReader.read_cache f cache_file = Ok cache_data →
  cache_data !! key = Some value →
  (∃ content, f !! cache_file = Some (File content))
  ∧ key ∈ ["CMAKE_CXX_COMPILER"; "CMAKE_BUILD_TYPE"; "CMAKE_CONFIGURATION_TYPES";
           "CMAKE_GENERATOR"]
  ∧ PyStr.strip value = value
  ∧ Forall (fun c => PyStr.is_newline c = false) (PyStr.chars value).
Proof.
  unfold CMakeCacheReader.read_cache, FS.exists_, FS.read. intros Hread Hkey.
  destruct (f !! cache_file) as [[content|]|] eqn:Hfile.
  2:{ rewrite bool_decide_eq_true_2 in Hread by eauto. discriminate Hread. }
  2:{ rewrite bool_decide_eq_false_2 in Hread by (by intros [? ?]).
      injection Hread as <-. by rewrite lookup_empty in Hkey. }
  rewrite bool_decide_eq_true_2 in Hread by eauto. simpl in Hread.
  injection Hread as <-. split; [eauto|].
  unfold CMakeCacheReader.read_content in Hkey.
  apply read_content_fold in Hkey as [Hkey|(pattern & m & Hin & Hs & ->)].
  { by rewrite lookup_empty in Hkey. }
  assert (∃ type, pattern = CMakeCacheReader.re_entry key type
                  ∧ key ∈ ["CMAKE_CXX_COMPILER"; "CMAKE_BUILD_TYPE";
                           "CMAKE_CONFIGURATION_TYPES"; "CMAKE_GENERATOR"])
    as (type & -> & Hk).
  { unfold CMakeCacheReader.patterns in Hin.
    repeat (apply elem_of_cons in Hin as [[= -> ->]|Hin];
            [eexists; split; [reflexivity|]; set_solver|]).
    by apply elem_of_nil in Hin. }
  split; [done|]. split; [apply strip_by_idem|].
  apply strip_by_Forall. by eapply search_entry.
Qed.

Lemma read_cache_entries_witness :
  (∃ content,
     fs Demo.w_multi !! (Demo.build_dir_of "a" ++ ["CMakeCache.txt"])%list
     = Some (File content))
  ∧ "CMAKE_CONFIGURATION_TYPES"
    ∈ ["CMAKE_CXX_COMPILER"; "CMAKE_BUILD_TYPE"; "CMAKE_CONFIGURATION_TYPES";
       "CMAKE_GENERATOR"]
  ∧ PyStr.strip "Debug;Release" = "Debug;Release"
  ∧ Forall (fun c => PyStr.is_newline c = false) (PyStr.chars "Debug;Release").
Proof.
  apply (read_cache_entries (fs Demo.w_multi)
           (Demo.build_dir_of "a" ++ ["CMakeCache.txt"])%list
           (CMakeCacheReader.read_content Demo.multi_cache)
           "CMAKE_CONFIGURATION_TYPES" "Debug;Release");
    vm_compute; reflexivity.
Defined.

(** ** The defines of a data file *)

(** The text of a group after a match: what it was before, or a run of the
    class of a repetition that carries the group. *)
Lemma match_here_group (r : Re.regex) (i : nat) :
  ∀ (s : string) (c m : Re.captures),
    Re.match_here r s c = Some m →
    m !! i = c !! i
    ∨ ∃ cls least greedy taken,
        Re.Rep cls least greedy (Some i) ∈ r
        ∧ m !! i = Some (PyStr.of_chars taken)
        ∧ Forall (fun x => cls x = true) taken.
Proof.
  induction r as [|[l|cls least greedy g] r IH]; intros s c m; simpl.
  - intros [= <-]. by left.
  - destruct (Re.strip_prefix l s) as [s'|]; [|done].
    intros [H|(cls & least & greedy & taken & Hin & Hm & Ht)]%IH; [by left|].
    right. exists cls, least, greedy, taken. split; [by apply list_elem_of_further|done].
  - intros (new & rest & Hk & Hnew)%rep_run. rewrite app_nil_r in Hk.
    apply IH in Hk as [H|(cls' & least' & greedy' & taken & Hin & Hm & Ht)].
    + destruct g as [j|]; [|by left]. simpl in H. unfold Re.captures in *.
      destruct (decide (j = i)) as [->|Hne].
      * right. exists cls, least, greedy, (reverse new).
        split; [apply list_elem_of_here|]. rewrite H, lookup_insert_eq.
        split; [done|]. by apply Forall_reverse.
      * left. by rewrite H, lookup_insert_ne.
    + right. exists cls', least', greedy', taken.
      split; [by apply list_elem_of_further|done].
Qed.

Lemma search_group (r : Re.regex) (i : nat) (s : string) m :
  Re.search r s = Some m →
  m !! i = None
  ∨ ∃ cls least greedy taken,
      Re.Rep cls least greedy (Some i) ∈ r
      ∧ m !! i = Some (PyStr.of_chars taken)
      ∧ Forall (fun x => cls x = true) taken.
Proof.
  induction s as [|x s IH]; cbn [Re.search];
    destruct (Re.match_here r _ ∅) as [m'|] eqn:Hm; try done;
    intros [= <-]; apply (match_here_group r i) in Hm as [Hm|Hm]; auto.
Qed.

(** The fields of [s.split()] are not empty and hold no white space. *)
Lemma split_ws_fields (P : ascii → Prop) (s : string) :
  Forall P (PyStr.chars s) →
  ∀ w, w ∈ PyStr.split_ws s →
       w ≠ EmptyString
       ∧ Forall (fun c => P c ∧ PyStr.isspace c = false) (PyStr.chars w).
Proof.
  intros Hs w. unfold PyStr.split_ws. rewrite list_elem_of_filter.
  intros [Hne Hin]. split; [done|]. clear Hne. revert w Hin.
  apply Forall_forall.
  induction Hs as [|c l Hc Hl IH]; simpl.
  { repeat constructor. }
  destruct (fold_right _ _ l) as [|w ws]; [constructor|].
  apply Forall_cons in IH as [Hw Hws].
  destruct (PyStr.isspace c) eqn:Hsp.
  - constructor; [constructor|]. by constructor.
  - constructor; [|done].
    change (PyStr.chars (String c w)) with (c :: PyStr.chars w). by constructor.
Qed.

(** X16: every define that [parse_data_file] returns is a token: it is not
    empty, and it holds no white space and no closing parenthesis. *)
Theorem parsed_defines_are_tokens f file_path data d :
  ConanDataParser.parse_data_file f file_path = Ok data →
  d ∈ fd_defines data →
  d ≠ EmptyString
  ∧ Forall (fun c => c ≠ ")"%char ∧ PyStr.isspace c = false) (PyStr.chars d).
Proof.
  unfold ConanDataParser.parse_data_file.
  destruct (FS.read f file_path) as [content|e]; simpl; [|done].
  intros [= <-]. simpl. unfold ConanDataParser.parse_list.
  destruct (Re.search ConanDataParser.re_defines content) as [m|] eqn:Hm;
    [|by intros ?%elem_of_nil].
  destruct (PyStr.truthy _); [|by intros ?%elem_of_nil].
  apply split_ws_fields. unfold PyStr.strip_chars. apply strip_by_Forall.
  unfold Re.group.
  apply (search_group _ 1) in Hm as [->|(cls & least & greedy & taken & Hin & -> & Ht)].
  { constructor. }
  simpl. unfold PyStr.chars, PyStr.of_chars.
  rewrite list_ascii_of_string_of_list_ascii.
  assert (cls = Re.other_than ")") as ->.
  { unfold ConanDataParser.re_defines, ConanDataParser.re_set_list in Hin.
    repeat (apply elem_of_cons in Hin as [Hin|Hin]; [by inversion Hin|]).
    by apply elem_of_nil in Hin. }
  eapply Forall_impl; [exact Ht|]. intros c Hc. unfold Re.other_than in Hc.
  apply negb_true_iff in Hc. intros ->. discriminate Hc.
Qed.

Lemma parsed_defines_are_tokens_witness :
  "FMT_HEADER_ONLY=1" ≠ EmptyString
  ∧ Forall (fun c => c ≠ ")"%char ∧ PyStr.isspace c = false)
      (PyStr.chars "FMT_HEADER_ONLY=1").
Proof.
  apply (parsed_defines_are_tokens (fs Demo.w_fmt) Demo.fmt_file
           (ConanDataParser.parse_content Demo.fmt_data) "FMT_HEADER_ONLY=1").
  - vm_compute. reflexivity.
  - vm_compute. apply list_elem_of_here.
Defined.

(** ** A second run with several build directories *)

Lemma prefix_app_cases (a b t t' : string) :
  a ++ t = b ++ t' → String.prefix a b = true ∨ String.prefix b a = true.
Proof.
  revert b. induction a as [|x a IH]; intros b; [by left; destruct b|].
  destruct b as [|y b]; [by right|].
  change (String x (a ++ t) = String y (b ++ t') →
          String.prefix (String x a) (String y b) = true
          ∨ String.prefix (String y b) (String x a) = true).
  intros [= -> H]. simpl. destruct (ascii_dec y y); [|done]. by apply IH.
Qed.

(** The patterns of two separate presets match no name in common. *)
Lemma separate_patterns a b n :
  glob_literal a = true → glob_literal b = true →
  separate_presets a b = true →
  Fnmatch.fnmatch n ((".conan_hash_" ++ a ++ "_") ++ "*") = true →
  Fnmatch.fnmatch n ((".conan_hash_" ++ b ++ "_") ++ "*") = false.
Proof.
  intros Ha Hb Hsep Hm.
  apply fnmatch_literal_star in Hm as [t ->]; [|by rewrite !glob_literal_app, Ha].
  apply not_true_is_false. intros Hm'.
  apply fnmatch_literal_star in Hm' as [t' Heq]; [|by rewrite !glob_literal_app, Hb].
  apply andb_true_iff in Hsep as [H1 H2].
  apply negb_true_iff in H1, H2.
  apply prefix_app_cases in Heq as [H|H]; congruence.
Qed.

(** The record of a build type matches the pattern of its preset. *)
Lemma hash_file_matches self preset_name build_type :
  vscode_dir self = workspace_root self // ".vscode" →
  plain_name preset_name = true → glob_literal preset_name = true →
  plain_name build_type = true →
  ∃ n, hash_file_of self preset_name build_type = (vscode_dir self ++ [n])%list
       ∧ Fnmatch.fnmatch n ((".conan_hash_" ++ preset_name ++ "_") ++ "*") = true.
Proof.
  intros Hvscode Hpreset Hlit Htype.
  exists ((".conan_hash_" ++ preset_name ++ "_") ++ build_type). split.
  - rewrite hash_file_parts by done. rewrite Hvscode. by rewrite !string_app_assoc.
  - apply fnmatch_literal_star; [by rewrite !glob_literal_app, Hlit|eauto].
Qed.

Lemma create_configuration_footprint E self build_dir preset_name build_type
    cache_data w r w' :
  _create_configuration E self build_dir preset_name build_type cache_data w
    = (Ok r, w') →
  ∀ p, p ≠ hash_file_of self preset_name build_type → fs w' !! p = fs w !! p.
Proof.
  intros [(_ & _ & ->)|(_ & h & pkg & changed & _ & _ & _ & _ & Hw)]%create_configuration_inv
    p Hp; [done|].
  destruct changed; [|by subst w'].
  destruct Hw as [-> _]. by rewrite lookup_insert_ne.
Qed.

Section Footprint.
Context (E : Env) (self : generator) (build_dir : path) (preset_name : string).
Hypothesis Hvscode : vscode_dir self = workspace_root self // ".vscode".
Hypothesis Hpreset : plain_name preset_name = true.
Hypothesis Hliteral : glob_literal preset_name = true.

(** A path outside the pattern of the preset. *)
Let outside (p : path) : Prop :=
  ∀ n, p = (vscode_dir self ++ [n])%list →
       Fnmatch.fnmatch n ((".conan_hash_" ++ preset_name ++ "_") ++ "*") = false.

Lemma create_each_footprint cache_data config_types :
  Forall (fun bt => plain_name bt = true) config_types →
  ∀ acc b w r w',
    create_each E self build_dir preset_name cache_data config_types acc b w
      = (Ok r, w') →
    ∀ p, outside p → fs w' !! p = fs w !! p.
Proof.
  induction 1 as [|build_type types Htype Htypes IH];
    intros acc b w r w' Hrun p Hp; simpl in Hrun.
  { by apply ret_ok in Hrun as [_ ->]. }
  destruct (PyStr.truthy build_type); [|by eapply IH].
  apply bind_ok in Hrun as ([cfg changed] & w1 & Hcreate & Hrun).
  assert (fs w1 !! p = fs w !! p) as <-.
  { eapply create_configuration_footprint; [exact Hcreate|].
    destruct (hash_file_matches self preset_name build_type) as (n & Hn & Hm);
      [done..|].
    intros ->. specialize (Hp n Hn). congruence. }
  destruct cfg; by eapply IH.
Qed.

Lemma cleanup_footprint valid_build_types w w' :
  _cleanup_orphaned_hashes E self preset_name valid_build_types w = (Ok tt, w') →
  ∀ p, outside p → fs w' !! p = fs w !! p.
Proof.
  intros Hrun p Hp. unfold _cleanup_orphaned_hashes, bind, get_fs in Hrun.
  destruct (cleanup_loop_effect (".conan_hash_" ++ preset_name ++ "_")
              valid_build_types
              (glob E (fs w) (vscode_dir self)
                 ((".conan_hash_" ++ preset_name ++ "_") ++ "*")) w)
    as (w'' & evs & Hloop & _ & _ & Hf).
  rewrite Hloop in Hrun. injection Hrun as <-. apply Hf.
  intros (_ & n & Hn & Hm & _)%cleanup_glob_names; [|done].
  specialize (Hp n Hn). congruence.
Qed.

(** Processing a build directory changes only what lies under the pattern
    of its preset. *)
Lemma process_build_directory_footprint w r w' :
  preset_name = _extract_preset_name build_dir →
  forallb plain_name (cache_build_types (fs w) build_dir) = true →
  _process_build_directory E self build_dir w = (Ok r, w') →
  ∀ p, outside p → fs w' !! p = fs w !! p.
Proof.
  intros Hname Htypes Hrun p Hp.
  assert (Forall (fun bt => plain_name bt = true)
            (cache_build_types (fs w) build_dir)) as Hplain.
  { apply Forall_forall. intros bt Hbt%list_elem_of_In.
    rewrite forallb_forall in Htypes. by apply Htypes. }
  unfold cache_build_types in Hplain.
  unfold _process_build_directory in Hrun. rewrite <- Hname in Hrun.
  apply bind_ok in Hrun as (f & w0 & Hf & Hrun). apply get_fs_ok in Hf as [-> ->].
  destruct (FS.exists_ (fs w) (build_dir // "CMakeCache.txt")); simpl in Hrun.
  2:{ by apply ret_ok in Hrun as [_ ->]. }
  apply bind_ok in Hrun as (cache_data & w0 & Hc & Hrun).
  apply lift_ok in Hc as [Hc ->]. rewrite Hc in Hplain.
  unfold build_types_of in Hplain.
  destruct (1 <? length _)%nat.
  - apply bind_ok in Hrun as ([cs ch] & wc & Heach & Hrun).
    apply bind_ok in Hrun as ([] & wd & Hclean & Hrun).
    apply ret_ok in Hrun as [_ ->].
    rewrite (cleanup_footprint _ _ _ Hclean p Hp).
    by eapply create_each_footprint.
  - apply bind_ok in Hrun as ([cfg ch] & wc & Hcreate & Hrun).
    apply Forall_cons in Hplain as [Htype _].
    assert (fs wc !! p = fs w !! p) as <-.
    { eapply create_configuration_footprint; [exact Hcreate|].
      destruct (hash_file_matches self preset_name
                  (default "Debug" (cache_data !! "CMAKE_BUILD_TYPE")))
        as (n & Hn & Hm); [done..|].
      intros ->. specialize (Hp n Hn). congruence. }
    destruct cfg; apply bind_ok in Hrun as ([] & wd & Hclean & Hrun);
      apply ret_ok in Hrun as [_ ->]; by eapply cleanup_footprint.
Qed.

End Footprint.

Lemma cache_build_types_agree self f0 w build_dir :
  vscode_dir self = workspace_root self // ".vscode" →
  under_build self build_dir →
  agrees_outside self f0 w →
  cache_build_types (fs w) build_dir = cache_build_types f0 build_dir.
Proof.
  intros Hvscode [rest Hbuild] Hag. unfold cache_build_types.
  destruct (read_cache_ext (fs w) f0 (build_dir // "CMakeCache.txt")) as [_ ->];
    [|done].
  apply Hag.
  change (build_dir // "CMakeCache.txt") with (build_dir ++ ["CMakeCache.txt"])%list.
  by eapply not_under_build.
Qed.

(** The loop over the build directories: what the first run changes, and
    what a later run returns on a world that has the entries under the
    patterns of the presets as the first run left them. *)
Lemma process_each_again E self f0 :
  vscode_dir self = workspace_root self // ".vscode" →
  (∀ x, PyStr.strip (sha256_hexdigest E x) = sha256_hexdigest E x) →
  FS.is_dir f0 (vscode_dir self) = true →
  ∀ build_dirs,
    Forall (regular_dir self f0) build_dirs →
    pairwise_separate (map _extract_preset_name build_dirs) = true →
    ∀ acc b w configs ch wd,
      agrees_outside self f0 w →
      process_each E self build_dirs acc b w = (Ok (configs, ch), wd) →
      agrees_outside self f0 wd
      ∧ (∀ p, (∀ d n, d ∈ build_dirs → p = (vscode_dir self ++ [n])%list →
                      Fnmatch.fnmatch n
                        ((".conan_hash_" ++ _extract_preset_name d ++ "_") ++ "*")
                      = false) →
              fs wd !! p = fs w !! p)
      ∧ ∃ new,
          configs = (acc ++ new)%list
          ∧ ∀ w1 acc' b',
              agrees_outside self f0 w1 →
              (∀ d n, d ∈ build_dirs →
                      Fnmatch.fnmatch n
                        ((".conan_hash_" ++ _extract_preset_name d ++ "_") ++ "*")
                      = true →
                      fs w1 !! (vscode_dir self ++ [n])%list
                      = fs wd !! (vscode_dir self ++ [n])%list) →
              ∃ w2 evs,
                process_each E self build_dirs acc' b' w1
                = (Ok ((acc' ++ new)%list, b'), w2)
                ∧ fs w2 = fs w1
                ∧ trace w2 = (trace w1 ++ evs)%list
                ∧ existsb is_write evs = false.
Proof.
  intros Hvscode Hdigest Hdir build_dirs Hreg.
  induction Hreg as [|d rest Hd Hrest IH]; intros Hsep acc b w configs ch wd Hag Hrun.
  { simpl in Hrun. apply ret_ok in Hrun as [[= -> ->] ->].
    split; [done|]. split; [done|]. exists []. rewrite app_nil_r. split; [done|].
    intros w1 acc' b' _ _. exists w1, []. simpl. by rewrite !app_nil_r. }
  destruct Hd as (Hunder & Hplain & Hlit & Htypes).
  simpl in Hsep. apply andb_true_iff in Hsep as [Hsep_d Hsep_rest].
  simpl in Hrun. apply bind_ok in Hrun as ([cs c] & wm & Hproc & Hrun).
  assert (agrees_outside self f0 wm) as Hagm.
  { pose proof (process_build_directory_confined _ _ _ _ _ _ Hproc)
      as (_ & _ & _ & _ & Hf).
    intros p Hp. rewrite Hf by done. by apply Hag. }
  assert (∀ p, (∀ n, p = (vscode_dir self ++ [n])%list →
                     Fnmatch.fnmatch n
                       ((".conan_hash_" ++ _extract_preset_name d ++ "_") ++ "*")
                     = false) →
               fs wm !! p = fs w !! p) as Hfoot_d.
  { apply (process_build_directory_footprint E self d (_extract_preset_name d)
             Hvscode Hplain Hlit w (cs, c) wm eq_refl); [|done].
    by rewrite (cache_build_types_agree self f0 w d). }
  destruct (IH Hsep_rest _ _ _ _ _ _ Hagm Hrun)
    as (Hagd & Hfoot_rest & new & -> & Hnext).
  assert (∀ d' n, d' ∈ rest →
            Fnmatch.fnmatch n
              ((".conan_hash_" ++ _extract_preset_name d ++ "_") ++ "*") = true →
            Fnmatch.fnmatch n
              ((".conan_hash_" ++ _extract_preset_name d' ++ "_") ++ "*") = false)
    as Hapart.
  { intros d' n Hd' Hm. rewrite Forall_forall in Hrest.
    destruct (Hrest d' Hd') as (_ & _ & Hlit' & _).
    apply (separate_patterns (_extract_preset_name d)); try done.
    rewrite forallb_forall in Hsep_d. apply Hsep_d.
    apply in_map. by apply list_elem_of_In. }
  split; [done|]. split.
  { intros p Hp. rewrite Hfoot_rest, Hfoot_d; [done| |].
    - intros n Hn. apply (Hp d n); [apply list_elem_of_here|done].
    - intros d' n Hd' Hn. apply (Hp d' n); [by apply list_elem_of_further|done]. }
  exists (cs ++ new)%list. split; [by rewrite app_assoc|].
  intros w1 acc' b' Hag1 Hrel.
  assert (∀ n, Fnmatch.fnmatch n
                 ((".conan_hash_" ++ _extract_preset_name d ++ "_") ++ "*") = true →
               fs w1 !! (vscode_dir self ++ [n])%list
               = fs wm !! (vscode_dir self ++ [n])%list) as Hrel_d.
  { intros n Hm. rewrite (Hrel d n) by (done || apply list_elem_of_here).
    apply Hfoot_rest. intros d' n' Hd' [_ [= <-]]%app_inj_tail. by apply Hapart. }
  destruct Hunder as [tail Htail].
  assert (Forall (fun bt => plain_name bt = true) (cache_build_types f0 d)) as Hty.
  { apply Forall_forall. intros bt Hbt%list_elem_of_In.
    rewrite forallb_forall in Htypes. by apply Htypes. }
  destruct (process_build_directory_again E self tail d (_extract_preset_name d) f0
              Hvscode Htail Hplain Hdigest w cs c wm Hag eq_refl Hdir Hty Hproc
              w1 Hag1) as (w2a & evs_a & Hproc2 & Hfs_a & Ht_a & Hw_a).
  { intros bt Hbt.
    destruct (hash_file_matches self (_extract_preset_name d) bt) as (n & -> & Hm);
      [done..|]. by apply Hrel_d. }
  { exact Hrel_d. }
  destruct (Hnext w2a (acc' ++ cs)%list (b' || false))
    as (w2 & evs_b & Hrest2 & Hfs_b & Ht_b & Hw_b).
  { intros p Hp. rewrite Hfs_a. by apply Hag1. }
  { intros d' n Hd' Hm. rewrite Hfs_a.
    apply (Hrel d' n); [by apply list_elem_of_further|done]. }
  exists w2, (evs_a ++ evs_b)%list. simpl. unfold bind at 1. rewrite Hproc2.
  rewrite Hrest2. rewrite orb_false_r, <- app_assoc.
  split; [done|]. split; [by rewrite Hfs_b|].
  split; [by rewrite Ht_b, Ht_a, app_assoc|]. by rewrite existsb_app, Hw_a, Hw_b.
Qed.

(** X17: a second run changes nothing, for a workspace with any number of
    build directories below [build] whose presets are kept apart: if the
    first run returned, the second returns 1 if the first one did and 2
    otherwise, leaves every file as it is, and writes neither a hash record
    nor the document. The preset names and build types are single path
    components, the preset names hold no wildcard, no preset's record
    prefix starts with another's, and the digest is a text without
    surrounding white space. *)
Theorem second_run_changes_nothing_many E self build_dirs w rc w1 :
  vscode_dir self = workspace_root self // ".vscode" →
  Forall (regular_dir self (fs w)) build_dirs →
  pairwise_separate (map _extract_preset_name build_dirs) = true →
  (∀ x, PyStr.strip (sha256_hexdigest E x) = sha256_hexdigest E x) →
  FS.is_dir (fs w) (vscode_dir self) = true →
  generate_configuration E self build_dirs w = (Ok rc, w1) →
  ∃ w2 evs,
    generate_configuration E self build_dirs w1
    = (Ok (if (rc =? 1)%nat then 1%nat else 2%nat), w2)
    ∧ fs w2 = fs w1
    ∧ trace w2 = (trace w1 ++ evs)%list
    ∧ existsb is_write evs = false.
Proof.
  intros Hvscode Hreg Hsep Hdigest Hdir Hrun.
  unfold generate_configuration in Hrun.
  apply bind_ok in Hrun as ([configs ch] & wd & Hproc & Hrun).
  assert (agrees_outside self (fs w) w) as Hag0 by (by intros p _).
  destruct (process_each_again E self (fs w) Hvscode Hdigest Hdir build_dirs Hreg Hsep
              _ _ _ _ _ _ Hag0 Hproc) as (Hagd & _ & new & Hnew & Hnext).
  simpl in Hnew. subst configs.
  assert (∀ p, p ≠ output_file_of self → fs w1 !! p = fs wd !! p) as Hsame.
  { intros p Hp. destruct new as [|c0 cs].
    - apply bind_ok in Hrun as (u & w' & Hprint & Hrun).
      apply ret_ok in Hrun as [_ ->]. by injection Hprint as _ <-.
    - destruct ch.
      + apply bind_ok in Hrun as (u & w' & Hwrite & Hrun).
        apply write_ok in Hwrite as [Hfs _].
        apply bind_ok in Hrun as (u' & w'' & Hprint & Hrun).
        apply ret_ok in Hrun as [_ ->]. injection Hprint as _ <-. simpl.
        by rewrite Hfs, lookup_insert_ne.
      + by apply ret_ok in Hrun as [_ ->]. }
  destruct (Hnext w1 [] false) as (w2 & evs & Hproc2 & Hfs2 & Ht2 & Hw2).
  { intros p Hp. rewrite Hsame; [by apply Hagd|].
    intros ->. apply Hp, output_file_under. }
  { intros d n _ Hm. apply Hsame.
    rewrite output_file_parts. intros [_ ->]%app_inj_tail.
    change ((".conan_hash_" ++ _extract_preset_name d ++ "_") ++ "*")
      with (String "." (("conan_hash_" ++ _extract_preset_name d ++ "_") ++ "*")) in Hm.
    by rewrite fnmatch_dot in Hm. }
  unfold generate_configuration, bind at 1. rewrite Hproc2. simpl.
  destruct new as [|c0 cs].
  - apply bind_ok in Hrun as (u & w' & Hprint & Hrun).
    apply ret_ok in Hrun as [-> _].
    eexists _, (evs ++ [_])%list. split; [reflexivity|]. simpl.
    split; [done|]. split; [by rewrite Ht2, app_assoc|].
    by rewrite existsb_app, Hw2.
  - exists w2, evs. split; [|done]. unfold ret. f_equal. f_equal.
    destruct ch.
    + apply bind_ok in Hrun as (u & w' & Hwrite & Hrun).
      apply bind_ok in Hrun as (u' & w'' & Hprint & Hrun).
      by apply ret_ok in Hrun as [-> _].
    + by apply ret_ok in Hrun as [-> _].
Qed.

Lemma second_run_changes_nothing_many_witness :
  ∃ w1 w2 evs,
    generate_configuration Demo.linux Demo.self
      [Demo.build_dir_of "a"; Demo.build_dir_of "b"] Demo.w_apart = (Ok 0%nat, w1)
    ∧ generate_configuration Demo.linux Demo.self
        [Demo.build_dir_of "a"; Demo.build_dir_of "b"] w1 = (Ok 2%nat, w2)
    ∧ fs w2 = fs w1
    ∧ trace w2 = (trace w1 ++ evs)%list
    ∧ existsb is_write evs = false.
Proof.
  destruct (generate_configuration Demo.linux Demo.self
              [Demo.build_dir_of "a"; Demo.build_dir_of "b"] Demo.w_apart)
    as [r w1] eqn:Hrun.
  assert (r = Ok 0%nat) as ->.
  { change r with (fst (r, w1)). rewrite <- Hrun. vm_compute. reflexivity. }
  assert (Forall (regular_dir Demo.self (fs Demo.w_apart))
            [Demo.build_dir_of "a"; Demo.build_dir_of "b"]) as Hreg.
  { repeat constructor; try (vm_compute; reflexivity).
    - by exists ["a"; "build"].
    - by exists ["b"; "build"]. }
  assert (FS.is_dir (fs Demo.w_apart) (vscode_dir Demo.self) = true) as Hdir
    by (vm_compute; reflexivity).
  destruct (second_run_changes_nothing_many Demo.linux Demo.self
              [Demo.build_dir_of "a"; Demo.build_dir_of "b"] Demo.w_apart 0%nat w1
              eq_refl Hreg eq_refl hex_encode_strip Hdir Hrun)
    as (w2 & evs & H).
  exists w1, w2, evs. split; [reflexivity|]. exact H.
Defined.

(** ** A workspace that was not configured *)








(** ** Runs that return *)






Section Returns.
Context (E : Env) (self : generator) (f0 : gmap path node).
Hypothesis Hvscode : vscode_dir self = workspace_root self // ".vscode".
Hypothesis Hsettings : FS.is_dir f0 (vscode_dir self) = true.








End Returns.




(** ** The first run on a fresh workspace *)



Section Fresh.
Context (E : Env) (self : generator) (build_dir : path) (preset_name : string).
Hypothesis Hvscode : vscode_dir self = workspace_root self // ".vscode".
Hypothesis Hpreset : plain_name preset_name = true.




End Fresh.




(** ** The records that a run stores *)


Section Stores.
Context (E : Env) (self : generator) (build_dirs : list path) (w0 : world).









End Stores.

(** ** Runs that mark no pair *)







(** ** When the document is written *)






(** ** Where a run writes and what it removes *)


Section Targets.
Context (E : Env) (self : generator) (build_dirs : list path) (w0 : world).
Hypothesis Hvscode : vscode_dir self = workspace_root self // ".vscode".
Hypothesis Hunder : Forall (under_build self) build_dirs.
Hypothesis Hpresets :
  forallb (fun d => plain_name (_extract_preset_name d)) build_dirs = true.










End Targets.




